(** * Invitation metrics backend: shallow embedding and verified properties

    The file has three parts.

    - The embedding.  Module [JS] holds the fragment of the ECMAScript
      runtime the sources rely on: 32-bit integer conversion, number
      formatting, string order, stable sort, the insertion-ordered [Map]
      and [Date] (time-value arithmetic of ECMA-262, ISO formatting, and
      parsing of the ISO date-time form as V8, the engine of Node.js, does
      it).  The document store is a pair of finite maps with merging
      writes.  Section [Backend] translates src/lib/date.ts,
      src/unipile/mock.ts, src/lib/firestore.ts and src/routes/metrics.ts
      function by function, under the names of the sources.
    - The vocabulary the statements use (calendar days by number, batches
      of writes, the pure content of the effectful functions).
    - The properties, with the claims of the specification marked C1 to
      C10 and further properties of the sources marked X1 to X27.

    Modelling choices.  JavaScript strings are [string]s (sequences of code
    units below 256); numbers are [Z], every intermediate value of the
    sources being an integer of magnitude below 2^53 and so exact as a
    double; a [Date] is its time value, [option Z], where [None] is NaN
    ("Invalid Date"); an exception is a result [Throw message].  Functions
    that touch the store or the clock are state transformers over [World].
    The store accepts every write and answers every query: failures of the
    service itself, its limits on batches and on document paths, and the
    interleaving of concurrent requests are outside the model, as is the
    console output. *)

From Stdlib Require Import ZArith String Ascii List Lia Bool.
From stdpp Require Import base option list gmap strings sorting.

Local Open Scope string_scope.
Local Open Scope list_scope.
Local Open Scope Z_scope.

(** ** Exceptions *)

(** A computation either returns a value or throws an [Error] whose
    [message] is kept. *)
Inductive result (A : Type) : Type :=
| Ok (a : A)
| Throw (message : string).
Arguments Ok {A} a.
Arguments Throw {A} message.

Definition rbind {A B} (r : result A) (k : A -> result B) : result B :=
  match r with
  | Ok a => k a
  | Throw m => Throw m
  end.

Notation "'try' x <- c ; k" := (rbind c (fun x => k))
  (at level 10, x name, c at level 100, k at level 200).

Module JS.

(** *** Integers *)

(** ToInt32: wrap an integer into [-2^31, 2^31). *)
Definition toInt32 (x : Z) : Z := (x + 2147483648) mod 4294967296 - 2147483648.

(** [a << n] on numbers. *)
Definition shl (a n : Z) : Z := toInt32 (Z.shiftl (toInt32 a) (n mod 32)).

(** [a & b] on numbers. *)
Definition band (a b : Z) : Z := toInt32 (Z.land (toInt32 a) (toInt32 b)).

(** [a % b] on integers (sign of the dividend). *)
Definition rem (a b : Z) : Z := Z.rem a b.

(** [s.charCodeAt(i)] for the character at hand. *)
Definition charCode (c : ascii) : Z := Z.of_N (N_of_ascii c).

(** *** Number formatting *)

(** The digit characters 0-9a-z used by [Number.prototype.toString]. *)
Definition digitChar (d : Z) : ascii :=
  if d <? 10 then ascii_of_N (Z.to_N (48 + d)) else ascii_of_N (Z.to_N (87 + d)).

Fixpoint toDigits (fuel : nat) (radix n : Z) (acc : string) : string :=
  let acc' := String (digitChar (n mod radix)) acc in
  match fuel with
  | O => acc'
  | S f => if n / radix =? 0 then acc' else toDigits f radix (n / radix) acc'
  end.

(** [n.toString(radix)] for an integer [n]; the fuel [log2 n] covers every
    digit for each radix from 2 on. *)
Definition numberToString (radix n : Z) : string :=
  if n <? 0 then String "-" (toDigits (Z.to_nat (Z.log2 (- n))) radix (- n) "")
  else toDigits (Z.to_nat (Z.log2 n)) radix n "".

Fixpoint repeatChar (c : ascii) (n : nat) : string :=
  match n with
  | O => ""
  | S k => String c (repeatChar c k)
  end.

(** [s.padStart(target, c)] for a one-character filler. *)
Definition padStart (target : nat) (c : ascii) (s : string) : string :=
  repeatChar c (target - String.length s) +:+ s.

(** [s.replace(/c/g, '')]: drop every occurrence of the character. *)
Fixpoint removeChar (c : ascii) (s : string) : string :=
  match s with
  | EmptyString => EmptyString
  | String a s' => if Ascii.eqb a c then removeChar c s' else String a (removeChar c s')
  end.

(** [s.split(c)[0]]: the text before the first occurrence of [c]. *)
Fixpoint splitHead (c : ascii) (s : string) : string :=
  match s with
  | EmptyString => EmptyString
  | String a s' => if Ascii.eqb a c then EmptyString else String a (splitHead c s')
  end.

(** *** String order and sorting *)

(** Order of strings by code units, the order in which the document store
    compares string fields. *)
Fixpoint strCompare (a b : string) : comparison :=
  match a, b with
  | EmptyString, EmptyString => Eq
  | EmptyString, String _ _ => Lt
  | String _ _, EmptyString => Gt
  | String c a', String d b' =>
      match charCode c ?= charCode d with
      | Eq => strCompare a' b'
      | r => r
      end
  end.

Definition strLt (a b : string) : bool :=
  match strCompare a b with Lt => true | _ => false end.
Definition strLe (a b : string) : bool :=
  match strCompare a b with Gt => false | _ => true end.

Section Sort.
Context {A : Type} (cmp : A -> A -> Z).

Fixpoint sortInsert (x : A) (l : list A) : list A :=
  match l with
  | [] => [x]
  | y :: l' => if cmp x y <=? 0 then x :: y :: l' else y :: sortInsert x l'
  end.

(** [l.sort(cmp)]: a stable sort; elements that compare equal keep their
    order. *)
Definition sortBy (l : list A) : list A := foldr sortInsert [] l.
End Sort.

(** *** Insertion-ordered [Map] with string keys *)

Section JsMap.
Context {V : Type}.

(** [m.set(k, v)]: an existing key keeps its position, a new key goes last. *)
Fixpoint mapSet (k : string) (v : V) (m : list (string * V)) : list (string * V) :=
  match m with
  | [] => [(k, v)]
  | (k', v') :: m' =>
      if String.eqb k' k then (k, v) :: m' else (k', v') :: mapSet k v m'
  end.

(** [m.get(k)], [None] standing for [undefined]. *)
Fixpoint mapGet (k : string) (m : list (string * V)) : option V :=
  match m with
  | [] => None
  | (k', v') :: m' => if String.eqb k' k then Some v' else mapGet k m'
  end.
End JsMap.

(** *** [Date]: the time-value arithmetic of ECMA-262, section 21.4.1 *)

Definition msPerDay : Z := 86400000.
Definition msPerHour : Z := 3600000.
Definition msPerMinute : Z := 60000.
Definition msPerSecond : Z := 1000.

Definition Day (t : Z) : Z := t / msPerDay.
Definition TimeWithinDay (t : Z) : Z := t mod msPerDay.

Definition DaysInYear (y : Z) : Z :=
  if negb (y mod 4 =? 0) then 365
  else if negb (y mod 100 =? 0) then 366
  else if negb (y mod 400 =? 0) then 365
  else 366.

Definition DayFromYear (y : Z) : Z :=
  365 * (y - 1970) + (y - 1969) / 4 - (y - 1901) / 100 + (y - 1601) / 400.

(** The largest year whose first day is not after day [d]: an estimate from
    the mean year length, corrected by at most one (see [YearFromDay_spec]). *)
Definition YearFromDay (d : Z) : Z :=
  let y := 1970 + (400 * d) / 146097 in
  if d <? DayFromYear y then y - 1
  else if DayFromYear (y + 1) <=? d then y + 1
  else y.

Definition YearFromTime (t : Z) : Z := YearFromDay (Day t).
Definition InLeapYear (t : Z) : Z :=
  if DaysInYear (YearFromTime t) =? 366 then 1 else 0.
Definition DayWithinYear (t : Z) : Z := Day t - DayFromYear (YearFromTime t).

(** Number of the first day of month [m] (0-based) within its year. *)
Definition monthStart (m leap : Z) : Z :=
  if m =? 0 then 0 else if m =? 1 then 31
  else if m =? 2 then 59 + leap else if m =? 3 then 90 + leap
  else if m =? 4 then 120 + leap else if m =? 5 then 151 + leap
  else if m =? 6 then 181 + leap else if m =? 7 then 212 + leap
  else if m =? 8 then 243 + leap else if m =? 9 then 273 + leap
  else if m =? 10 then 304 + leap else 334 + leap.

Definition MonthFromTime (t : Z) : Z :=
  let d := DayWithinYear t in
  let leap := InLeapYear t in
  if d <? 31 then 0 else if d <? 59 + leap then 1
  else if d <? 90 + leap then 2 else if d <? 120 + leap then 3
  else if d <? 151 + leap then 4 else if d <? 181 + leap then 5
  else if d <? 212 + leap then 6 else if d <? 243 + leap then 7
  else if d <? 273 + leap then 8 else if d <? 304 + leap then 9
  else if d <? 334 + leap then 10 else 11.

Definition DateFromTime (t : Z) : Z :=
  DayWithinYear t - monthStart (MonthFromTime t) (InLeapYear t) + 1.

Definition HourFromTime (t : Z) : Z := (t / msPerHour) mod 24.
Definition MinFromTime (t : Z) : Z := (t / msPerMinute) mod 60.
Definition SecFromTime (t : Z) : Z := (t / msPerSecond) mod 60.
Definition msFromTime (t : Z) : Z := t mod msPerSecond.

Definition MakeTime (hour min sec ms : Z) : Z :=
  hour * msPerHour + min * msPerMinute + sec * msPerSecond + ms.

(** The day number of the first of month [month] of [year], plus [date - 1];
    months outside 0..11 carry into the year. *)
Definition MakeDay (year month date : Z) : Z :=
  let ym := year + month / 12 in
  let mn := month mod 12 in
  let leap := if DaysInYear ym =? 366 then 1 else 0 in
  DayFromYear ym + monthStart mn leap + date - 1.

Definition MakeDate (day time : Z) : Z := day * msPerDay + time.

(** Time values range over 100,000,000 days around the epoch. *)
Definition TimeClip (t : Z) : option Z :=
  if Z.abs t >? 8640000000000000 then None else Some t.

(** A [Date] object is its time value. *)
Definition date := option Z.

(** [a <= b] and [a > b] on dates: numeric comparison of the time values,
    false as soon as one of them is NaN. *)
Definition dateLe (a b : date) : bool :=
  match a, b with Some x, Some y => x <=? y | _, _ => false end.
Definition dateGt (a b : date) : bool :=
  match a, b with Some x, Some y => x >? y | _, _ => false end.

Definition getUTCDate (d : date) : option Z := DateFromTime <$> d.

Definition setUTCDate (d : date) (dt : option Z) : date :=
  match d, dt with
  | Some t, Some n =>
      TimeClip (MakeDate (MakeDay (YearFromTime t) (MonthFromTime t) n) (TimeWithinDay t))
  | _, _ => None
  end.

(** [d.setUTCHours(h, m, s, ms)]. *)
Definition setUTCHours (d : date) (h m s ms : Z) : date :=
  match d with
  | Some t => TimeClip (MakeDate (Day t) (MakeTime h m s ms))
  | None => None
  end.

(** Decimal digits of fixed width, most significant first. *)
Fixpoint fixedDigits (w : nat) (n : Z) : string :=
  match w with
  | O => ""
  | S w' => String (digitChar ((n / 10 ^ Z.of_nat w') mod 10)) (fixedDigits w' n)
  end.

(** Years 0 to 9999 take four digits, the others a sign and six. *)
Definition isoYear (y : Z) : string :=
  if (0 <=? y) && (y <=? 9999) then fixedDigits 4 y
  else String (if y <? 0 then "-"%char else "+"%char) (fixedDigits 6 (Z.abs y)).

Definition isoDateOfTime (t : Z) : string :=
  isoYear (YearFromTime t) +:+ "-" +:+ fixedDigits 2 (MonthFromTime t + 1)
    +:+ "-" +:+ fixedDigits 2 (DateFromTime t).

Definition isoClockOfTime (t : Z) : string :=
  fixedDigits 2 (HourFromTime t) +:+ ":" +:+ fixedDigits 2 (MinFromTime t)
    +:+ ":" +:+ fixedDigits 2 (SecFromTime t) +:+ "." +:+ fixedDigits 3 (msFromTime t)
    +:+ "Z".

(** [d.toISOString()]: a RangeError on an invalid date. *)
Definition toISOString (d : date) : result string :=
  match d with
  | Some t => Ok (isoDateOfTime t +:+ "T" +:+ isoClockOfTime t)
  | None => Throw "Invalid time value"
  end.

(** *** Parsing *)

Definition isDigit (c : ascii) : bool :=
  (48 <=? charCode c) && (charCode c <=? 57).

(** [matchShape shape s]: [s] has the length of [shape], a decimal digit
    wherever [shape] has a [d], and the same character elsewhere. *)
Fixpoint matchShape (shape s : string) : bool :=
  match shape, s with
  | EmptyString, EmptyString => true
  | String p shape', String c s' =>
      (if Ascii.eqb p "d" then isDigit c else Ascii.eqb c p) && matchShape shape' s'
  | _, _ => false
  end.

Fixpoint digitsValue (s : string) (acc : Z) : Z :=
  match s with
  | EmptyString => acc
  | String c s' => digitsValue s' (10 * acc + (charCode c - 48))
  end.

Definition field (start len : nat) (s : string) : Z :=
  digitsValue (substring start len s) 0.

(** The date-time form [YYYY-MM-DDTHH:mm:ss.sssZ] as V8 reads it: month 1-12,
    day 1-31 (a day past the end of its month carries into the next one),
    hour 0-24 with 24 only as 24:00:00.000, minute and second 0-59. *)
Definition parseDateTime (s : string) : date :=
  let year := field 0 4 s in
  let month := field 5 2 s in
  let day := field 8 2 s in
  let hour := field 11 2 s in
  let minute := field 14 2 s in
  let second := field 17 2 s in
  let ms := field 20 3 s in
  if (1 <=? month) && (month <=? 12) && (1 <=? day) && (day <=? 31)
     && (hour <=? 24) && (minute <=? 59) && (second <=? 59)
     && ((hour <? 24) || ((minute =? 0) && (second =? 0) && (ms =? 0)))
  then TimeClip (MakeDate (MakeDay year (month - 1) day) (MakeTime hour minute second ms))
  else None.

Section Parse.
(** What [Date.parse] makes of a string that is not in the form above is
    left to the implementation by ECMA-262; it is a parameter here. *)
Variable hostDateParse : string -> date.

(** [new Date(s)] for a string [s]. *)
Definition newDate (s : string) : date :=
  if matchShape "dddd-dd-ddTdd:dd:dd.dddZ" s then parseDateTime s
  else hostDateParse s.
End Parse.

End JS.

(** ** Data shapes of the sources *)

Module MockInvitation.
Record t := mk { externalId : string; senderId : string; receivedAt : string }.
End MockInvitation.

Module RawInvitation.
Record t := mk {
  tenantId : string; accountId : string; externalId : string; receivedAt : string }.
End RawInvitation.

Module InvitationQueryResult.
Record t := mk { date : string; count : Z }.
End InvitationQueryResult.

(** [Omit<DailyRollup, 'updatedAt'>]; [status] is the constant ['ok']. *)
Module Rollup.
Record t := mk { date : string; invitationsCount : Z; status : string }.
End Rollup.

Module MetricDataPoint.
Record t := mk {
  date : string; value : Z; status : string;
  previousPeriodComparison : option Z }.
End MetricDataPoint.

(** A value of [req.query]: absent, a string, or an array or object. *)
Inductive QueryValue :=
| QUndefined
| QString (s : string)
| QOther.

Module Query.
Record t := mk {
  tenantId : QueryValue; accountId : QueryValue; from : QueryValue; to : QueryValue }.
End Query.

Module Params.
Record t := mk { tenantId : string; accountId : string; from : string; to : string }.
End Params.

(** The outcome of [validateQueryParams]: [{valid: true, params}] or
    [{valid: false, error}]. *)
Inductive Validation :=
| Valid (params : Params.t)
| Invalid (error : string).

Inductive ResponseBody :=
| ErrorResponse (error details : string)
| MetricData (data : list MetricDataPoint.t).

Module Response.
Record t := mk { statusCode : Z; body : ResponseBody }.
End Response.

(** ** The document store *)

(** Field values of the documents the sources write. *)
Inductive FieldValue :=
| FString (s : string)
| FNumber (n : Z).

#[global] Instance FieldValue_eq_dec : EqDecision FieldValue.
Proof. solve_decision. Defined.

Abbreviation Doc := (gmap string FieldValue).
Abbreviation Collection := (gmap string Doc).

(** The world a request runs in: the [invitations] collection by document
    id, the rollup documents by path, and the clock read by [new Date()].
    The clock is a logical one: a timer moves it by its nominal delay and
    nothing else does, the calls to the store taking no time here.  What is
    said of it holds of a function that awaits nothing but its timer; of
    the handler as a whole only the order of its steps is meant. *)
Record World := mkWorld {
  invitations : Collection;
  metrics : Collection;
  clock : Z }.

(** [batch.set(ref, data, {merge: true})]: the fields of [data] replace the
    fields of the same name, the other fields of the document stay. *)
Definition setMerge (key : string) (data : Doc) (col : Collection) : Collection :=
  <[key := data ∪ default ∅ (col !! key)]> col.

(** Computations over the world that may throw; the world reached so far
    survives an exception. *)
Definition M (A : Type) : Type := World -> result A * World.

Definition mret {A} (a : A) : M A := fun w => (Ok a, w).
Definition mbind' {A B} (c : M A) (k : A -> M B) : M B :=
  fun w => match c w with
           | (Ok a, w') => k a w'
           | (Throw m, w') => (Throw m, w')
           end.
Definition liftR {A} (r : result A) : M A := fun w => (r, w).

Notation "'do' x <- c ; k" := (mbind' c (fun x => k))
  (at level 10, x name, c at level 100, k at level 200).

(** [new Date()]: a date at the current reading of the clock. *)
Definition now : M JS.date := fun w => (Ok (Some (clock w)), w).

(** [await new Promise(resolve => setTimeout(resolve, ms))]. *)
Definition sleep (ms : Z) : M unit :=
  fun w => (Ok tt, mkWorld (invitations w) (metrics w) (clock w + ms)).

(** [x || 0] for a number that may be [undefined]. *)
Definition orZero (x : option Z) : Z :=
  match x with
  | Some v => if v =? 0 then 0 else v
  | None => 0
  end.

Section Backend.

(** The two points where the sources reach into the host: how [Date]
    reads a string outside the ISO date-time form, and the collation
    behind [String.prototype.localeCompare]. *)
Variable hostDateParse : string -> JS.date.
Variable localeCompare : string -> string -> Z.

(** *** src/lib/date.ts *)

Definition toISODateUTC (date : JS.date) : result string :=
  try iso <- JS.toISOString date;
  Ok (JS.splitHead "T" iso).

Definition addDaysUTC (date : JS.date) (days : Z) : JS.date :=
  let result := date in
  JS.setUTCDate result ((fun d => d + days) <$> JS.getUTCDate result).

Definition fromISODateUTC (isoDate : string) : JS.date :=
  JS.newDate hostDateParse (isoDate +:+ "T00:00:00.000Z").

(** The [while (current <= end)] loop; [None] when the fuel runs out. *)
Fixpoint eachDay_loop (fuel : nat) (current end_ : JS.date) (days : list string)
  : option (result (list string)) :=
  if JS.dateLe current end_ then
    match fuel with
    | O => None
    | S fuel' =>
        match toISODateUTC current with
        | Ok d => eachDay_loop fuel' (addDaysUTC current 1) end_ (days ++ [d])
        | Throw m => Some (Throw m)
        end
    end
  else Some (Ok days).

(** One iteration per day from [start] to [end_] (see [eachDay_loop_total]). *)
Definition eachDay_fuel (start end_ : JS.date) : nat :=
  match start, end_ with
  | Some s, Some e => Z.to_nat ((e - s) / JS.msPerDay + 1)
  | _, _ => O
  end.

Definition eachDayInclusive (fromDate toDate : string) : result (list string) :=
  let start := fromISODateUTC fromDate in
  let end_ := fromISODateUTC toDate in
  default (Ok []) (eachDay_loop (eachDay_fuel start end_) start end_ []).

Definition isValidISODate (dateString : string) : result bool :=
  if negb (JS.matchShape "dddd-dd-dd" dateString) then Ok false
  else
    let date := fromISODateUTC dateString in
    try iso <- toISODateUTC date;
    Ok (String.eqb iso dateString).

Definition startOfDayUTC (date : JS.date) : JS.date :=
  JS.setUTCHours date 0 0 0 0.

Definition endOfDayUTC (date : JS.date) : JS.date :=
  JS.setUTCHours date 23 59 59 999.

(** *** src/unipile/mock.ts *)

Fixpoint simpleHash_loop (str : string) (hash : Z) : Z :=
  match str with
  | EmptyString => hash
  | String c rest =>
      let hash1 := (JS.shl hash 5 - hash) + JS.charCode c in
      let hash2 := JS.band hash1 hash1 in
      simpleHash_loop rest hash2
  end.

Definition simpleHash (str : string) : Z := Z.abs (simpleHash_loop str 0).

Definition getDailyInvitationCount (tenantId accountId date : string) : Z :=
  let seed := tenantId +:+ "-" +:+ accountId +:+ "-" +:+ date in
  let hash := simpleHash seed in
  JS.rem hash 6.

(** The body of the [for] loop of [generateInvitationsForDay] at index [i]. *)
Definition generateInvitation (tenantId accountId date : string) (i : Z)
  : MockInvitation.t :=
  let seed := tenantId +:+ "-" +:+ accountId +:+ "-" +:+ date +:+ "-"
                +:+ JS.numberToString 10 i in
  let hash := simpleHash seed in
  let externalId := "inv_" +:+ JS.numberToString 36 hash +:+ "_"
                      +:+ JS.removeChar "-" date +:+ "_" +:+ JS.numberToString 10 i in
  let senderHash := simpleHash ("sender-" +:+ seed) in
  let senderId := "sender_" +:+ JS.numberToString 36 senderHash in
  let hourHash := simpleHash ("hour-" +:+ seed) in
  let hour := JS.rem hourHash 24 in
  let minuteHash := simpleHash ("minute-" +:+ seed) in
  let minute := JS.rem minuteHash 60 in
  let receivedAt := date +:+ "T" +:+ JS.padStart 2 "0" (JS.numberToString 10 hour)
                      +:+ ":" +:+ JS.padStart 2 "0" (JS.numberToString 10 minute)
                      +:+ ":00.000Z" in
  MockInvitation.mk externalId senderId receivedAt.

Definition generateInvitationsForDay (tenantId accountId date : string) (count : Z)
  : list MockInvitation.t :=
  generateInvitation tenantId accountId date <$> seqZ 0 count.

Definition mockFetchInvitations (tenantId accountId fromISO toISO : string)
  : M (list MockInvitation.t) :=
  do _ <- sleep 100;
  do days <- liftR (eachDayInclusive fromISO toISO);
  let allInvitations :=
    flat_map (fun date =>
                let count := getDailyInvitationCount tenantId accountId date in
                generateInvitationsForDay tenantId accountId date count) days in
  mret (JS.sortBy (fun a b => localeCompare (MockInvitation.receivedAt a)
                                            (MockInvitation.receivedAt b))
                  allInvitations).

Definition getExpectedDailyCount (tenantId accountId date : string) : Z :=
  getDailyInvitationCount tenantId accountId date.

(** The body of the [for] loop of [generateSampleSenderIds] at index [i]. *)
Definition generateSampleSenderId (tenantId accountId : string) (i : Z) : string :=
  let seed := "sender-" +:+ tenantId +:+ "-" +:+ accountId +:+ "-"
                +:+ JS.numberToString 10 i in
  let hash := simpleHash seed in
  "sender_" +:+ JS.numberToString 36 hash.

(** The [for] loop over [i] from 0 while [i < count], for an integer [count]. *)
Definition generateSampleSenderIds (tenantId accountId : string) (count : Z)
  : list string :=
  generateSampleSenderId tenantId accountId <$> seqZ 0 count.

(** *** src/lib/firestore.ts *)

Definition rawInvitationDoc (invitation : RawInvitation.t) : Doc :=
  <["tenantId" := FString (RawInvitation.tenantId invitation)]>
  (<["accountId" := FString (RawInvitation.accountId invitation)]>
  (<["externalId" := FString (RawInvitation.externalId invitation)]>
  (<["receivedAt" := FString (RawInvitation.receivedAt invitation)]> ∅))).

(** The batch of merging writes, one per invitation, under its
    [externalId]; the commit applies them in order. *)
Definition writeRawInvitations (invs : list RawInvitation.t) : M unit :=
  fun w =>
    let batch col :=
      fold_left (fun col invitation =>
                   setMerge (RawInvitation.externalId invitation)
                            (rawInvitationDoc invitation) col) invs col in
    (Ok tt, mkWorld (batch (invitations w)) (metrics w) (clock w)).

(** The four [where] clauses; a range clause on a string only matches
    documents whose field is a string. *)
Definition matchesQuery (tenantId accountId lower upper : string) (doc : Doc) : bool :=
  bool_decide (doc !! "tenantId" = Some (FString tenantId))
  && bool_decide (doc !! "accountId" = Some (FString accountId))
  && match doc !! "receivedAt" with
     | Some (FString receivedAt) => JS.strLe lower receivedAt && JS.strLt receivedAt upper
     | _ => false
     end.

Definition receivedAtOf (doc : Doc) : string :=
  match doc !! "receivedAt" with
  | Some (FString receivedAt) => receivedAt
  | _ => ""
  end.

(** The store hands the matching documents over by [receivedAt], then by
    document id. *)
Definition snapshotLe (a b : string * Doc) : Prop :=
  match JS.strCompare (receivedAtOf a.2) (receivedAtOf b.2) with
  | Lt => True
  | Eq => JS.strLe a.1 b.1 = true
  | Gt => False
  end.

#[local] Instance snapshotLe_dec a b : Decision (snapshotLe a b).
Proof. unfold snapshotLe. destruct (JS.strCompare _ _); apply _. Defined.

Definition querySnapshot (tenantId accountId lower upper : string) (col : Collection)
  : list Doc :=
  snd <$> merge_sort snapshotLe
            (filter (fun kv => matchesQuery tenantId accountId lower upper kv.2 = true)
                    (map_to_list col)).

(** The [snapshot.forEach] tally by calendar day. *)
Fixpoint countByDate (docs : list Doc) (dateCountMap : list (string * Z))
  : result (list (string * Z)) :=
  match docs with
  | [] => Ok dateCountMap
  | data :: docs' =>
      try date <- toISODateUTC (JS.newDate hostDateParse (receivedAtOf data));
      countByDate docs'
        (JS.mapSet date (orZero (JS.mapGet date dateCountMap) + 1) dateCountMap)
  end.

Definition queryInvitationsByDateRange (tenantId accountId fromDate toDate : string)
  : M (list InvitationQueryResult.t) :=
  let fromTimestamp := startOfDayUTC (fromISODateUTC fromDate) in
  let toTimestamp := startOfDayUTC (addDaysUTC (fromISODateUTC toDate) 1) in
  do lower <- liftR (JS.toISOString fromTimestamp);
  do upper <- liftR (JS.toISOString toTimestamp);
  fun w =>
    let snapshot := querySnapshot tenantId accountId lower upper (invitations w) in
    (try dateCountMap <- countByDate snapshot [];
     Ok ((fun '(date, count) => InvitationQueryResult.mk date count) <$> dateCountMap),
     w).

Definition rollupDoc (rollup : Rollup.t) (updatedAt : string) : Doc :=
  <["date" := FString (Rollup.date rollup)]>
  (<["invitationsCount" := FNumber (Rollup.invitationsCount rollup)]>
  (<["status" := FString (Rollup.status rollup)]>
  (<["updatedAt" := FString updatedAt]> ∅))).

(** The loop of [writeDailyRollups] that fills the batch. *)
Fixpoint rollupBatch (tenantId accountId : string) (rollups : list Rollup.t)
    (batch : list (string * Doc)) : M (list (string * Doc)) :=
  match rollups with
  | [] => mret batch
  | rollup :: rollups' =>
      let docPath := "metrics/" +:+ tenantId +:+ "/accounts/" +:+ accountId
                       +:+ "/daily/" +:+ Rollup.date rollup in
      do date <- now;
      do updatedAt <- liftR (JS.toISOString date);
      rollupBatch tenantId accountId rollups'
                  (batch ++ [(docPath, rollupDoc rollup updatedAt)])
  end.

Definition writeDailyRollups (tenantId accountId : string) (rollups : list Rollup.t)
  : M unit :=
  do batch <- rollupBatch tenantId accountId rollups [];
  fun w =>
    (Ok tt,
     mkWorld (invitations w)
             (fold_left (fun col '(path, doc) => setMerge path doc col) batch (metrics w))
             (clock w)).

Definition getTotalInvitationsInPeriod (tenantId accountId fromDate toDate : string)
  : M Z :=
  do results <- queryInvitationsByDateRange tenantId accountId fromDate toDate;
  mret (fold_left (fun total r => total + InvitationQueryResult.count r) results 0).

(** *** src/routes/metrics.ts *)

(** The parameter when it passes [!x || typeof x !== 'string'], that is
    when it is a string and not the empty one. *)
Definition requiredString (x : QueryValue) : option string :=
  match x with
  | QString s => if String.eqb s "" then None else Some s
  | _ => None
  end.

Definition validateQueryParams (query : Query.t) : result Validation :=
  match requiredString (Query.tenantId query) with
  | None => Ok (Invalid "tenantId is required and must be a string")
  | Some tenantId =>
  match requiredString (Query.accountId query) with
  | None => Ok (Invalid "accountId is required and must be a string")
  | Some accountId =>
  match requiredString (Query.from query) with
  | None => Ok (Invalid "from is required and must be a string in YYYY-MM-DD format")
  | Some from =>
  match requiredString (Query.to query) with
  | None => Ok (Invalid "to is required and must be a string in YYYY-MM-DD format")
  | Some to =>
      try fromOk <- isValidISODate from;
      if negb fromOk then Ok (Invalid "from must be a valid date in YYYY-MM-DD format")
      else
        try toOk <- isValidISODate to;
        if negb toOk then Ok (Invalid "to must be a valid date in YYYY-MM-DD format")
        else
          let fromDate := fromISODateUTC from in
          let toDate := fromISODateUTC to in
          if JS.dateGt fromDate toDate
          then Ok (Invalid "from date must be less than or equal to to date")
          else Ok (Valid (Params.mk tenantId accountId from to))
  end end end end.

Definition createZeroFilledCounts (dateRange : list string)
    (actualCounts : list (string * Z)) : list (string * Z) :=
  fold_left (fun zeroFilled date =>
               JS.mapSet date (orZero (JS.mapGet date actualCounts)) zeroFilled)
            dateRange [].

(** Step 6 of the handler: the ISO days that bound the previous period. *)
Definition previousPeriod (from : string) : result (string * string) :=
  let fromDate := fromISODateUTC from in
  let previousPeriodEnd := addDaysUTC fromDate (-1) in
  let previousPeriodStart := addDaysUTC fromDate (-7) in
  try previousFromISO <- toISODateUTC previousPeriodStart;
  try previousToISO <- toISODateUTC previousPeriodEnd;
  Ok (previousFromISO, previousToISO).

(** Step 7 of the handler. *)
Definition formatData (zeroFilledCounts : list (string * Z))
    (previousPeriodComparison : Z) : list MetricDataPoint.t :=
  imap (fun index '(date, value) =>
          MetricDataPoint.mk date value "ok"
            (if Nat.eqb index 0 then Some previousPeriodComparison else None))
       zeroFilledCounts.

(** Steps 3 to 7 of the handler: read the counts back from the store,
    zero-fill, write the rollups, compare with the previous period and
    format. *)
Definition reportFromStore (params : Params.t) : M Response.t :=
  let tenantId := Params.tenantId params in
  let accountId := Params.accountId params in
  let from := Params.from params in
  let to := Params.to params in
  do invitationResults <- queryInvitationsByDateRange tenantId accountId from to;
  let actualCountsMap :=
    fold_left (fun m r => JS.mapSet (InvitationQueryResult.date r)
                                    (InvitationQueryResult.count r) m)
              invitationResults [] in
  do dateRange <- liftR (eachDayInclusive from to);
  let zeroFilledCounts := createZeroFilledCounts dateRange actualCountsMap in
  let rollups := (fun '(date, count) => Rollup.mk date count "ok") <$> zeroFilledCounts in
  do _ <- writeDailyRollups tenantId accountId rollups;
  do previous <- liftR (previousPeriod from);
  do previousPeriodComparison <-
    getTotalInvitationsInPeriod tenantId accountId previous.1 previous.2;
  mret (Response.mk 200 (MetricData (formatData zeroFilledCounts previousPeriodComparison))).

(** The [try] block of the handler once validation has passed: steps 1
    and 2 (fetch, then write the raw invitations), then the rest. *)
Definition processRequest (params : Params.t) : M Response.t :=
  let tenantId := Params.tenantId params in
  let accountId := Params.accountId params in
  let from := Params.from params in
  let to := Params.to params in
  do mockInvitations <- mockFetchInvitations tenantId accountId from to;
  let rawInvitations :=
    (fun invitation =>
       RawInvitation.mk tenantId accountId
                        (MockInvitation.externalId invitation)
                        (MockInvitation.receivedAt invitation)) <$> mockInvitations in
  do _ <- writeRawInvitations rawInvitations;
  reportFromStore params.

Definition getDailyInvitationMetrics (query : Query.t) : World -> Response.t * World :=
  fun w =>
    let attempt : M Response.t :=
      do validation <- liftR (validateQueryParams query);
      match validation with
      | Invalid error =>
          mret (Response.mk 400 (ErrorResponse "Invalid query parameters" error))
      | Valid params => processRequest params
      end in
    match attempt w with
    | (Ok response, w') => (response, w')
    | (Throw message, w') =>
        (Response.mk 500 (ErrorResponse "Internal server error" message), w')
    end.

End Backend.

(** * Vocabulary of the specification *)

Import JS.

(** Linear arithmetic with division and remainder by constants. *)
Ltac dlia := Z.to_euclidean_division_equations; lia.

(** ** Calendar days *)

(** 1 for a leap year, 0 for a common one. *)
Definition leapOf (y : Z) : Z := if DaysInYear y =? 366 then 1 else 0.

(** Length of month [m] (0-based) in a common ([leap = 0]) or leap year. *)
Definition daysInMonth (m leap : Z) : Z :=
  if m =? 1 then 28 + leap
  else if (m =? 3) || (m =? 5) || (m =? 8) || (m =? 10) then 30
  else 31.

(** The text [YYYY-MM-DD] of three numbers, each cut to its width. *)
Definition ymdString (y m d : Z) : string :=
  fixedDigits 4 y +:+ "-" +:+ fixedDigits 2 m +:+ "-" +:+ fixedDigits 2 d.

(** The text [HH:mm:ss.sssZ] of four numbers. *)
Definition clockString (h mi s ms : Z) : string :=
  fixedDigits 2 h +:+ ":" +:+ fixedDigits 2 mi +:+ ":" +:+ fixedDigits 2 s
    +:+ "." +:+ fixedDigits 3 ms +:+ "Z".

(** [lacksChar c s]: the character [c] does not occur in [s]. *)
Fixpoint lacksChar (c : ascii) (s : string) : bool :=
  match s with
  | EmptyString => true
  | String a s' => negb (Ascii.eqb a c) && lacksChar c s'
  end.

(** The ISO text of day number [n], days being counted from 1970-01-01. *)
Definition isoDay (n : Z) : string := isoDateOfTime (n * msPerDay).

(** The day numbers of 0000-01-01 and of 9999-12-31. *)
Definition firstDay : Z := -719528.
Definition lastDay : Z := 2932896.

(** The text [toISOString] gives for the time value [t]. *)
Definition isoInstant (t : Z) : string := isoDateOfTime t +:+ "T" +:+ isoClockOfTime t.

(** The day number a calendar day parses to. *)
Definition dayNumber (hostDateParse : string -> date) (s : string) : Z :=
  match fromISODateUTC hostDateParse s with
  | Some t => Day t
  | None => 0
  end.

(** Lexicographic combination of two comparisons. *)
Definition lexCompare (c1 c2 : comparison) : comparison :=
  match c1 with Eq => c2 | c => c end.

(** The value of a numeral in the given radix, digits being 0-9a-z. *)
Definition digitOf (c : ascii) : Z :=
  if charCode c <? 58 then charCode c - 48 else charCode c - 87.

Fixpoint radixValue (radix : Z) (s : string) (acc : Z) : Z :=
  match s with
  | EmptyString => acc
  | String c s' => radixValue radix s' (acc * radix + digitOf c)
  end.

(** ** Batches of writes *)

(** A committed batch: its merging writes applied in order. *)
Definition applyBatch (batch : list (string * Doc)) (col : Collection) : Collection :=
  fold_left (fun col '(key, data) => setMerge key data col) batch col.

(** The union of the documents a batch writes under [key], later writes first. *)
Fixpoint mergedFor (key : string) (batch : list (string * Doc)) : option Doc :=
  match batch with
  | [] => None
  | (key', data) :: rest =>
      if decide (key' = key)
      then Some (match mergedFor key rest with Some later => later ∪ data | None => data end)
      else mergedFor key rest
  end.

(** The batch [writeRawInvitations] commits. *)
Definition rawBatch (invs : list RawInvitation.t) : list (string * Doc) :=
  (fun invitation => (RawInvitation.externalId invitation, rawInvitationDoc invitation)) <$> invs.

(** The batch the handler commits in step 2 for what the generator returned. *)
Definition ingestBatch (params : Params.t) (mock : list MockInvitation.t)
  : list (string * Doc) :=
  rawBatch ((fun invitation =>
               RawInvitation.mk (Params.tenantId params) (Params.accountId params)
                                (MockInvitation.externalId invitation)
                                (MockInvitation.receivedAt invitation)) <$> mock).

(** The document path of a rollup, and the batch [writeDailyRollups]
    commits when the clock makes [updatedAt]. *)
Definition rollupPath (tenantId accountId : string) (rollup : Rollup.t) : string :=
  "metrics/" +:+ tenantId +:+ "/accounts/" +:+ accountId +:+ "/daily/" +:+ Rollup.date rollup.

Definition rollupDocs (tenantId accountId : string) (updatedAt : string)
    (rollups : list Rollup.t) : list (string * Doc) :=
  (fun rollup => (rollupPath tenantId accountId rollup, rollupDoc rollup updatedAt)) <$> rollups.

(** ** Worlds *)

Definition tick (ms : Z) (w : World) : World :=
  mkWorld (invitations w) (metrics w) (clock w + ms).

Definition withMetrics (w : World) (m : Collection) : World :=
  mkWorld (invitations w) m (clock w).

Definition withInvitations (w : World) (c : Collection) : World :=
  mkWorld c (metrics w) (clock w).

(** ** The pure content of the effectful functions

    Each definition below is the value the function of the sources named
    in its comment returns, as a function of what it reads; the lemmas
    [..._run] relate them. *)

(** [mockFetchInvitations]. *)
Definition generated (hostDateParse : string -> date) (localeCompare : string -> string -> Z)
    (tenantId accountId fromISO toISO : string) : result (list MockInvitation.t) :=
  try days <- eachDayInclusive hostDateParse fromISO toISO;
  Ok (sortBy (fun a b => localeCompare (MockInvitation.receivedAt a)
                                        (MockInvitation.receivedAt b))
             (flat_map (fun date =>
                          generateInvitationsForDay tenantId accountId date
                            (getDailyInvitationCount tenantId accountId date)) days)).

(** [queryInvitationsByDateRange], reading the [invitations] collection. *)
Definition queryResult (hostDateParse : string -> date)
    (tenantId accountId fromDate toDate : string) (col : Collection)
  : result (list InvitationQueryResult.t) :=
  try lower <- toISOString (startOfDayUTC (fromISODateUTC hostDateParse fromDate));
  try upper <- toISOString (startOfDayUTC (addDaysUTC (fromISODateUTC hostDateParse toDate) 1));
  try dateCountMap <- countByDate hostDateParse
                        (querySnapshot tenantId accountId lower upper col) [];
  Ok ((fun '(date, count) => InvitationQueryResult.mk date count) <$> dateCountMap).

(** [getTotalInvitationsInPeriod]. *)
Definition totalResult (hostDateParse : string -> date)
    (tenantId accountId fromDate toDate : string) (col : Collection) : result Z :=
  try results <- queryResult hostDateParse tenantId accountId fromDate toDate col;
  Ok (fold_left (fun total r => total + InvitationQueryResult.count r) results 0).

(** The [actualCountsMap] and the [rollups] of the handler. *)
Definition countsOf (results : list InvitationQueryResult.t) : list (string * Z) :=
  fold_left (fun m r => mapSet (InvitationQueryResult.date r)
                               (InvitationQueryResult.count r) m) results [].

Definition rollupsOf (zeroFilledCounts : list (string * Z)) : list Rollup.t :=
  (fun '(date, count) => Rollup.mk date count "ok") <$> zeroFilledCounts.

(** The response of the [catch] block. *)
Definition internalError (message : string) : Response.t :=
  Response.mk 500 (ErrorResponse "Internal server error" message).

(** The response the handler sends for the outcome of its [try] block. *)
Definition responseOf (outcome : result Response.t) : Response.t :=
  match outcome with
  | Ok response => response
  | Throw message => internalError message
  end.

(** What [reportFromStore] returns, and the rollups it writes if it gets
    that far, as functions of the [invitations] collection alone. *)
Definition reportResponse (hostDateParse : string -> date) (params : Params.t)
    (col : Collection) : result Response.t :=
  try results <- queryResult hostDateParse (Params.tenantId params) (Params.accountId params)
                   (Params.from params) (Params.to params) col;
  try dateRange <- eachDayInclusive hostDateParse (Params.from params) (Params.to params);
  try previous <- previousPeriod hostDateParse (Params.from params);
  try previousPeriodComparison <-
    totalResult hostDateParse (Params.tenantId params) (Params.accountId params)
                previous.1 previous.2 col;
  Ok (Response.mk 200
        (MetricData (formatData (createZeroFilledCounts dateRange (countsOf results))
                                previousPeriodComparison))).

Definition reportRollups (hostDateParse : string -> date) (params : Params.t)
    (col : Collection) : option (list Rollup.t) :=
  match queryResult hostDateParse (Params.tenantId params) (Params.accountId params)
                    (Params.from params) (Params.to params) col with
  | Throw _ => None
  | Ok results =>
      match eachDayInclusive hostDateParse (Params.from params) (Params.to params) with
      | Throw _ => None
      | Ok dateRange => Some (rollupsOf (createZeroFilledCounts dateRange (countsOf results)))
      end
  end.

(** ** A host for the instances

    [Date] reads nothing outside the ISO date-time form, and
    [localeCompare] orders by code units. *)
Definition hostNone : string -> date := fun _ => None.

Definition codeUnitCompare (a b : string) : Z :=
  match strCompare a b with Lt => -1 | Eq => 0 | Gt => 1 end.

(** ** The window of a range query *)


(** ** Identifiers, days of documents and path segments *)

(** The polynomial [h * 31^n + c1 * 31^(n-1) + ... + cn] over the code
    units [c1 ... cn] of [str]. *)
Fixpoint polyHash (str : string) (h : Z) : Z :=
  match str with
  | EmptyString => h
  | String c rest => polyHash rest (31 * h + charCode c)
  end.

(** [s.split(c)]: the pieces of [s] between the occurrences of [c]. *)
Fixpoint splitOn (c : ascii) (s : string) : list string :=
  match s with
  | EmptyString => [""]
  | String a s' =>
      if Ascii.eqb a c then "" :: splitOn c s'
      else match splitOn c s' with
           | piece :: pieces => String a piece :: pieces
           | [] => [String a ""]
           end
  end.

(** The day and the index an [externalId] carries in its last two fields. *)
Definition externalIdKey (externalId : string) : option (string * Z) :=
  match splitOn "_" externalId with
  | [_; _; day; index] => Some (day, radixValue 10 index 0)
  | _ => None
  end.

(** The invitations [mockFetchInvitations] generates for the days [days],
    before sorting. *)
Definition generatedFor (tenantId accountId : string) (days : list string)
  : list MockInvitation.t :=
  flat_map (fun date =>
              generateInvitationsForDay tenantId accountId date
                (getDailyInvitationCount tenantId accountId date)) days.

#[global] Instance result_eq_dec {A} `{EqDecision A} : EqDecision (result A).
Proof. solve_decision. Defined.

(** The calendar day [queryInvitationsByDateRange] files a document under. *)
Definition dayOfDoc (hostDateParse : string -> date) (doc : Doc) : result string :=
  toISODateUTC (newDate hostDateParse (receivedAtOf doc)).

(** The document the handler stores for a fetched invitation, over what
    the store held under the same id. *)
Definition storedDoc (params : Params.t) (old : Collection)
    (invitation : MockInvitation.t) : Doc :=
  rawInvitationDoc (RawInvitation.mk (Params.tenantId params) (Params.accountId params)
                                     (MockInvitation.externalId invitation)
                                     (MockInvitation.receivedAt invitation))
  ∪ default ∅ (old !! MockInvitation.externalId invitation).

(** The document store refuses a path with an empty segment, and neither a
    document id nor a collection name can contain [/]; the collections here
    take the path as an opaque key, so what is said of a write that
    succeeds is said for ids that are path segments. *)
Definition pathSegment (s : string) : Prop := s <> "" /\ lacksChar "/" s = true.

(** * Properties *)

Lemma toInt32_range x : - 2147483648 <= toInt32 x < 2147483648.
Proof. unfold toInt32. pose proof (Z.mod_pos_bound (x + 2147483648) 4294967296 eq_refl). lia. Qed.

Lemma band_range a b : - 2147483648 <= band a b < 2147483648.
Proof. apply toInt32_range. Qed.

Lemma simpleHash_loop_range str hash :
  - 2147483648 <= hash < 2147483648 -> - 2147483648 <= simpleHash_loop str hash < 2147483648.
Proof.
  revert hash. induction str as [|c rest IH]; intros hash Hh; simpl; [done|].
  apply IH, band_range.
Qed.

Lemma simpleHash_range str : 0 <= simpleHash str <= 2147483648.
Proof.
  unfold simpleHash.
  pose proof (simpleHash_loop_range str 0 ltac:(lia)). lia.
Qed.

Lemma rem_nonneg_range a b : 0 <= a -> 0 < b -> 0 <= rem a b < b.
Proof. intros Ha Hb. unfold rem. rewrite Z.rem_mod_nonneg by lia. apply Z.mod_pos_bound; lia. Qed.

Lemma DayFromYear_succ y : DayFromYear (y + 1) = DayFromYear y + DaysInYear y.
Proof.
  unfold DayFromYear, DaysInYear.
  repeat match goal with |- context [?a =? ?b] => destruct (Z.eqb_spec a b) end; simpl; dlia.
Qed.

Lemma DaysInYear_cases y : DaysInYear y = 365 \/ DaysInYear y = 366.
Proof.
  unfold DaysInYear.
  repeat match goal with |- context [?a =? ?b] => destruct (Z.eqb_spec a b) end; simpl; auto.
Qed.

Lemma DayFromYear_lt y1 y2 : y1 < y2 -> DayFromYear y1 + 365 <= DayFromYear y2.
Proof. unfold DayFromYear. dlia. Qed.

Lemma YearFromDay_spec d :
  DayFromYear (YearFromDay d) <= d < DayFromYear (YearFromDay d + 1).
Proof.
  unfold YearFromDay.
  set (y := 1970 + (400 * d) / 146097).
  destruct (Z.ltb_spec d (DayFromYear y)).
  - replace (y - 1 + 1) with y by lia. split; [|lia].
    unfold DayFromYear in *. subst y. dlia.
  - destruct (Z.leb_spec (DayFromYear (y + 1)) d).
    + split; [lia|]. unfold DayFromYear in *. subst y. dlia.
    + lia.
Qed.

Lemma YearFromDay_unique d y :
  DayFromYear y <= d < DayFromYear (y + 1) -> YearFromDay d = y.
Proof.
  intros Hy. pose proof (YearFromDay_spec d) as Hs.
  destruct (Z.lt_trichotomy (YearFromDay d) y) as [Hlt|[->|Hgt]]; [|done|].
  - pose proof (DayFromYear_lt (YearFromDay d) y Hlt).
    assert (DayFromYear (YearFromDay d + 1) <= DayFromYear y).
    { destruct (Z.eq_dec (YearFromDay d + 1) y) as [->|]; [lia|].
      pose proof (DayFromYear_lt (YearFromDay d + 1) y ltac:(lia)). lia. }
    lia.
  - assert (DayFromYear (y + 1) <= DayFromYear (YearFromDay d)).
    { destruct (Z.eq_dec (y + 1) (YearFromDay d)) as [->|]; [lia|].
      pose proof (DayFromYear_lt (y + 1) (YearFromDay d) ltac:(lia)). lia. }
    lia.
Qed.

Lemma leapOf_cases y : (leapOf y = 0 /\ DaysInYear y = 365) \/ (leapOf y = 1 /\ DaysInYear y = 366).
Proof. unfold leapOf. destruct (DaysInYear_cases y) as [-> | ->]; simpl; auto. Qed.

Lemma InLeapYear_leapOf t : InLeapYear t = leapOf (YearFromTime t).
Proof. reflexivity. Qed.

Lemma Day_TimeWithinDay t : t = Day t * msPerDay + TimeWithinDay t /\ 0 <= TimeWithinDay t < msPerDay.
Proof. unfold Day, TimeWithinDay, msPerDay. dlia. Qed.

Lemma DayWithinYear_range t : 0 <= DayWithinYear t < DaysInYear (YearFromTime t).
Proof.
  unfold DayWithinYear, YearFromTime.
  pose proof (YearFromDay_spec (Day t)) as H. rewrite DayFromYear_succ in H. lia.
Qed.

Ltac month_cases m :=
  assert (m = 0 \/ m = 1 \/ m = 2 \/ m = 3 \/ m = 4 \/ m = 5 \/ m = 6 \/ m = 7
          \/ m = 8 \/ m = 9 \/ m = 10 \/ m = 11) as Hcases by lia;
  repeat (destruct Hcases as [->|Hcases]); [..|subst m].

Ltac break_ltb :=
  repeat match goal with
         | |- context [?a <? ?b] => destruct (Z.ltb_spec a b)
         | H : context [?a <? ?b] |- _ => destruct (Z.ltb_spec a b)
         end.

Lemma MonthFromTime_range t : 0 <= MonthFromTime t <= 11.
Proof. unfold MonthFromTime. break_ltb; lia. Qed.

Lemma DateFromTime_range t :
  1 <= DateFromTime t <= daysInMonth (MonthFromTime t) (InLeapYear t).
Proof.
  pose proof (DayWithinYear_range t) as Hd.
  rewrite InLeapYear_leapOf.
  unfold DateFromTime, MonthFromTime. rewrite InLeapYear_leapOf.
  destruct (leapOf_cases (YearFromTime t)) as [[-> Hy]|[-> Hy]]; rewrite Hy in Hd;
    break_ltb; cbn; lia.
Qed.

Lemma Day_decomp t :
  Day t = MakeDay (YearFromTime t) (MonthFromTime t) (DateFromTime t).
Proof.
  pose proof (MonthFromTime_range t) as Hm.
  unfold MakeDay. rewrite Z.div_small, Z.mod_small by lia. rewrite Z.add_0_r.
  unfold DateFromTime, DayWithinYear, InLeapYear. lia.
Qed.

Lemma MakeDay_inrange y m d :
  0 <= m <= 11 -> 1 <= d <= daysInMonth m (leapOf y) ->
  DayFromYear y <= MakeDay y m d < DayFromYear (y + 1).
Proof.
  intros Hm Hd. rewrite DayFromYear_succ. unfold MakeDay.
  rewrite Z.div_small, Z.mod_small by lia. rewrite Z.add_0_r.
  fold (leapOf y).
  destruct (leapOf_cases y) as [[Hl Hy]|[Hl Hy]]; rewrite Hl in *; rewrite Hy;
    month_cases m; cbn in *; lia.
Qed.

Lemma ymd_of_MakeDay y m d t :
  0 <= m <= 11 -> 1 <= d <= daysInMonth m (leapOf y) ->
  Day t = MakeDay y m d ->
  YearFromTime t = y /\ MonthFromTime t = m /\ DateFromTime t = d.
Proof.
  intros Hm Hd Ht.
  assert (YearFromTime t = y) as Hy.
  { unfold YearFromTime. rewrite Ht. apply YearFromDay_unique, MakeDay_inrange; done. }
  assert (DayWithinYear t = monthStart m (leapOf y) + d - 1) as Hw.
  { unfold DayWithinYear. rewrite Hy, Ht. unfold MakeDay.
    rewrite Z.div_small, Z.mod_small by lia. rewrite Z.add_0_r. fold (leapOf y). lia. }
  split; [done|].
  unfold DateFromTime, MonthFromTime. rewrite InLeapYear_leapOf, Hy, Hw.
  destruct (leapOf_cases y) as [[Hl _]|[Hl _]]; rewrite Hl in *;
    month_cases m; cbn in Hd |- *; break_ltb; cbn; split; lia.
Qed.

Lemma TimeClip_small t : Z.abs t <= 8640000000000000 -> TimeClip t = Some t.
Proof. intros H. unfold TimeClip. destruct (Z.gtb_spec (Z.abs t) 8640000000000000); [lia|done]. Qed.

Lemma addDaysUTC_time t n : addDaysUTC (Some t) n = TimeClip (t + n * msPerDay).
Proof.
  unfold addDaysUTC, setUTCDate, getUTCDate. cbn. f_equal.
  pose proof (Day_decomp t) as Hd. pose proof (Day_TimeWithinDay t) as [Ht _].
  unfold MakeDate. unfold MakeDay in *. lia.
Qed.

Lemma addDaysUTC_invalid n : addDaysUTC None n = None.
Proof. reflexivity. Qed.

Lemma startOfDayUTC_time t : startOfDayUTC (Some t) = TimeClip (Day t * msPerDay).
Proof. unfold startOfDayUTC, setUTCHours, MakeDate, MakeTime. f_equal. lia. Qed.

(** ** Digits and fixed-width fields *)

Lemma digit_cases d :
  0 <= d < 10 ->
  d = 0 \/ d = 1 \/ d = 2 \/ d = 3 \/ d = 4 \/ d = 5 \/ d = 6 \/ d = 7 \/ d = 8 \/ d = 9.
Proof. lia. Qed.

Ltac each_digit d H :=
  destruct (digit_cases d H) as [->|[->|[->|[->|[->|[->|[->|[->|[->| ->]]]]]]]]].

Lemma charCode_digitChar d : 0 <= d < 10 -> charCode (digitChar d) = 48 + d.
Proof. intros H. each_digit d H; reflexivity. Qed.

Lemma charCode_range c : 0 <= charCode c < 256.
Proof.
  unfold charCode. pose proof (N_ascii_bounded c). lia.
Qed.

Lemma charCode_inj c1 c2 : charCode c1 = charCode c2 -> c1 = c2.
Proof.
  unfold charCode. intros H. apply N2Z.inj in H.
  rewrite <- (ascii_N_embedding c1), <- (ascii_N_embedding c2). by rewrite H.
Qed.

Lemma isDigit_digitChar d : 0 <= d < 10 -> isDigit (digitChar d) = true.
Proof. intros H. unfold isDigit. rewrite charCode_digitChar by done. lia. Qed.

Lemma isDigit_inv c : isDigit c = true -> exists d, 0 <= d < 10 /\ c = digitChar d.
Proof.
  unfold isDigit. intros H. exists (charCode c - 48). split; [lia|].
  apply charCode_inj. rewrite charCode_digitChar; lia.
Qed.

Lemma digit_mod k : 0 <= k mod 10 < 10.
Proof. apply Z.mod_pos_bound. lia. Qed.

Lemma fixedDigits_2 n :
  fixedDigits 2 n = String (digitChar ((n / 10) mod 10)) (String (digitChar (n mod 10)) "").
Proof. cbn [fixedDigits]. change (10 ^ Z.of_nat 1) with 10. change (10 ^ Z.of_nat 0) with 1. by rewrite Z.div_1_r. Qed.

Lemma fixedDigits_3 n :
  fixedDigits 3 n = String (digitChar ((n / 100) mod 10)) (fixedDigits 2 n).
Proof. reflexivity. Qed.

Lemma fixedDigits_4 n :
  fixedDigits 4 n = String (digitChar ((n / 1000) mod 10)) (fixedDigits 3 n).
Proof. reflexivity. Qed.

Lemma length_fixedDigits w n : String.length (fixedDigits w n) = w.
Proof. induction w; simpl; congruence. Qed.

Lemma digitsValue_fixedDigits w n acc :
  0 <= n ->
  digitsValue (fixedDigits w n) acc = acc * 10 ^ Z.of_nat w + n mod 10 ^ Z.of_nat w.
Proof.
  intros Hn. revert acc. induction w as [|w IH]; intros acc.
  - cbn. rewrite Z.mod_1_r. lia.
  - cbn [fixedDigits digitsValue]. rewrite IH.
    rewrite charCode_digitChar by apply digit_mod.
    rewrite Nat2Z.inj_succ, Z.pow_succ_r by lia.
    set (p := 10 ^ Z.of_nat w). assert (0 < p) by (apply Z.pow_pos_nonneg; lia).
    clearbody p. rewrite (Z.mul_comm 10 p), Z.rem_mul_r by lia. lia.
Qed.

Arguments digitChar : simpl never.
Arguments isDigit : simpl never.
Arguments charCode : simpl never.

Ltac solve_digits :=
  repeat match goal with
         | |- context [isDigit (digitChar ?k)] =>
             rewrite (isDigit_digitChar k) by apply digit_mod
         | |- context [charCode (digitChar ?k)] =>
             rewrite (charCode_digitChar k) by apply digit_mod
         end.

Lemma ymdString_chars y m d :
  ymdString y m d =
  String (digitChar ((y / 1000) mod 10)) (String (digitChar ((y / 100) mod 10))
  (String (digitChar ((y / 10) mod 10)) (String (digitChar (y mod 10))
  (String "-" (String (digitChar ((m / 10) mod 10)) (String (digitChar (m mod 10))
  (String "-" (String (digitChar ((d / 10) mod 10)) (String (digitChar (d mod 10)) ""))))))))).
Proof.
  unfold ymdString. rewrite fixedDigits_4, fixedDigits_3, !fixedDigits_2. reflexivity.
Qed.

Lemma clockString_chars h mi s ms :
  clockString h mi s ms =
  String (digitChar ((h / 10) mod 10)) (String (digitChar (h mod 10))
  (String ":" (String (digitChar ((mi / 10) mod 10)) (String (digitChar (mi mod 10))
  (String ":" (String (digitChar ((s / 10) mod 10)) (String (digitChar (s mod 10))
  (String "." (String (digitChar ((ms / 100) mod 10)) (String (digitChar ((ms / 10) mod 10))
  (String (digitChar (ms mod 10)) "Z"))))))))))).
Proof.
  unfold clockString. rewrite fixedDigits_3, !fixedDigits_2. reflexivity.
Qed.

Lemma matchShape_ymd y m d : matchShape "dddd-dd-dd" (ymdString y m d) = true.
Proof.
  rewrite ymdString_chars. cbn. solve_digits. reflexivity.
Qed.

Lemma matchShape_dateTime y m d h mi s ms :
  matchShape "dddd-dd-ddTdd:dd:dd.dddZ" (ymdString y m d +:+ "T" +:+ clockString h mi s ms) = true.
Proof.
  rewrite ymdString_chars, clockString_chars. cbv [String.append]. cbn.
  solve_digits. reflexivity.
Qed.

Lemma matchShape_cons_inv p sh s :
  matchShape (String p sh) s = true ->
  exists c s', s = String c s'
    /\ (if Ascii.eqb p "d" then isDigit c else Ascii.eqb c p) = true
    /\ matchShape sh s' = true.
Proof.
  destruct s as [|c s']; [discriminate|]. cbn [matchShape].
  intros [? ?]%andb_prop. eauto.
Qed.

Lemma matchShape_nil_inv s : matchShape "" s = true -> s = "".
Proof. destruct s; [done|discriminate]. Qed.

Ltac invert_shape H :=
  repeat (let Hc := fresh "Hc" in
          apply matchShape_cons_inv in H as (? & ? & -> & Hc & H); cbn in Hc);
  apply matchShape_nil_inv in H as ->;
  repeat match goal with
         | H : isDigit ?c = true |- _ =>
             let d := fresh "d" in let Hd := fresh "Hd" in
             apply isDigit_inv in H as (d & Hd & ->)
         | H : Ascii.eqb ?c _ = true |- _ => apply Ascii.eqb_eq in H as ->
         end.

Ltac digit_codes :=
  repeat match goal with
         | Hd : 0 <= ?d < 10 |- context [charCode (digitChar ?d)] =>
             rewrite (charCode_digitChar d Hd)
         end.

Lemma matchShape_ymd_inv s :
  matchShape "dddd-dd-dd" s = true ->
  0 <= field 0 4 s <= 9999 /\ 0 <= field 5 2 s <= 99 /\ 0 <= field 8 2 s <= 99
  /\ s = ymdString (field 0 4 s) (field 5 2 s) (field 8 2 s).
Proof.
  intros H. invert_shape H.
  rewrite ymdString_chars. unfold field. cbn [substring digitsValue]. digit_codes.
  split; [lia|]. split; [lia|]. split; [lia|].
  repeat f_equal; dlia.
Qed.

Lemma fields_dateTime y m d h mi s ms :
  0 <= y <= 9999 -> 0 <= m <= 99 -> 0 <= d <= 99 ->
  0 <= h <= 99 -> 0 <= mi <= 99 -> 0 <= s <= 99 -> 0 <= ms <= 999 ->
  let str := ymdString y m d +:+ "T" +:+ clockString h mi s ms in
  field 0 4 str = y /\ field 5 2 str = m /\ field 8 2 str = d /\ field 11 2 str = h
  /\ field 14 2 str = mi /\ field 17 2 str = s /\ field 20 3 str = ms.
Proof.
  intros. subst str. rewrite ymdString_chars, clockString_chars.
  unfold field. cbv [String.append]. cbn [substring digitsValue].
  solve_digits. repeat split; dlia.
Qed.

Lemma newDate_dateTime hostDateParse y m d h mi s ms :
  0 <= y <= 9999 -> 0 <= m <= 99 -> 0 <= d <= 99 ->
  0 <= h <= 99 -> 0 <= mi <= 99 -> 0 <= s <= 99 -> 0 <= ms <= 999 ->
  newDate hostDateParse (ymdString y m d +:+ "T" +:+ clockString h mi s ms) =
  if (1 <=? m) && (m <=? 12) && (1 <=? d) && (d <=? 31)
     && (h <=? 24) && (mi <=? 59) && (s <=? 59)
     && ((h <? 24) || ((mi =? 0) && (s =? 0) && (ms =? 0)))
  then TimeClip (MakeDate (MakeDay y (m - 1) d) (MakeTime h mi s ms))
  else None.
Proof.
  intros. unfold newDate. rewrite matchShape_dateTime. unfold parseDateTime.
  destruct (fields_dateTime y m d h mi s ms) as (-> & -> & -> & -> & -> & -> & ->); done.
Qed.

Lemma fromISODateUTC_ymd hostDateParse y m d :
  0 <= y <= 9999 -> 0 <= m <= 99 -> 0 <= d <= 99 ->
  fromISODateUTC hostDateParse (ymdString y m d) =
  if (1 <=? m) && (m <=? 12) && (1 <=? d) && (d <=? 31)
  then TimeClip (MakeDay y (m - 1) d * msPerDay)
  else None.
Proof.
  intros. unfold fromISODateUTC.
  change "T00:00:00.000Z" with ("T" +:+ clockString 0 0 0 0).
  rewrite newDate_dateTime by lia. cbn [Z.leb Z.ltb Z.eqb Z.compare andb orb].
  rewrite !andb_true_r. unfold MakeDate, MakeTime. rewrite !Z.mul_0_l, !Z.add_0_r. done.
Qed.

Lemma append_nil_l s : "" +:+ s = s.
Proof. reflexivity. Qed.

Lemma append_cons a p s : String a p +:+ s = String a (p +:+ s).
Proof. reflexivity. Qed.

Lemma length_append p q :
  String.length (p +:+ q) = (String.length p + String.length q)%nat.
Proof. induction p as [|a p IH]; rewrite ?append_nil_l, ?append_cons; cbn; congruence. Qed.

Lemma splitHead_app c p r :
  lacksChar c p = true -> splitHead c (p +:+ String c r) = p.
Proof.
  induction p as [|a p IH]; rewrite ?append_nil_l, ?append_cons; cbn.
  - by rewrite Ascii.eqb_refl.
  - intros [Ha Hp]%andb_prop. destruct (Ascii.eqb a c); [done|]. by rewrite IH.
Qed.

Lemma lacksChar_app c p q :
  lacksChar c (p +:+ q) = lacksChar c p && lacksChar c q.
Proof.
  induction p as [|a p IH]; rewrite ?append_nil_l, ?append_cons; cbn; [done|].
  by rewrite IH, andb_assoc.
Qed.

Lemma digitChar_not_T k : Ascii.eqb (digitChar (k mod 10)) "T" = false.
Proof.
  apply Ascii.eqb_neq. intros E. apply (f_equal charCode) in E.
  rewrite charCode_digitChar in E by apply digit_mod.
  pose proof (digit_mod k). change (charCode "T") with 84 in E. lia.
Qed.

Lemma lacksChar_fixedDigits w n : lacksChar "T" (fixedDigits w n) = true.
Proof. induction w as [|w IH]; cbn; [done|]. by rewrite digitChar_not_T, IH. Qed.

Lemma lacksChar_isoDateOfTime t : lacksChar "T" (isoDateOfTime t) = true.
Proof.
  unfold isoDateOfTime, isoYear. rewrite !lacksChar_app, !lacksChar_fixedDigits.
  destruct ((0 <=? YearFromTime t) && (YearFromTime t <=? 9999));
    cbn [lacksChar]; rewrite ?lacksChar_fixedDigits; [done|].
  by destruct (YearFromTime t <? 0).
Qed.

Lemma toISODateUTC_time t : toISODateUTC (Some t) = Ok (isoDateOfTime t).
Proof.
  unfold toISODateUTC. cbn. f_equal.
  change ("T" +:+ isoClockOfTime t) with (String "T" (isoClockOfTime t)).
  apply splitHead_app, lacksChar_isoDateOfTime.
Qed.

Lemma toISODateUTC_invalid : toISODateUTC None = Throw "Invalid time value".
Proof. reflexivity. Qed.

Lemma isoDateOfTime_ymd t :
  0 <= YearFromTime t <= 9999 ->
  isoDateOfTime t = ymdString (YearFromTime t) (MonthFromTime t + 1) (DateFromTime t).
Proof.
  intros H. unfold isoDateOfTime, isoYear, ymdString.
  destruct (Z.leb_spec 0 (YearFromTime t)); [|lia].
  destruct (Z.leb_spec (YearFromTime t) 9999); [|lia]. done.
Qed.

Lemma length_isoDateOfTime t :
  String.length (isoDateOfTime t) = 10%nat -> 0 <= YearFromTime t <= 9999.
Proof.
  unfold isoDateOfTime, isoYear.
  destruct (Z.leb_spec 0 (YearFromTime t)), (Z.leb_spec (YearFromTime t) 9999);
    cbn [andb]; [lia|..]; intros Hl; exfalso; revert Hl;
    rewrite ?length_append; cbn [String.length]; rewrite !length_fixedDigits; lia.
Qed.

Lemma firstDay_eq : firstDay = DayFromYear 0.
Proof. reflexivity. Qed.
Lemma lastDay_eq : lastDay = DayFromYear 10000 - 1.
Proof. reflexivity. Qed.

Lemma Day_midnight n : Day (n * msPerDay) = n.
Proof. unfold Day, msPerDay. dlia. Qed.

Lemma Day_within n r : 0 <= r < msPerDay -> Day (n * msPerDay + r) = n.
Proof. unfold Day, msPerDay. dlia. Qed.

Lemma DayFromYear_mono y1 y2 : y1 <= y2 -> DayFromYear y1 <= DayFromYear y2.
Proof. unfold DayFromYear. dlia. Qed.

Lemma YearFromDay_mono a b : a <= b -> YearFromDay a <= YearFromDay b.
Proof.
  intros Hab. pose proof (YearFromDay_spec a) as Ha. pose proof (YearFromDay_spec b) as Hb.
  destruct (Z.le_gt_cases (YearFromDay a) (YearFromDay b)) as [|Hlt]; [done|].
  assert (DayFromYear (YearFromDay b + 1) <= DayFromYear (YearFromDay a)).
  { destruct (Z.eq_dec (YearFromDay b + 1) (YearFromDay a)) as [->|]; [lia|].
    pose proof (DayFromYear_lt (YearFromDay b + 1) (YearFromDay a) ltac:(lia)). lia. }
  lia.
Qed.

Lemma YearFromDay_calendar n :
  firstDay <= n <= lastDay <-> 0 <= YearFromDay n <= 9999.
Proof.
  pose proof (YearFromDay_spec n) as Hs. split.
  - intros [H1 H2]. split.
    + change 0 with (YearFromDay firstDay). by apply YearFromDay_mono.
    + change 9999 with (YearFromDay lastDay). by apply YearFromDay_mono.
  - intros [H1 H2].
    pose proof (DayFromYear_mono 0 (YearFromDay n) H1).
    pose proof (DayFromYear_mono (YearFromDay n + 1) 10000 ltac:(lia)).
    rewrite firstDay_eq, lastDay_eq. lia.
Qed.

Lemma isoDay_ymd n :
  firstDay <= n <= lastDay ->
  let t := n * msPerDay in
  isoDay n = ymdString (YearFromTime t) (MonthFromTime t + 1) (DateFromTime t)
  /\ 0 <= YearFromTime t <= 9999.
Proof.
  intros Hn t.
  assert (0 <= YearFromTime t <= 9999) as Hy.
  { unfold YearFromTime, t. rewrite Day_midnight. by apply YearFromDay_calendar. }
  split; [|done]. by apply isoDateOfTime_ymd.
Qed.

Lemma daysInMonth_le m leap : 0 <= leap <= 1 -> daysInMonth m leap <= 31.
Proof.
  intros. unfold daysInMonth.
  destruct (m =? 1); [lia|]. destruct (_ || _); lia.
Qed.

Lemma InLeapYear_range t : 0 <= InLeapYear t <= 1.
Proof. unfold InLeapYear. destruct (_ =? _); lia. Qed.

Lemma matchShape_length sh s :
  matchShape sh s = true -> String.length s = String.length sh.
Proof.
  revert s. induction sh as [|p sh IH]; intros [|c s]; cbn; try done.
  intros [_ ?]%andb_prop. f_equal. by apply IH.
Qed.

Lemma DayFromYear_calendar y :
  0 <= y <= 9999 -> firstDay <= DayFromYear y <= lastDay - 364.
Proof.
  intros Hy. pose proof (DayFromYear_mono 0 y ltac:(lia)).
  pose proof (DayFromYear_mono y 9999 ltac:(lia)).
  change (DayFromYear 0) with firstDay in *. change (DayFromYear 9999) with (lastDay - 364) in *.
  lia.
Qed.

Lemma monthStart_range m leap : 0 <= leap <= 1 -> 0 <= monthStart m leap <= 335.
Proof.
  intros. unfold monthStart.
  repeat match goal with |- context [?a =? ?b] => destruct (Z.eqb_spec a b) end; lia.
Qed.

Lemma isoDay_length_calendar n :
  String.length (isoDay n) = 10%nat -> firstDay <= n <= lastDay.
Proof.
  intros L. apply YearFromDay_calendar. apply length_isoDateOfTime in L.
  unfold YearFromTime in L. by rewrite Day_midnight in L.
Qed.

Section DateProperties.
Variable hostDateParse : string -> date.

Lemma fromISODateUTC_isoDay n :
  firstDay <= n <= lastDay ->
  fromISODateUTC hostDateParse (isoDay n) = Some (n * msPerDay).
Proof.
  intros Hn. destruct (isoDay_ymd n Hn) as [-> Hy]. set (t := n * msPerDay) in *.
  pose proof (MonthFromTime_range t). pose proof (DateFromTime_range t) as Hd.
  pose proof (daysInMonth_le (MonthFromTime t) _ (InLeapYear_range t)).
  rewrite fromISODateUTC_ymd by lia.
  replace (MonthFromTime t + 1 - 1) with (MonthFromTime t) by lia.
  rewrite <- Day_decomp. unfold t at 5. rewrite Day_midnight.
  destruct (Z.leb_spec 1 (MonthFromTime t + 1)); [|lia].
  destruct (Z.leb_spec (MonthFromTime t + 1) 12); [|lia].
  destruct (Z.leb_spec 1 (DateFromTime t)); [|lia].
  destruct (Z.leb_spec (DateFromTime t) 31); [|lia].
  cbn [andb]. apply TimeClip_small. unfold firstDay, lastDay, msPerDay in *. lia.
Qed.

Lemma isValidISODate_isoDay n :
  firstDay <= n <= lastDay -> isValidISODate hostDateParse (isoDay n) = Ok true.
Proof.
  intros Hn. unfold isValidISODate.
  rewrite fromISODateUTC_isoDay by done.
  destruct (isoDay_ymd n Hn) as [E _]. rewrite E at 1. rewrite matchShape_ymd. cbn [negb].
  rewrite toISODateUTC_time. cbn. fold (isoDay n). by rewrite String.eqb_refl.
Qed.

(** What the validator does on a string of the right shape. *)
Lemma isValidISODate_ymd y m d :
  0 <= y <= 9999 -> 0 <= m <= 99 -> 0 <= d <= 99 ->
  isValidISODate hostDateParse (ymdString y m d) =
  if (1 <=? m) && (m <=? 12) && (1 <=? d) && (d <=? 31)
  then Ok (String.eqb (isoDay (MakeDay y (m - 1) d)) (ymdString y m d))
  else Throw "Invalid time value".
Proof.
  intros Hy Hm Hd. unfold isValidISODate. rewrite matchShape_ymd. cbn [negb].
  rewrite fromISODateUTC_ymd by done.
  destruct ((1 <=? m) && (m <=? 12) && (1 <=? d) && (d <=? 31)) eqn:E; [|done].
  rewrite TimeClip_small.
  - rewrite toISODateUTC_time. unfold isoDay. reflexivity.
  - apply andb_prop in E as [[[?%Z.leb_le ?%Z.leb_le]%andb_prop ?%Z.leb_le]%andb_prop ?%Z.leb_le].
    unfold MakeDay. rewrite Z.div_small, Z.mod_small, Z.add_0_r by lia.
    pose proof (monthStart_range (m - 1) (leapOf y)) as Hms. unfold leapOf in Hms.
    pose proof (DayFromYear_calendar y Hy).
    destruct (DaysInYear y =? 366); unfold firstDay, lastDay, msPerDay in *; lia.
Qed.

Lemma isValidISODate_inv s :
  isValidISODate hostDateParse s = Ok true ->
  exists n, firstDay <= n <= lastDay /\ s = isoDay n.
Proof.
  intros H.
  assert (matchShape "dddd-dd-dd" s = true) as Hs.
  { unfold isValidISODate in H. destruct (matchShape _ s); [done|discriminate]. }
  destruct (matchShape_ymd_inv s Hs) as (Hy & Hm & Hd & E).
  apply matchShape_length in Hs.
  set (y := field 0 4 s) in *. set (m := field 5 2 s) in *. set (d := field 8 2 s) in *.
  clearbody y m d.
  rewrite E, isValidISODate_ymd in H by done.
  destruct ((1 <=? m) && (m <=? 12) && (1 <=? d) && (d <=? 31)); [|discriminate].
  injection H as H. apply String.eqb_eq in H. rewrite <- E in H.
  exists (MakeDay y (m - 1) d). split; [|done].
  apply isoDay_length_calendar. rewrite H. exact Hs.
Qed.

Lemma isoDay_inj a b :
  firstDay <= a <= lastDay -> firstDay <= b <= lastDay -> isoDay a = isoDay b -> a = b.
Proof.
  intros Ha Hb E.
  pose proof (fromISODateUTC_isoDay a Ha) as H1.
  rewrite E, fromISODateUTC_isoDay in H1 by done.
  injection H1. unfold msPerDay. lia.
Qed.
End DateProperties.

(** ** Numerals *)

Lemma digitOf_digitChar d : 0 <= d < 36 -> digitOf (digitChar d) = d.
Proof.
  intros Hd.
  assert (Forall (fun d => digitOf (digitChar d) = d) (seqZ 0 36)) as H.
  { apply (Forall_impl (fun d => (digitOf (digitChar d) =? d) = true)).
    - apply Forall_forall. intros x Hx. apply Is_true_true.
      revert x Hx. apply Forall_forall, forallb_True. by vm_compute.
    - intros x. apply Z.eqb_eq. }
  rewrite Forall_forall in H. apply H, elem_of_seqZ. lia.
Qed.

Lemma toDigits_value fuel radix n acc v :
  2 <= radix <= 36 -> 0 <= n < 2 ^ (Z.of_nat fuel + 1) ->
  exists k, radixValue radix (toDigits fuel radix n acc) v
            = radixValue radix acc (v * radix ^ k + n) /\ 0 < k.
Proof.
  intros Hr. revert n acc. induction fuel as [|fuel IH]; intros n acc Hn.
  - cbn [toDigits radixValue]. exists 1. split; [|lia].
    change (2 ^ (Z.of_nat 0 + 1)) with 2 in Hn.
    rewrite Z.mod_small, digitOf_digitChar by lia. f_equal. lia.
  - cbn [toDigits]. destruct (Z.eqb_spec (n / radix) 0) as [E|E].
    + cbn [radixValue]. exists 1. split; [|lia].
      assert (n < radix) by (apply Z.div_small_iff in E; lia).
      rewrite Z.mod_small, digitOf_digitChar by lia. f_equal. lia.
    + assert (0 <= n / radix < 2 ^ (Z.of_nat fuel + 1)) as Hq.
      { split; [apply Z.div_pos; lia|].
        apply Z.div_lt_upper_bound; [lia|].
        replace (Z.of_nat (S fuel) + 1) with (Z.succ (Z.of_nat fuel + 1)) in Hn by lia.
        rewrite Z.pow_succ_r in Hn by lia.
        assert (0 < 2 ^ (Z.of_nat fuel + 1)) by (apply Z.pow_pos_nonneg; lia). nia. }
      destruct (IH (n / radix) (String (digitChar (n mod radix)) acc) Hq) as (k & -> & Hk).
      cbn [radixValue]. exists (k + 1). split; [|lia].
      rewrite digitOf_digitChar by (pose proof (Z.mod_pos_bound n radix); lia).
      f_equal. rewrite Z.pow_add_r, Z.pow_1_r by lia.
      pose proof (Z.div_mod n radix ltac:(lia)). nia.
Qed.

(** [n.toString(radix)] writes all the digits of [n]: reading the numeral
    back gives [n]. *)
Lemma numberToString_value radix n :
  2 <= radix <= 36 -> 0 <= n -> radixValue radix (numberToString radix n) 0 = n.
Proof.
  intros Hr Hn. unfold numberToString. destruct (Z.ltb_spec n 0); [lia|].
  destruct (toDigits_value (Z.to_nat (Z.log2 n)) radix n "" 0 Hr) as (k & -> & _).
  - rewrite Z2Nat.id by apply Z.log2_nonneg.
    destruct (Z.eq_dec n 0) as [->|]; [done|].
    pose proof (Z.log2_spec n ltac:(lia)) as Hlog.
    replace (Z.log2 n + 1) with (Z.succ (Z.log2 n)) by lia. lia.
  - cbn [radixValue]. lia.
Qed.

(** ** String order *)

Lemma strCompare_refl s : strCompare s s = Eq.
Proof. induction s as [|c s IH]; cbn; [done|]. by rewrite Z.compare_refl. Qed.

Lemma strCompare_eq a b : strCompare a b = Eq -> a = b.
Proof.
  revert b. induction a as [|c a IH]; intros [|d b]; cbn; try done.
  destruct (Z.compare_spec (charCode c) (charCode d)) as [E| |]; try done.
  intros H. apply charCode_inj in E as ->. f_equal. by apply IH.
Qed.

Lemma strCompare_app p1 p2 r1 r2 :
  String.length p1 = String.length p2 ->
  strCompare (p1 +:+ r1) (p2 +:+ r2) =
  match strCompare p1 p2 with Eq => strCompare r1 r2 | c => c end.
Proof.
  revert p2. induction p1 as [|c p1 IH]; intros [|d p2]; try done.
  intros [= Hl]. rewrite !append_cons. cbn [strCompare].
  destruct (charCode c ?= charCode d); [by apply IH|done..].
Qed.

Lemma append_assoc a b c : (a +:+ b) +:+ c = a +:+ (b +:+ c).
Proof. induction a as [|x a IH]; rewrite ?append_nil_l, ?append_cons; congruence. Qed.

Lemma strCompare_app_same p r1 r2 :
  strCompare (p +:+ r1) (p +:+ r2) = strCompare r1 r2.
Proof. rewrite strCompare_app by done. by rewrite strCompare_refl. Qed.

Lemma compare_lex p da db ra rb :
  0 <= ra < p -> 0 <= rb < p ->
  (ra + p * da ?= rb + p * db) = match da ?= db with Eq => ra ?= rb | c => c end.
Proof.
  intros Ha Hb.
  destruct (Z.compare_spec da db) as [->| |].
  - destruct (Z.compare_spec ra rb); [apply Z.compare_eq_iff|apply Z.compare_lt_iff|apply Z.compare_gt_iff]; lia.
  - apply Z.compare_lt_iff. nia.
  - apply Z.compare_gt_iff. nia.
Qed.

Lemma strCompare_fixedDigits w a b :
  strCompare (fixedDigits w a) (fixedDigits w b)
  = (a mod 10 ^ Z.of_nat w ?= b mod 10 ^ Z.of_nat w).
Proof.
  induction w as [|w IH].
  - cbn. by rewrite !Z.mod_1_r.
  - cbn [fixedDigits strCompare]. rewrite IH.
    rewrite !charCode_digitChar by apply digit_mod.
    rewrite Nat2Z.inj_succ, Z.pow_succ_r by lia.
    set (p := 10 ^ Z.of_nat w). assert (0 < p) by (apply Z.pow_pos_nonneg; lia).
    rewrite !(Z.mul_comm 10 p), !Z.rem_mul_r by lia.
    rewrite compare_lex by (apply Z.mod_pos_bound; lia).
    rewrite Z.add_compare_mono_l. done.
Qed.

Lemma strCompare_fixedDigits_small w a b :
  0 <= a < 10 ^ Z.of_nat w -> 0 <= b < 10 ^ Z.of_nat w ->
  strCompare (fixedDigits w a) (fixedDigits w b) = (a ?= b).
Proof. intros. rewrite strCompare_fixedDigits, !Z.mod_small; done. Qed.

Lemma strCompare_ymd y1 m1 d1 r1 y2 m2 d2 r2 :
  0 <= y1 <= 9999 -> 0 <= m1 <= 99 -> 0 <= d1 <= 99 ->
  0 <= y2 <= 9999 -> 0 <= m2 <= 99 -> 0 <= d2 <= 99 ->
  strCompare (ymdString y1 m1 d1 +:+ r1) (ymdString y2 m2 d2 +:+ r2) =
  lexCompare (y1 ?= y2) (lexCompare (m1 ?= m2) (lexCompare (d1 ?= d2) (strCompare r1 r2))).
Proof.
  intros. unfold ymdString.
  rewrite !append_assoc.
  rewrite strCompare_app by (by rewrite !length_fixedDigits).
  rewrite strCompare_fixedDigits_small by (change (10 ^ Z.of_nat 4) with 10000; lia).
  unfold lexCompare. destruct (y1 ?= y2); try done.
  rewrite (strCompare_app_same "-").
  rewrite strCompare_app by (by rewrite !length_fixedDigits).
  rewrite strCompare_fixedDigits_small by (change (10 ^ Z.of_nat 2) with 100; lia).
  destruct (m1 ?= m2); try done.
  rewrite (strCompare_app_same "-").
  rewrite strCompare_app by (by rewrite !length_fixedDigits).
  rewrite strCompare_fixedDigits_small by (change (10 ^ Z.of_nat 2) with 100; lia).
  by destruct (d1 ?= d2).
Qed.

Lemma lexCompare_days t1 t2 c :
  Day t1 < Day t2 ->
  lexCompare (YearFromTime t1 ?= YearFromTime t2)
    (lexCompare (MonthFromTime t1 + 1 ?= MonthFromTime t2 + 1)
       (lexCompare (DateFromTime t1 ?= DateFromTime t2) c)) = Lt.
Proof.
  intros Hlt.
  pose proof (YearFromDay_mono (Day t1) (Day t2) ltac:(lia)) as Hy.
  fold (YearFromTime t1) (YearFromTime t2) in Hy.
  destruct (Z.compare_spec (YearFromTime t1) (YearFromTime t2)) as [E| |]; [|done|lia].
  cbn [lexCompare].
  pose proof (DayWithinYear_range t1) as H1. pose proof (DayWithinYear_range t2) as H2.
  assert (DayWithinYear t1 < DayWithinYear t2) as Hw by (unfold DayWithinYear; rewrite E; lia).
  unfold DateFromTime, MonthFromTime. rewrite !InLeapYear_leapOf, E.
  destruct (leapOf_cases (YearFromTime t2)) as [[-> Hd]|[-> Hd]];
    rewrite Hd in *; rewrite ?E in *;
    set (w1 := DayWithinYear t1) in *; set (w2 := DayWithinYear t2) in *; clearbody w1 w2;
    break_ltb; cbn -[Z.sub Z.add Z.compare]; try lia;
    try (rewrite Z.compare_lt_iff; lia);
    (destruct (Z.compare_spec (w1 + 1) (w2 + 1)); try done); try lia;
    repeat match goal with
           | |- context [?a ?= ?b] => destruct (Z.compare_spec a b); cbn [lexCompare]; try lia; try done
           end.
Qed.

Lemma isoDay_lt a b r1 r2 :
  firstDay <= a -> b <= lastDay -> a < b ->
  strCompare (isoDay a +:+ r1) (isoDay b +:+ r2) = Lt.
Proof.
  intros Ha Hb Hab.
  destruct (isoDay_ymd a ltac:(lia)) as [-> Hya]. destruct (isoDay_ymd b ltac:(lia)) as [-> Hyb].
  set (t1 := a * msPerDay) in *. set (t2 := b * msPerDay) in *.
  pose proof (MonthFromTime_range t1). pose proof (MonthFromTime_range t2).
  pose proof (DateFromTime_range t1). pose proof (DateFromTime_range t2).
  pose proof (daysInMonth_le (MonthFromTime t1) _ (InLeapYear_range t1)).
  pose proof (daysInMonth_le (MonthFromTime t2) _ (InLeapYear_range t2)).
  rewrite strCompare_ymd by lia.
  apply lexCompare_days. unfold t1, t2. by rewrite !Day_midnight.
Qed.

Section EachDay.
Variable hostDateParse : string -> date.

(** The loop never runs out of the fuel [eachDayInclusive] gives it. *)
Lemma eachDay_loop_enough fuel current end_ days :
  match current, end_ with
  | Some c, Some e => (e - c) / msPerDay + 1 <= Z.of_nat fuel
  | _, _ => True
  end ->
  is_Some (eachDay_loop fuel current end_ days).
Proof.
  revert current days. induction fuel as [|fuel IH]; intros current days Hfuel.
  - cbn. destruct current as [c|], end_ as [e|]; cbn; eauto.
    destruct (Z.leb_spec c e); eauto.
    exfalso. unfold msPerDay in Hfuel. dlia.
  - cbn [eachDay_loop]. destruct (dateLe current end_) eqn:Hle; [|eauto].
    destruct current as [c|], end_ as [e|]; try discriminate.
    rewrite toISODateUTC_time, addDaysUTC_time. apply IH.
    unfold TimeClip. destruct (_ >? _); [done|].
    cbn in Hle. apply Z.leb_le in Hle. unfold msPerDay in *. dlia.
Qed.

Lemma eachDay_loop_total start end_ :
  is_Some (eachDay_loop (eachDay_fuel start end_) start end_ []).
Proof.
  apply eachDay_loop_enough. destruct start as [s|], end_ as [e|]; try done.
  unfold eachDay_fuel. lia.
Qed.

Lemma eachDay_loop_days fuel a b days :
  firstDay <= a -> b <= lastDay -> a <= b + 1 -> b - a + 1 <= Z.of_nat fuel ->
  eachDay_loop fuel (Some (a * msPerDay)) (Some (b * msPerDay)) days
  = Some (Ok (days ++ (isoDay <$> seqZ a (b - a + 1)))%list).
Proof.
  revert a days. induction fuel as [|fuel IH]; intros a days Ha Hb Hab Hfuel.
  - assert (a = b + 1) as -> by lia. cbn.
    destruct (Z.leb_spec ((b + 1) * msPerDay) (b * msPerDay)) as [Hle|_];
      [unfold msPerDay in Hle; lia|].
    replace (b - (b + 1) + 1) with 0 by lia. by rewrite app_nil_r.
  - cbn [eachDay_loop dateLe].
    destruct (Z.leb_spec (a * msPerDay) (b * msPerDay)) as [Hle|Hgt].
    + assert (a <= b) by (unfold msPerDay in Hle; lia).
      rewrite toISODateUTC_time, addDaysUTC_time.
      replace (a * msPerDay + 1 * msPerDay) with ((a + 1) * msPerDay) by lia.
      rewrite TimeClip_small by (unfold firstDay, lastDay, msPerDay in *; lia).
      rewrite IH by lia. rewrite (seqZ_cons a) by lia. cbn [fmap list_fmap].
      rewrite <- app_assoc. cbn [app]. fold (isoDay a).
      repeat f_equal; lia.
    + assert (a = b + 1) as -> by (unfold msPerDay in Hgt; lia).
      replace (b - (b + 1) + 1) with 0 by lia. by rewrite app_nil_r.
Qed.

Lemma eachDayInclusive_days a b :
  firstDay <= a <= lastDay -> firstDay <= b <= lastDay ->
  eachDayInclusive hostDateParse (isoDay a) (isoDay b)
  = Ok (isoDay <$> seqZ a (b - a + 1)).
Proof.
  intros Ha Hb. unfold eachDayInclusive. rewrite !fromISODateUTC_isoDay by done.
  destruct (Z.le_gt_cases a b) as [Hab|Hab].
  - rewrite eachDay_loop_days; [done|lia..|].
    unfold eachDay_fuel. rewrite Z2Nat.id by (unfold msPerDay; dlia).
    unfold msPerDay. dlia.
  - cbn [eachDay_fuel]. replace (Z.to_nat _) with O by (unfold msPerDay; dlia).
    cbn [eachDay_loop dateLe].
    destruct (Z.leb_spec (a * msPerDay) (b * msPerDay)) as [Hle|_];
      [unfold msPerDay in Hle; lia|].
    rewrite seqZ_nil by lia. done.
Qed.

Lemma eachDayInclusive_returns fromDate toDate :
  exists days, eachDayInclusive hostDateParse fromDate toDate = Ok days.
Proof.
  unfold eachDayInclusive.
  set (start := fromISODateUTC hostDateParse fromDate).
  set (end_ := fromISODateUTC hostDateParse toDate). clearbody start end_.
  assert (forall fuel current days,
            eachDay_loop fuel current end_ days = None
            \/ exists l, eachDay_loop fuel current end_ days = Some (Ok l)) as H.
  { induction fuel as [|fuel IH]; intros current days; cbn [eachDay_loop];
      (destruct (dateLe current end_) eqn:Hle; [|eauto]); [eauto|].
    destruct current as [c|]; [|discriminate].
    rewrite toISODateUTC_time. apply IH. }
  destruct (H (eachDay_fuel start end_) start []) as [->|[l ->]]; cbn; eauto.
Qed.
End EachDay.

(** ** The insertion-ordered map and zero-filling *)

Section JsMapProperties.
Context {V : Type}.
Implicit Types (m : list (string * V)) (k : string) (v : V).

Lemma mapGet_None_keys k m : mapGet k m = None <-> k ∉ m.*1.
Proof.
  induction m as [|[k' v'] m IH]; cbn.
  - split; [intros _; apply not_elem_of_nil|done].
  - rewrite not_elem_of_cons. destruct (String.eqb_spec k' k) as [->|Hne].
    + split; [done|]. by intros [? _].
    + rewrite IH. split; [by intros; split|by intros [_ ?]].
Qed.

Lemma mapSet_fresh k v m : k ∉ m.*1 -> mapSet k v m = m ++ [(k, v)].
Proof.
  induction m as [|[k' v'] m IH]; cbn; [done|].
  rewrite not_elem_of_cons. intros [Hne Hk].
  destruct (String.eqb_spec k' k) as [->|_]; [done|]. by rewrite IH.
Qed.

Lemma mapGet_mapSet k k' v m :
  mapGet k' (mapSet k v m) = if String.eqb k k' then Some v else mapGet k' m.
Proof.
  induction m as [|[k0 v0] m IH]; cbn.
  - done.
  - destruct (String.eqb_spec k0 k) as [->|Hne]; cbn.
    + by destruct (String.eqb_spec k k').
    + rewrite IH. destruct (String.eqb_spec k0 k') as [->|]; [|done].
      by destruct (String.eqb_spec k k'); [congruence|].
Qed.

Lemma mapSet_keys k v m : k ∈ m.*1 -> (mapSet k v m).*1 = m.*1.
Proof.
  induction m as [|[k0 v0] m IH]; cbn; [by intros ?%elem_of_nil|].
  destruct (String.eqb_spec k0 k) as [->|Hne]; cbn; [done|].
  intros [?|?]%elem_of_cons; [congruence|]. by rewrite IH.
Qed.
End JsMapProperties.

Lemma createZeroFilledCounts_NoDup dateRange actualCounts :
  NoDup dateRange ->
  createZeroFilledCounts dateRange actualCounts
  = (fun date => (date, orZero (mapGet date actualCounts))) <$> dateRange.
Proof.
  unfold createZeroFilledCounts.
  set (f := fun date => (date, orZero (mapGet date actualCounts))).
  change (@nil (string * Z)) with (f <$> @nil string).
  assert (forall done todo, NoDup (done ++ todo) ->
            fold_left (fun zeroFilled date =>
                         mapSet date (orZero (mapGet date actualCounts)) zeroFilled)
                      todo (f <$> done) = f <$> (done ++ todo)) as H.
  { intros done todo. revert done. induction todo as [|d todo IH]; intros done Hnd.
    - by rewrite app_nil_r.
    - cbn [fold_left]. rewrite mapSet_fresh.
      + replace ((f <$> done) ++ [(d, orZero (mapGet d actualCounts))])
          with (f <$> (done ++ [d])) by (by rewrite fmap_app).
        rewrite IH; rewrite <- app_assoc; done.
      + rewrite <- list_fmap_compose. unfold f, compose. cbn. rewrite list_fmap_id.
        apply NoDup_app in Hnd as (_ & Hnd & _). intros Hin. apply (Hnd d Hin). left. }
  intros Hnd. apply (H [] dateRange Hnd).
Qed.

Lemma formatData_shape zeroFilledCounts previousPeriodComparison :
  formatData zeroFilledCounts previousPeriodComparison =
  match zeroFilledCounts with
  | [] => []
  | (date, value) :: rest =>
      MetricDataPoint.mk date value "ok" (Some previousPeriodComparison)
      :: ((fun '(date, value) => MetricDataPoint.mk date value "ok" None) <$> rest)
  end.
Proof.
  unfold formatData. destruct zeroFilledCounts as [|[date value] rest]; [done|].
  rewrite imap_cons. f_equal.
  rewrite <- imap_const. apply imap_ext. by intros i [d v] _.
Qed.

Lemma append_nil_r s : s +:+ "" = s.
Proof. induction s as [|c s IH]; rewrite ?append_nil_l, ?append_cons; congruence. Qed.

Lemma strLt_isoDay a b :
  firstDay <= a -> b <= lastDay -> a < b -> strLt (isoDay a) (isoDay b) = true.
Proof.
  intros Ha Hb Hab. unfold strLt.
  rewrite <- (append_nil_r (isoDay a)), <- (append_nil_r (isoDay b)).
  by rewrite isoDay_lt.
Qed.

Lemma StronglySorted_fmap_seqZ {A} (R : relation A) (f : Z -> A) a n :
  (forall x y, a <= x -> x < y -> y < a + n -> R (f x) (f y)) ->
  StronglySorted R (f <$> seqZ a n).
Proof.
  destruct (Z.le_gt_cases n 0) as [Hn|Hn].
  { intros _. rewrite seqZ_nil by done. constructor. }
  rewrite <- (Z2Nat.id n) by lia. generalize (Z.to_nat n) as k. clear Hn n. intros k.
  revert a. induction k as [|k IH]; intros a HR.
  - cbn. constructor.
  - rewrite seqZ_cons by lia. cbn [fmap list_fmap]. constructor.
    + replace (Z.pred (Z.of_nat (S k))) with (Z.of_nat k) by lia.
      apply IH. intros x y ? ? ?. apply HR; lia.
    + apply Forall_fmap, Forall_forall. intros y [? ?]%elem_of_seqZ. cbn.
      apply HR; lia.
Qed.

Section ZeroFill.
Variable hostDateParse : string -> date.

Lemma dayNumber_isoDay n : firstDay <= n <= lastDay -> dayNumber hostDateParse (isoDay n) = n.
Proof. intros Hn. unfold dayNumber. by rewrite fromISODateUTC_isoDay, Day_midnight. Qed.

Lemma NoDup_isoDays a n :
  firstDay <= a -> a + n - 1 <= lastDay -> NoDup (isoDay <$> seqZ a n).
Proof.
  intros Ha Hb. apply NoDup_fmap_2_strong; [|apply NoDup_seqZ].
  intros x y [? ?]%elem_of_seqZ [? ?]%elem_of_seqZ. apply (isoDay_inj hostDateParse); lia.
Qed.

Lemma valid_range_days from to :
  isValidISODate hostDateParse from = Ok true ->
  isValidISODate hostDateParse to = Ok true ->
  dateGt (fromISODateUTC hostDateParse from) (fromISODateUTC hostDateParse to) = false ->
  exists a b, firstDay <= a /\ a <= b /\ b <= lastDay
              /\ from = isoDay a /\ to = isoDay b.
Proof.
  intros (a & Ha & ->)%isValidISODate_inv (b & Hb & ->)%isValidISODate_inv Hgt.
  exists a, b. rewrite !fromISODateUTC_isoDay in Hgt by done. cbn in Hgt.
  destruct (Z.gtb_spec (a * msPerDay) (b * msPerDay)) as [|Hle]; [done|].
  unfold msPerDay in Hle. repeat split; try lia.
Qed.
End ZeroFill.

(** ** Batches of merging writes *)

Lemma applyBatch_lookup batch col key :
  applyBatch batch col !! key =
  match mergedFor key batch with
  | Some data => Some (data ∪ default ∅ (col !! key))
  | None => col !! key
  end.
Proof.
  revert col. induction batch as [|[key' data] rest IH]; intros col; [done|].
  cbn [applyBatch fold_left mergedFor]. fold (applyBatch rest (setMerge key' data col)).
  rewrite IH. unfold setMerge. destruct (decide (key' = key)) as [->|Hne].
  - rewrite lookup_insert_eq. cbn [default from_option id].
    destruct (mergedFor key rest); [|done]. by rewrite (assoc_L (∪)).
  - by rewrite lookup_insert_ne.
Qed.

Lemma applyBatch_idempotent batch col :
  applyBatch batch (applyBatch batch col) = applyBatch batch col.
Proof.
  apply map_eq. intros key. rewrite applyBatch_lookup.
  destruct (mergedFor key batch) as [data|] eqn:E; [|done].
  rewrite applyBatch_lookup, E. cbn [default from_option id].
  by rewrite (assoc_L (∪)), (idemp_L (∪)).
Qed.

Lemma applyBatch_strip field batch col :
  delete field <$> applyBatch batch col
  = applyBatch (prod_map id (delete field) <$> batch) (delete field <$> col).
Proof.
  revert col. induction batch as [|[key data] rest IH]; intros col; [done|].
  cbn [applyBatch fold_left fmap list_fmap prod_map fst snd id].
  fold (applyBatch rest (setMerge key data col)).
  fold (applyBatch (prod_map id (delete field) <$> rest)
                   (setMerge key (delete field data) (delete field <$> col))).
  rewrite IH. f_equal. unfold setMerge.
  rewrite fmap_insert, delete_union, lookup_fmap.
  destruct (col !! key); cbn; [done|]. by rewrite delete_empty.
Qed.

Lemma fold_left_fmap {A B C} (f : C -> B -> C) (g : A -> B) (l : list A) (c : C) :
  fold_left f (g <$> l) c = fold_left (fun c a => f c (g a)) l c.
Proof. revert c. induction l as [|a l IH]; intros c; cbn; [done|]. apply IH. Qed.

Lemma writeRawInvitations_run invs w :
  writeRawInvitations invs w
  = (Ok tt, mkWorld (applyBatch (rawBatch invs) (invitations w)) (metrics w) (clock w)).
Proof.
  unfold writeRawInvitations, applyBatch, rawBatch. by rewrite fold_left_fmap.
Qed.

Lemma rollupBatch_run tenantId accountId rollups batch w :
  rollupBatch tenantId accountId rollups batch w
  = (Ok (batch ++ rollupDocs tenantId accountId (isoInstant (clock w)) rollups), w).
Proof.
  revert batch. induction rollups as [|rollup rollups IH]; intros batch.
  - cbn. by rewrite app_nil_r.
  - cbn [rollupBatch]. unfold mbind', now, liftR. cbn [toISOString].
    rewrite IH. cbn [rollupDocs fmap list_fmap]. by rewrite <- app_assoc.
Qed.

Lemma writeDailyRollups_run tenantId accountId rollups w :
  writeDailyRollups tenantId accountId rollups w
  = (Ok tt,
     mkWorld (invitations w)
             (applyBatch (rollupDocs tenantId accountId (isoInstant (clock w)) rollups)
                         (metrics w))
             (clock w)).
Proof.
  unfold writeDailyRollups, mbind'. rewrite rollupBatch_run. done.
Qed.

Lemma rollupDocs_strip tenantId accountId updatedAt rollups :
  prod_map id (delete "updatedAt") <$> rollupDocs tenantId accountId updatedAt rollups
  = prod_map id (delete "updatedAt") <$> rollupDocs tenantId accountId "" rollups.
Proof.
  unfold rollupDocs. rewrite <- !list_fmap_compose. apply list_fmap_ext.
  intros i rollup _. unfold compose, prod_map. cbn [fst snd id]. f_equal.
Qed.

(** ** What the effectful functions compute *)

Section Runs.
Variable hostDateParse : string -> date.
Variable localeCompare : string -> string -> Z.

Lemma mockFetchInvitations_run tenantId accountId fromISO toISO w :
  mockFetchInvitations hostDateParse localeCompare tenantId accountId fromISO toISO w
  = (generated hostDateParse localeCompare tenantId accountId fromISO toISO, tick 100 w).
Proof.
  unfold mockFetchInvitations, generated, mbind', sleep, liftR, mret, tick.
  by destruct (eachDayInclusive hostDateParse fromISO toISO).
Qed.

Lemma queryInvitationsByDateRange_run tenantId accountId fromDate toDate w :
  queryInvitationsByDateRange hostDateParse tenantId accountId fromDate toDate w
  = (queryResult hostDateParse tenantId accountId fromDate toDate (invitations w), w).
Proof.
  unfold queryInvitationsByDateRange, queryResult, mbind', liftR.
  destruct (toISOString (startOfDayUTC (fromISODateUTC hostDateParse fromDate))); [|done].
  by destruct (toISOString (startOfDayUTC (addDaysUTC (fromISODateUTC hostDateParse toDate) 1))).
Qed.

Lemma getTotalInvitationsInPeriod_run tenantId accountId fromDate toDate w :
  getTotalInvitationsInPeriod hostDateParse tenantId accountId fromDate toDate w
  = (totalResult hostDateParse tenantId accountId fromDate toDate (invitations w), w).
Proof.
  unfold getTotalInvitationsInPeriod, totalResult, mbind', mret.
  rewrite queryInvitationsByDateRange_run.
  by destruct (queryResult hostDateParse tenantId accountId fromDate toDate (invitations w)).
Qed.

Lemma reportFromStore_run params w :
  reportFromStore hostDateParse params w
  = (reportResponse hostDateParse params (invitations w),
     match reportRollups hostDateParse params (invitations w) with
     | Some rollups =>
         withMetrics w (applyBatch (rollupDocs (Params.tenantId params) (Params.accountId params)
                                                (isoInstant (clock w)) rollups)
                                   (metrics w))
     | None => w
     end).
Proof.
  unfold reportFromStore, reportResponse, reportRollups, mbind', liftR, mret.
  rewrite queryInvitationsByDateRange_run.
  destruct (queryResult _ _ _ _ _ _) as [results|]; [|done]. cbn [rbind].
  destruct (eachDayInclusive _ _ _) as [dateRange|]; [|done]. cbn [rbind].
  rewrite writeDailyRollups_run. fold (countsOf results).
  fold (rollupsOf (createZeroFilledCounts dateRange (countsOf results))).
  destruct (previousPeriod _ _) as [previous|]; [|done]. cbn [rbind].
  rewrite getTotalInvitationsInPeriod_run. cbn [invitations].
  by destruct (totalResult _ _ _ _ _ _).
Qed.

Lemma processRequest_run params w :
  processRequest hostDateParse localeCompare params w
  = match generated hostDateParse localeCompare (Params.tenantId params)
            (Params.accountId params) (Params.from params) (Params.to params) with
    | Throw m => (Throw m, tick 100 w)
    | Ok mock =>
        reportFromStore hostDateParse params
          (withInvitations (tick 100 w) (applyBatch (ingestBatch params mock) (invitations w)))
    end.
Proof.
  unfold processRequest, mbind'. rewrite mockFetchInvitations_run.
  destruct (generated _ _ _ _ _ _) as [mock|]; [|done].
  by rewrite writeRawInvitations_run.
Qed.

Lemma handler_run query w :
  getDailyInvitationMetrics hostDateParse localeCompare query w
  = match validateQueryParams hostDateParse query with
    | Throw m => (internalError m, w)
    | Ok (Invalid error) =>
        (Response.mk 400 (ErrorResponse "Invalid query parameters" error), w)
    | Ok (Valid params) =>
        let outcome := processRequest hostDateParse localeCompare params w in
        (responseOf outcome.1, outcome.2)
    end.
Proof.
  unfold getDailyInvitationMetrics, mbind', liftR, mret.
  destruct (validateQueryParams hostDateParse query) as [[params|error]|]; [|done..].
  by destruct (processRequest hostDateParse localeCompare params w) as [[] ?].
Qed.
End Runs.

Section Claims.
Variable hostDateParse : string -> date.
Variable localeCompare : string -> string -> Z.

Lemma validateQueryParams_valid query params :
  validateQueryParams hostDateParse query = Ok (Valid params) ->
  isValidISODate hostDateParse (Params.from params) = Ok true
  /\ isValidISODate hostDateParse (Params.to params) = Ok true
  /\ dateGt (fromISODateUTC hostDateParse (Params.from params))
            (fromISODateUTC hostDateParse (Params.to params)) = false
  /\ Query.tenantId query = QString (Params.tenantId params)
  /\ Query.accountId query = QString (Params.accountId params)
  /\ Query.from query = QString (Params.from params)
  /\ Query.to query = QString (Params.to params).
Proof.
  unfold validateQueryParams, requiredString.
  destruct (Query.tenantId query) as [|t|]; try discriminate.
  destruct (String.eqb t ""); try discriminate.
  destruct (Query.accountId query) as [|a|]; try discriminate.
  destruct (String.eqb a ""); try discriminate.
  destruct (Query.from query) as [|f|]; try discriminate.
  destruct (String.eqb f ""); try discriminate.
  destruct (Query.to query) as [|td|]; try discriminate.
  destruct (String.eqb td ""); try discriminate.
  destruct (isValidISODate hostDateParse f) as [[]|] eqn:Hf; try discriminate.
  destruct (isValidISODate hostDateParse td) as [[]|] eqn:Htd; try discriminate.
  cbn [rbind negb].
  destruct (dateGt _ _) eqn:Hgt; try discriminate.
  intros [= <-]. cbn [Params.from Params.to Params.tenantId Params.accountId].
  by repeat split.
Qed.

(** The handler leaves the world alone unless validation passes. *)
Lemma rejected_request_no_effect query w :
  (forall params, validateQueryParams hostDateParse query <> Ok (Valid params)) ->
  let response := (getDailyInvitationMetrics hostDateParse localeCompare query w).1 in
  (getDailyInvitationMetrics hostDateParse localeCompare query w).2 = w
  /\ match validateQueryParams hostDateParse query with
     | Ok (Invalid error) =>
         response = Response.mk 400 (ErrorResponse "Invalid query parameters" error)
     | Ok (Valid _) => False
     | Throw message => response = internalError message
     end.
Proof.
  intros Hnot. cbn zeta. rewrite handler_run.
  destruct (validateQueryParams hostDateParse query) as [[params|error]|]; [|done..].
  by destruct (Hnot params).
Qed.

(** The ways validation fails.  A missing, empty or non-string parameter, a
    date the validator returns false on and an inverted range give an
    error message, hence a 400; a date the validator throws on makes
    validation throw, hence a 500. *)
Lemma validateQueryParams_failures query :
  match requiredString (Query.tenantId query), requiredString (Query.accountId query),
        requiredString (Query.from query), requiredString (Query.to query) with
  | Some tenantId, Some accountId, Some from, Some to =>
      match isValidISODate hostDateParse from, isValidISODate hostDateParse to with
      | Throw message, _ => validateQueryParams hostDateParse query = Throw message
      | Ok false, _ => exists error, validateQueryParams hostDateParse query = Ok (Invalid error)
      | Ok true, Throw message => validateQueryParams hostDateParse query = Throw message
      | Ok true, Ok false =>
          exists error, validateQueryParams hostDateParse query = Ok (Invalid error)
      | Ok true, Ok true =>
          if dateGt (fromISODateUTC hostDateParse from) (fromISODateUTC hostDateParse to)
          then exists error, validateQueryParams hostDateParse query = Ok (Invalid error)
          else validateQueryParams hostDateParse query
               = Ok (Valid (Params.mk tenantId accountId from to))
      end
  | _, _, _, _ => exists error, validateQueryParams hostDateParse query = Ok (Invalid error)
  end.
Proof.
  unfold validateQueryParams.
  destruct (requiredString (Query.tenantId query)); [|eauto].
  destruct (requiredString (Query.accountId query)); [|eauto].
  destruct (requiredString (Query.from query)) as [from|]; [|eauto].
  destruct (requiredString (Query.to query)) as [to|]; [|eauto].
  destruct (isValidISODate hostDateParse from) as [[]|]; cbn [rbind negb]; [|eauto|done].
  destruct (isValidISODate hostDateParse to) as [[]|]; cbn [rbind negb]; [|eauto|done].
  destruct (dateGt _ _); eauto.
Qed.

(** C1. Running the handler a second time on the world the first run left
    (whatever the clock reads by then) leaves the [invitations] collection
    as the first run left it, sends the same response, and leaves the
    rollup documents as they were up to their [updatedAt] field. *)
Theorem ingestion_idempotent query w0 clock1 :
  let run1 := getDailyInvitationMetrics hostDateParse localeCompare query w0 in
  let w1 := run1.2 in
  let run2 := getDailyInvitationMetrics hostDateParse localeCompare query
                (mkWorld (invitations w1) (metrics w1) clock1) in
  invitations run2.2 = invitations w1
  /\ run2.1 = run1.1
  /\ delete "updatedAt" <$> metrics run2.2 = delete "updatedAt" <$> metrics w1.
Proof.
  cbn zeta. rewrite !handler_run.
  destruct (validateQueryParams hostDateParse query) as [[params|error]|]; [|done..].
  cbn zeta. rewrite !processRequest_run.
  destruct (generated _ _ _ _ _ _) as [mock|]; [|done].
  rewrite !reportFromStore_run. cbn [fst snd].
  set (I1 := applyBatch (ingestBatch params mock) (invitations w0)).
  assert (applyBatch (ingestBatch params mock) I1 = I1) as Hidem
    by apply applyBatch_idempotent.
  cbn [invitations metrics clock withMetrics withInvitations tick].
  destruct (reportRollups hostDateParse params I1) as [rollups|] eqn:Hroll;
    cbn [invitations metrics clock withMetrics withInvitations tick];
    rewrite !Hidem, Hroll;
    cbn [invitations metrics clock withMetrics withInvitations tick];
    (split; [done|]); (split; [done|]); [|done].
  rewrite !applyBatch_strip, !(rollupDocs_strip _ _ (isoInstant _)).
  by rewrite applyBatch_idempotent.
Qed.

(** C2. Two calls of the generator with the same arguments, in any two
    worlds, both return, and return sequences of the same length whose
    elements agree in [externalId], [senderId] and [receivedAt]. *)
Theorem generator_deterministic tenantId accountId fromISO toISO w1 w2 :
  exists l1 l2,
    (mockFetchInvitations hostDateParse localeCompare tenantId accountId fromISO toISO w1).1
      = Ok l1
    /\ (mockFetchInvitations hostDateParse localeCompare tenantId accountId fromISO toISO w2).1
      = Ok l2
    /\ length l1 = length l2
    /\ forall i x y, l1 !! i = Some x -> l2 !! i = Some y ->
         MockInvitation.externalId x = MockInvitation.externalId y
         /\ MockInvitation.senderId x = MockInvitation.senderId y
         /\ MockInvitation.receivedAt x = MockInvitation.receivedAt y.
Proof.
  rewrite !mockFetchInvitations_run. cbn [fst]. unfold generated.
  destruct (eachDayInclusive_returns hostDateParse fromISO toISO) as [days ->]. cbn [rbind].
  eexists _, _. split; [done|]. split; [done|]. split; [done|].
  intros i x y Hx Hy. rewrite Hx in Hy. by injection Hy as ->.
Qed.
End Claims.

Section MoreClaims.
Variable hostDateParse : string -> date.
Variable localeCompare : string -> string -> Z.

(** C9. The per-day count is the absolute value of a 32-bit hash, reduced
    modulo 6: an integer from 0 to 5. *)
Theorem daily_count_range tenantId accountId date :
  let seed := tenantId +:+ "-" +:+ accountId +:+ "-" +:+ date in
  let hash32 := simpleHash_loop seed 0 in
  - 2147483648 <= hash32 < 2147483648
  /\ simpleHash seed = Z.abs hash32
  /\ 0 <= simpleHash seed
  /\ getDailyInvitationCount tenantId accountId date = simpleHash seed mod 6
  /\ 0 <= getDailyInvitationCount tenantId accountId date <= 5.
Proof.
  cbn zeta. set (seed := tenantId +:+ "-" +:+ accountId +:+ "-" +:+ date).
  pose proof (simpleHash_loop_range seed 0 ltac:(lia)) as Hloop.
  pose proof (simpleHash_range seed) as Hhash.
  pose proof (rem_nonneg_range (simpleHash seed) 6 ltac:(lia) ltac:(lia)) as Hrem.
  unfold getDailyInvitationCount. fold seed.
  split; [done|]. split; [done|]. split; [lia|]. split; [|lia].
  unfold rem. apply Z.rem_mod_nonneg; lia.
Qed.

Lemma fmap_fst_pair {A B} (g : A -> B) (l : list A) :
  ((fun a => (a, g a)) <$> l).*1 = l.
Proof. induction l as [|a l IH]; cbn; [done|]. by f_equal. Qed.

(** C4. For a valid range, the zero-filled counts hold one entry per
    calendar day of the range, in ascending order of date, as many entries
    as the range has days, each with the retrieved count of its day or 0
    when there is none. *)
Theorem zero_fill_complete from to (actualCounts : list (string * Z)) :
  isValidISODate hostDateParse from = Ok true ->
  isValidISODate hostDateParse to = Ok true ->
  dateGt (fromISODateUTC hostDateParse from) (fromISODateUTC hostDateParse to) = false ->
  exists dateRange,
    eachDayInclusive hostDateParse from to = Ok dateRange
    /\ let zeroFilled := createZeroFilledCounts dateRange actualCounts in
       let first := dayNumber hostDateParse from in
       let last := dayNumber hostDateParse to in
       Z.of_nat (length zeroFilled) = last - first + 1
       /\ zeroFilled.*1 = isoDay <$> seqZ first (last - first + 1)
       /\ NoDup zeroFilled.*1
       /\ StronglySorted (fun a b => strLt a b = true) zeroFilled.*1
       /\ (forall day, day ∈ zeroFilled.*1 <->
             isValidISODate hostDateParse day = Ok true
             /\ first <= dayNumber hostDateParse day <= last)
       /\ (forall day count, (day, count) ∈ zeroFilled ->
             count = orZero (mapGet day actualCounts))
       /\ (forall day count, (day, count) ∈ zeroFilled ->
             mapGet day actualCounts = None -> count = 0).
Proof.
  intros Hfrom Hto Hle.
  destruct (valid_range_days hostDateParse from to Hfrom Hto Hle)
    as (a & b & Ha & Hab & Hb & -> & ->).
  exists (isoDay <$> seqZ a (b - a + 1)).
  split; [apply eachDayInclusive_days; lia|]. cbn zeta.
  rewrite !dayNumber_isoDay by lia.
  assert (NoDup (isoDay <$> seqZ a (b - a + 1))) as Hnd
    by (apply (NoDup_isoDays hostDateParse); lia).
  rewrite createZeroFilledCounts_NoDup by done.
  rewrite fmap_fst_pair.
  split; [rewrite !length_fmap, length_seqZ; lia|].
  split; [done|]. split; [done|].
  split; [apply StronglySorted_fmap_seqZ; intros; apply strLt_isoDay; lia|].
  split; [|split].
  - intros day. rewrite list_elem_of_fmap. setoid_rewrite elem_of_seqZ. split.
    + intros (n & -> & Hn). rewrite dayNumber_isoDay by lia.
      split; [apply isValidISODate_isoDay|]; lia.
    + intros [(n & Hn & ->)%isValidISODate_inv Hday].
      rewrite dayNumber_isoDay in Hday by done. exists n. split; [done|lia].
  - intros day count (d & [= -> ->] & _)%list_elem_of_fmap. done.
  - intros day count (d & [= -> ->] & _)%list_elem_of_fmap ->. done.
Qed.

Lemma isValidISODate_true_iff s :
  isValidISODate hostDateParse s = Ok true <->
  matchShape "dddd-dd-dd" s = true
  /\ toISODateUTC (fromISODateUTC hostDateParse s) = Ok s.
Proof.
  unfold isValidISODate. destruct (matchShape "dddd-dd-dd" s); cbn [negb].
  - destruct (toISODateUTC (fromISODateUTC hostDateParse s)) as [iso|m]; cbn [rbind].
    + split.
      * intros [= ->%String.eqb_eq]. done.
      * intros [_ [= ->]]. by rewrite String.eqb_refl.
    + split; [done|]. by intros [_ ?].
  - split; [done|]. by intros [? _].
Qed.

(** The strings the validator accepts are the days of the Gregorian
    calendar of the years 0000 to 9999. *)
Lemma isValidISODate_calendar s :
  isValidISODate hostDateParse s = Ok true <->
  exists y m d, 0 <= y <= 9999 /\ 1 <= m <= 12 /\ 1 <= d <= daysInMonth (m - 1) (leapOf y)
                /\ s = ymdString y m d.
Proof.
  split.
  - intros (n & Hn & ->)%isValidISODate_inv.
    destruct (isoDay_ymd n Hn) as [-> Hy]. set (t := n * msPerDay) in *.
    pose proof (MonthFromTime_range t). pose proof (DateFromTime_range t) as Hd.
    exists (YearFromTime t), (MonthFromTime t + 1), (DateFromTime t).
    replace (MonthFromTime t + 1 - 1) with (MonthFromTime t) by lia.
    rewrite <- InLeapYear_leapOf. repeat split; lia.
  - intros (y & m & d & Hy & Hm & Hd & ->).
    assert (0 <= leapOf y <= 1) by (unfold leapOf; destruct (_ =? _); lia).
    pose proof (daysInMonth_le (m - 1) (leapOf y) ltac:(done)).
    set (n := MakeDay y (m - 1) d).
    destruct (ymd_of_MakeDay y (m - 1) d (n * msPerDay)) as (Ey & Em & Ed);
      [lia|done|by rewrite Day_midnight|].
    assert (firstDay <= n <= lastDay) as Hn.
    { apply YearFromDay_calendar. unfold YearFromTime in Ey.
      rewrite Day_midnight in Ey. lia. }
    destruct (isoDay_ymd n Hn) as [E _]. rewrite Ey, Em, Ed in E.
    replace (m - 1 + 1) with m in E by lia. rewrite <- E.
    by apply isValidISODate_isoDay.
Qed.

(** C3. On a string of the right shape whose day is 32, the validator does
    not return: [toISOString] throws on the invalid date. *)
Theorem isValidISODate_day32_throws :
  matchShape "dddd-dd-dd" "2025-09-32" = true
  /\ fromISODateUTC hostDateParse "2025-09-32" = None
  /\ isValidISODate hostDateParse "2025-09-32" = Throw "Invalid time value".
Proof. by vm_compute. Qed.

(** A month past 12 or a day past 31 (or one that is 0) makes the
    validator throw rather than return false. *)
Lemma isValidISODate_throws y m d :
  0 <= y <= 9999 -> 0 <= m <= 99 -> 0 <= d <= 99 ->
  m = 0 \/ 12 < m \/ d = 0 \/ 31 < d ->
  isValidISODate hostDateParse (ymdString y m d) = Throw "Invalid time value".
Proof.
  intros Hy Hm Hd Hbad. rewrite isValidISODate_ymd by done.
  destruct (Z.leb_spec 1 m), (Z.leb_spec m 12), (Z.leb_spec 1 d), (Z.leb_spec d 31);
    cbn [andb]; try done; lia.
Qed.

(** C7. A request whose [from] has day 32 is answered 500, not 400; the
    world is left as it was. *)
Theorem bad_day_request_500 w :
  let query := Query.mk (QString "t1") (QString "a1")
                        (QString "2025-09-32") (QString "2025-10-01") in
  validateQueryParams hostDateParse query = Throw "Invalid time value"
  /\ getDailyInvitationMetrics hostDateParse localeCompare query w
     = (Response.mk 500 (ErrorResponse "Internal server error" "Invalid time value"), w).
Proof.
  cbn zeta. assert (validateQueryParams hostDateParse
            (Query.mk (QString "t1") (QString "a1") (QString "2025-09-32")
                      (QString "2025-10-01")) = Throw "Invalid time value") as E
    by (by vm_compute).
  split; [done|]. by rewrite handler_run, E.
Qed.
End MoreClaims.

Section Report.
Variable hostDateParse : string -> date.
Variable localeCompare : string -> string -> Z.

(** A validated range has at least one day. *)
Lemma valid_range_nonempty query params :
  validateQueryParams hostDateParse query = Ok (Valid params) ->
  exists day days,
    eachDayInclusive hostDateParse (Params.from params) (Params.to params) = Ok (day :: days)
    /\ NoDup (day :: days).
Proof.
  intros (Hfrom & Hto & Hle & _)%validateQueryParams_valid.
  destruct (valid_range_days hostDateParse _ _ Hfrom Hto Hle)
    as (a & b & Ha & Hab & Hb & -> & ->).
  rewrite eachDayInclusive_days by lia.
  pose proof (NoDup_isoDays hostDateParse a (b - a + 1) ltac:(lia) ltac:(lia)) as Hnd.
  rewrite seqZ_cons in * by lia. cbn [fmap list_fmap] in *. eauto.
Qed.

(** The responses the handler sends with status 200. *)
Lemma handler_success query w :
  Response.statusCode (getDailyInvitationMetrics hostDateParse localeCompare query w).1 = 200 ->
  exists params mock results dateRange previous comparison,
    let col := applyBatch (ingestBatch params mock) (invitations w) in
    validateQueryParams hostDateParse query = Ok (Valid params)
    /\ invitations (getDailyInvitationMetrics hostDateParse localeCompare query w).2 = col
    /\ queryResult hostDateParse (Params.tenantId params) (Params.accountId params)
         (Params.from params) (Params.to params) col = Ok results
    /\ eachDayInclusive hostDateParse (Params.from params) (Params.to params) = Ok dateRange
    /\ previousPeriod hostDateParse (Params.from params) = Ok previous
    /\ totalResult hostDateParse (Params.tenantId params) (Params.accountId params)
         previous.1 previous.2 col = Ok comparison
    /\ (getDailyInvitationMetrics hostDateParse localeCompare query w).1
       = Response.mk 200
           (MetricData (formatData (createZeroFilledCounts dateRange (countsOf results))
                                   comparison)).
Proof.
  rewrite handler_run.
  destruct (validateQueryParams hostDateParse query) as [[params|error]|] eqn:Hv;
    [|discriminate..].
  cbn zeta. rewrite processRequest_run.
  destruct (generated _ _ _ _ _ _) as [mock|]; [|discriminate].
  rewrite reportFromStore_run. cbn [fst snd invitations withInvitations].
  set (col := applyBatch (ingestBatch params mock) (invitations w)).
  intros H200. exists params, mock.
  assert (invitations
            match reportRollups hostDateParse params col with
            | Some rollups =>
                withMetrics (withInvitations (tick 100 w) col)
                  (applyBatch
                     (rollupDocs (Params.tenantId params) (Params.accountId params)
                        (isoInstant (clock (withInvitations (tick 100 w) col))) rollups)
                     (metrics (withInvitations (tick 100 w) col)))
            | None => withInvitations (tick 100 w) col
            end = col) as -> by (by destruct (reportRollups _ _ _)).
  revert H200. unfold reportResponse.
  destruct (queryResult _ _ _ _ _ _) as [results|] eqn:Hq; [|discriminate]. cbn [rbind].
  destruct (eachDayInclusive _ _ _) as [dateRange|] eqn:Hd; [|discriminate]. cbn [rbind].
  destruct (previousPeriod _ _) as [previous|] eqn:Hp; [|discriminate]. cbn [rbind].
  destruct (totalResult _ _ _ _ _ _) as [comparison|] eqn:Ht; [|discriminate]. cbn [rbind].
  intros _. exists results, dateRange, previous, comparison. cbn zeta. fold col.
  by rewrite ?Hq, ?Ht.
Qed.

(** C8. In a response with status 200, the first element carries
    [previousPeriodComparison] and no other element does. *)
Theorem comparison_on_first_only query w :
  let response := (getDailyInvitationMetrics hostDateParse localeCompare query w).1 in
  Response.statusCode response = 200 ->
  exists first rest comparison,
    Response.body response = MetricData (first :: rest)
    /\ MetricDataPoint.previousPeriodComparison first = Some comparison
    /\ Forall (fun point => MetricDataPoint.previousPeriodComparison point = None) rest
    /\ Forall (fun point => MetricDataPoint.status point = "ok") (first :: rest).
Proof.
  cbn zeta. intros H200.
  destruct (handler_success query w H200)
    as (params & mock & results & dateRange & previous & comparison
        & Hv & _ & _ & Hdays & _ & _ & ->).
  destruct (valid_range_nonempty query params Hv) as (day & days & Hdays' & Hnd).
  rewrite Hdays' in Hdays. injection Hdays as <-.
  rewrite createZeroFilledCounts_NoDup by done. cbn [fmap list_fmap].
  rewrite formatData_shape. cbn [Response.body].
  eexists _, _, comparison. split; [done|]. split; [done|]. split.
  - apply Forall_fmap, Forall_fmap, Forall_forall. by intros.
  - constructor; [done|]. apply Forall_fmap, Forall_fmap, Forall_forall. by intros.
Qed.
End Report.

(** ** Instants, query bounds and totals *)

Lemma isoDateOfTime_Day t1 t2 : Day t1 = Day t2 -> isoDateOfTime t1 = isoDateOfTime t2.
Proof.
  intros E. unfold isoDateOfTime, DateFromTime, MonthFromTime, InLeapYear, DayWithinYear,
    YearFromTime. by rewrite E.
Qed.

Lemma isoInstant_within k h mi :
  0 <= h < 24 -> 0 <= mi < 60 ->
  isoInstant (k * msPerDay + h * msPerHour + mi * msPerMinute)
  = isoDay k +:+ "T" +:+ clockString h mi 0 0.
Proof.
  intros Hh Hmi. unfold isoInstant, isoDay. f_equal.
  - apply isoDateOfTime_Day. rewrite Day_midnight.
    unfold Day, msPerDay, msPerHour, msPerMinute. dlia.
  - f_equal. unfold isoClockOfTime, clockString.
    replace (HourFromTime _) with h; [replace (MinFromTime _) with mi;
      [replace (SecFromTime _) with 0; [replace (msFromTime _) with 0; [done|]|]|]|];
      unfold HourFromTime, MinFromTime, SecFromTime, msFromTime,
        msPerDay, msPerHour, msPerMinute, msPerSecond; dlia.
Qed.

Lemma isoInstant_midnight k : isoInstant (k * msPerDay) = isoDay k +:+ "T00:00:00.000Z".
Proof.
  replace (k * msPerDay) with (k * msPerDay + 0 * msPerHour + 0 * msPerMinute) by lia.
  by rewrite isoInstant_within.
Qed.

Lemma toISOString_time t : toISOString (Some t) = Ok (isoInstant t).
Proof. reflexivity. Qed.

Section Bounds.
Variable hostDateParse : string -> date.

Lemma lowerBound_isoDay a :
  firstDay <= a <= lastDay ->
  toISOString (startOfDayUTC (fromISODateUTC hostDateParse (isoDay a)))
  = Ok (isoDay a +:+ "T00:00:00.000Z").
Proof.
  intros Ha. rewrite fromISODateUTC_isoDay, startOfDayUTC_time, Day_midnight by done.
  rewrite TimeClip_small by (unfold firstDay, lastDay, msPerDay in *; lia).
  by rewrite toISOString_time, isoInstant_midnight.
Qed.

Lemma upperBound_isoDay b :
  firstDay <= b <= lastDay ->
  toISOString (startOfDayUTC (addDaysUTC (fromISODateUTC hostDateParse (isoDay b)) 1))
  = Ok (isoDay (b + 1) +:+ "T00:00:00.000Z").
Proof.
  intros Hb. rewrite fromISODateUTC_isoDay, addDaysUTC_time by done.
  replace (b * msPerDay + 1 * msPerDay) with ((b + 1) * msPerDay) by lia.
  rewrite TimeClip_small by (unfold firstDay, lastDay, msPerDay in *; lia).
  rewrite startOfDayUTC_time, Day_midnight.
  rewrite TimeClip_small by (unfold firstDay, lastDay, msPerDay in *; lia).
  by rewrite toISOString_time, isoInstant_midnight.
Qed.

Lemma previousPeriod_isoDay n :
  firstDay <= n <= lastDay ->
  previousPeriod hostDateParse (isoDay n) = Ok (isoDay (n - 7), isoDay (n - 1)).
Proof.
  intros Hn. unfold previousPeriod. rewrite fromISODateUTC_isoDay, !addDaysUTC_time by done.
  replace (n * msPerDay + -7 * msPerDay) with ((n - 7) * msPerDay) by lia.
  replace (n * msPerDay + -1 * msPerDay) with ((n - 1) * msPerDay) by lia.
  rewrite !TimeClip_small by (unfold firstDay, lastDay, msPerDay in *; lia).
  by rewrite !toISODateUTC_time.
Qed.

(** The tally counts every document of the snapshot once. *)
Lemma mapSet_sum date (m : list (string * Z)) :
  foldr Z.add 0 (mapSet date (orZero (mapGet date m) + 1) m).*2 = foldr Z.add 0 m.*2 + 1.
Proof.
  induction m as [|[k v] m IH]; cbn [mapSet mapGet]; [done|].
  destruct (String.eqb k date).
  - cbn. destruct (Z.eqb_spec v 0); lia.
  - cbn. cbn in IH. rewrite IH. lia.
Qed.

Lemma countByDate_sum docs dateCountMap counts :
  countByDate hostDateParse docs dateCountMap = Ok counts ->
  foldr Z.add 0 counts.*2 = foldr Z.add 0 dateCountMap.*2 + Z.of_nat (length docs).
Proof.
  revert dateCountMap. induction docs as [|data docs IH]; intros dateCountMap.
  - cbn. intros [= ->]. lia.
  - cbn [countByDate].
    destruct (toISODateUTC (newDate hostDateParse (receivedAtOf data))) as [date|];
      [|discriminate].
    cbn [rbind]. intros H%IH. rewrite H, mapSet_sum. cbn [length]. lia.
Qed.

Lemma fold_left_total (results : list InvitationQueryResult.t) (acc : Z) :
  fold_left (fun total r => total + InvitationQueryResult.count r) results acc
  = acc + foldr Z.add 0 (InvitationQueryResult.count <$> results).
Proof.
  revert acc. induction results as [|r results IH]; intros acc; cbn; [lia|].
  rewrite IH. lia.
Qed.

(** The total is the number of documents the range query of the period matches. *)
Lemma totalResult_count tenantId accountId fromDate toDate col total :
  totalResult hostDateParse tenantId accountId fromDate toDate col = Ok total ->
  exists lower upper,
    toISOString (startOfDayUTC (fromISODateUTC hostDateParse fromDate)) = Ok lower
    /\ toISOString (startOfDayUTC (addDaysUTC (fromISODateUTC hostDateParse toDate) 1))
       = Ok upper
    /\ total = Z.of_nat (length (querySnapshot tenantId accountId lower upper col)).
Proof.
  unfold totalResult, queryResult.
  destruct (toISOString (startOfDayUTC (fromISODateUTC hostDateParse fromDate)))
    as [lower|]; [|discriminate].
  destruct (toISOString (startOfDayUTC (addDaysUTC (fromISODateUTC hostDateParse toDate) 1)))
    as [upper|]; [|discriminate].
  cbn [rbind].
  destruct (countByDate hostDateParse _ []) as [counts|] eqn:Hc; [|discriminate].
  cbn [rbind]. intros [= <-]. exists lower, upper. split; [done|]. split; [done|].
  rewrite fold_left_total. apply countByDate_sum in Hc.
  change (foldr Z.add 0 (@nil (string * Z)).*2) with 0 in Hc.
  rewrite Z.add_0_l in *. rewrite <- Hc, <- list_fmap_compose.
  f_equal. apply list_fmap_ext. by intros ? [] ?.
Qed.
End Bounds.

(** ** Order of ISO timestamps *)

Lemma strCompare_antisym a b : strCompare a b = CompOpp (strCompare b a).
Proof.
  revert b. induction a as [|c a IH]; intros [|d b]; cbn; try done.
  rewrite (Z.compare_antisym (charCode c) (charCode d)).
  destruct (charCode c ?= charCode d); cbn; [apply IH|done..].
Qed.

Lemma strCompare_clock h1 m1 s1 ms1 h2 m2 s2 ms2 :
  0 <= h1 <= 99 -> 0 <= m1 <= 99 -> 0 <= s1 <= 99 -> 0 <= ms1 <= 999 ->
  0 <= h2 <= 99 -> 0 <= m2 <= 99 -> 0 <= s2 <= 99 -> 0 <= ms2 <= 999 ->
  strCompare (clockString h1 m1 s1 ms1) (clockString h2 m2 s2 ms2) =
  lexCompare (h1 ?= h2) (lexCompare (m1 ?= m2) (lexCompare (s1 ?= s2) (ms1 ?= ms2))).
Proof.
  intros. unfold clockString.
  rewrite strCompare_app by (by rewrite !length_fixedDigits).
  rewrite strCompare_fixedDigits_small by (change (10 ^ Z.of_nat 2) with 100; lia).
  unfold lexCompare. destruct (h1 ?= h2); try done.
  rewrite (strCompare_app_same ":").
  rewrite strCompare_app by (by rewrite !length_fixedDigits).
  rewrite strCompare_fixedDigits_small by (change (10 ^ Z.of_nat 2) with 100; lia).
  destruct (m1 ?= m2); try done.
  rewrite (strCompare_app_same ":").
  rewrite strCompare_app by (by rewrite !length_fixedDigits).
  rewrite strCompare_fixedDigits_small by (change (10 ^ Z.of_nat 2) with 100; lia).
  destruct (s1 ?= s2); try done.
  rewrite (strCompare_app_same ".").
  rewrite strCompare_app by (by rewrite !length_fixedDigits).
  rewrite strCompare_fixedDigits_small by (change (10 ^ Z.of_nat 3) with 1000; lia).
  rewrite strCompare_refl. by destruct (ms1 ?= ms2).
Qed.

Lemma zero_compare x : 0 <= x -> (0 ?= x) = if x =? 0 then Eq else Lt.
Proof.
  intros Hx. destruct (Z.eqb_spec x 0) as [->|]; [done|]. apply Z.compare_lt_iff. lia.
Qed.

(** A timestamp of day [k] against the midnight of day [a]. *)
Lemma strCompare_stamp_midnight k a h mi s ms :
  firstDay <= k <= lastDay -> firstDay <= a <= lastDay ->
  0 <= h <= 99 -> 0 <= mi <= 99 -> 0 <= s <= 99 -> 0 <= ms <= 999 ->
  strCompare (isoDay a +:+ "T00:00:00.000Z") (isoDay k +:+ "T" +:+ clockString h mi s ms)
  = lexCompare (a ?= k) (if (h =? 0) && (mi =? 0) && (s =? 0) && (ms =? 0) then Eq else Lt).
Proof.
  intros Hk Ha Hh Hmi Hs Hms.
  destruct (Z.compare_spec a k) as [->|Hlt|Hgt]; cbn [lexCompare].
  - rewrite strCompare_app_same.
    change "T00:00:00.000Z" with ("T" +:+ clockString 0 0 0 0).
    rewrite strCompare_app_same, strCompare_clock by lia.
    rewrite !zero_compare by lia.
    by destruct (h =? 0), (mi =? 0), (s =? 0), (ms =? 0).
  - apply isoDay_lt; lia.
  - rewrite strCompare_antisym, isoDay_lt by lia. done.
Qed.

Lemma strLe_lower_stamp a k h mi s ms :
  firstDay <= k <= lastDay -> firstDay <= a <= lastDay ->
  0 <= h <= 99 -> 0 <= mi <= 99 -> 0 <= s <= 99 -> 0 <= ms <= 999 ->
  strLe (isoDay a +:+ "T00:00:00.000Z") (isoDay k +:+ "T" +:+ clockString h mi s ms)
  = (a <=? k).
Proof.
  intros. unfold strLe. rewrite strCompare_stamp_midnight by done.
  destruct (Z.compare_spec a k), (Z.leb_spec a k); cbn [lexCompare]; try lia; try done.
  by destruct (_ && _).
Qed.

Lemma strLt_stamp_upper b k h mi s ms :
  firstDay <= k <= lastDay -> firstDay <= b + 1 <= lastDay ->
  0 <= h <= 99 -> 0 <= mi <= 99 -> 0 <= s <= 99 -> 0 <= ms <= 999 ->
  strLt (isoDay k +:+ "T" +:+ clockString h mi s ms) (isoDay (b + 1) +:+ "T00:00:00.000Z")
  = (k <=? b).
Proof.
  intros. unfold strLt. rewrite strCompare_antisym, strCompare_stamp_midnight by done.
  destruct (Z.compare_spec (b + 1) k), (Z.leb_spec k b); cbn [lexCompare CompOpp];
    try lia; try done.
  by destruct (_ && _).
Qed.

(** Past the last four-digit year the upper bound starts with a sign, and
    every four-digit timestamp compares above it. *)
Lemma strLt_stamp_year10000 k rest :
  firstDay <= k <= lastDay ->
  strLt (isoDay k +:+ rest) (isoDay (lastDay + 1) +:+ "T00:00:00.000Z") = false.
Proof.
  intros Hk. destruct (isoDay_ymd k Hk) as [-> _]. rewrite ymdString_chars.
  change (isoDay (lastDay + 1)) with "+010000-01-01".
  unfold strLt. rewrite !append_cons. cbn [strCompare].
  rewrite charCode_digitChar by apply digit_mod.
  pose proof (digit_mod (YearFromTime (k * msPerDay) / 1000)).
  change (charCode "+") with 43.
  by replace (_ ?= 43) with Gt by (symmetry; apply Z.compare_gt_iff; lia).
Qed.

(** ** Generated invitations *)

Lemma pad2_fixedDigits n :
  0 <= n < 100 -> padStart 2 "0" (numberToString 10 n) = fixedDigits 2 n.
Proof.
  intros Hn.
  assert (Forall (fun n => padStart 2 "0" (numberToString 10 n) = fixedDigits 2 n)
                 (seqZ 0 100)) as H.
  { apply (Forall_impl (fun n => String.eqb (padStart 2 "0" (numberToString 10 n))
                                             (fixedDigits 2 n) = true)).
    - apply Forall_forall. intros x Hx. apply Is_true_true.
      revert x Hx. apply Forall_forall, forallb_True. by vm_compute.
    - intros x. apply String.eqb_eq. }
  rewrite Forall_forall in H. apply H, elem_of_seqZ. lia.
Qed.

Lemma generateInvitation_receivedAt tenantId accountId date i :
  exists h mi,
    0 <= h < 24 /\ 0 <= mi < 60
    /\ MockInvitation.receivedAt (generateInvitation tenantId accountId date i)
       = date +:+ "T" +:+ clockString h mi 0 0.
Proof.
  unfold generateInvitation. cbn [MockInvitation.receivedAt].
  set (seed := tenantId +:+ "-" +:+ accountId +:+ "-" +:+ date +:+ "-" +:+ numberToString 10 i).
  set (h := rem (simpleHash ("hour-" +:+ seed)) 24).
  set (mi := rem (simpleHash ("minute-" +:+ seed)) 60).
  assert (0 <= h < 24) as Hh
    by (apply rem_nonneg_range; [apply simpleHash_range|lia]).
  assert (0 <= mi < 60) as Hmi
    by (apply rem_nonneg_range; [apply simpleHash_range|lia]).
  exists h, mi. split; [done|]. split; [done|].
  rewrite !pad2_fixedDigits by lia. reflexivity.
Qed.

Lemma sortInsert_Permutation {A} (cmp : A -> A -> Z) x l : sortInsert cmp x l ≡ₚ x :: l.
Proof.
  induction l as [|y l IH]; cbn; [done|].
  destruct (cmp x y <=? 0); [done|]. rewrite IH. apply Permutation_swap.
Qed.

Lemma sortBy_Permutation {A} (cmp : A -> A -> Z) l : sortBy cmp l ≡ₚ l.
Proof.
  induction l as [|x l IH]; cbn; [done|].
  rewrite sortInsert_Permutation. by f_equiv.
Qed.

Section Generated.
Variable hostDateParse : string -> date.
Variable localeCompare : string -> string -> Z.

Lemma generated_elem tenantId accountId fromISO toISO invitations invitation :
  generated hostDateParse localeCompare tenantId accountId fromISO toISO = Ok invitations ->
  invitation ∈ invitations ->
  exists days date i,
    eachDayInclusive hostDateParse fromISO toISO = Ok days
    /\ date ∈ days
    /\ 0 <= i < getDailyInvitationCount tenantId accountId date
    /\ invitation = generateInvitation tenantId accountId date i.
Proof.
  unfold generated.
  destruct (eachDayInclusive hostDateParse fromISO toISO) as [days|]; [|discriminate].
  cbn [rbind]. intros [= <-]. rewrite sortBy_Permutation.
  intros (date & Hdate & Hin)%list_elem_of_In%in_flat_map.
  apply list_elem_of_In in Hin. unfold generateInvitationsForDay in Hin.
  apply list_elem_of_fmap in Hin as (i & -> & Hi%elem_of_seqZ).
  exists days, date, i. rewrite list_elem_of_In. repeat split; try done; lia.
Qed.

(** Every invitation generated for a valid range lies at a minute of one
    of the days of the range: its [receivedAt] reads as an instant of that
    day, and formats back to that day. *)
Lemma generated_within_day tenantId accountId a b invitations invitation :
  firstDay <= a -> a <= b -> b <= lastDay ->
  generated hostDateParse localeCompare tenantId accountId (isoDay a) (isoDay b)
    = Ok invitations ->
  invitation ∈ invitations ->
  exists k h mi,
    a <= k <= b /\ 0 <= h < 24 /\ 0 <= mi < 60
    /\ MockInvitation.receivedAt invitation = isoDay k +:+ "T" +:+ clockString h mi 0 0
    /\ newDate hostDateParse (MockInvitation.receivedAt invitation)
       = Some (k * msPerDay + h * msPerHour + mi * msPerMinute)
    /\ toISODateUTC (newDate hostDateParse (MockInvitation.receivedAt invitation))
       = Ok (isoDay k).
Proof.
  intros Ha Hab Hb Hgen Hin.
  destruct (generated_elem _ _ _ _ _ _ Hgen Hin) as (days & date & i & Hdays & Hdate & _ & ->).
  rewrite eachDayInclusive_days in Hdays by lia. injection Hdays as <-.
  apply list_elem_of_fmap in Hdate as (k & -> & Hk%elem_of_seqZ).
  destruct (generateInvitation_receivedAt tenantId accountId (isoDay k) i)
    as (h & mi & Hh & Hmi & ->).
  exists k, h, mi. split; [lia|]. split; [done|]. split; [done|]. split; [done|].
  assert (newDate hostDateParse (isoDay k +:+ "T" +:+ clockString h mi 0 0)
          = Some (k * msPerDay + h * msPerHour + mi * msPerMinute)) as ->.
  { destruct (isoDay_ymd k ltac:(lia)) as [-> Hy]. set (t := k * msPerDay) in *.
    pose proof (MonthFromTime_range t). pose proof (DateFromTime_range t) as Hd.
    pose proof (daysInMonth_le (MonthFromTime t) _ (InLeapYear_range t)).
    rewrite newDate_dateTime by lia.
    replace (MonthFromTime t + 1 - 1) with (MonthFromTime t) by lia.
    rewrite <- Day_decomp. unfold t at 5. rewrite Day_midnight.
    destruct (Z.leb_spec 1 (MonthFromTime t + 1)); [|lia].
    destruct (Z.leb_spec (MonthFromTime t + 1) 12); [|lia].
    destruct (Z.leb_spec 1 (DateFromTime t)); [|lia].
    destruct (Z.leb_spec (DateFromTime t) 31); [|lia].
    destruct (Z.leb_spec h 24); [|lia]. destruct (Z.leb_spec mi 59); [|lia].
    destruct (Z.ltb_spec h 24); [|lia]. cbn [andb orb Z.leb Z.compare].
    unfold MakeDate, MakeTime. rewrite TimeClip_small.
    - f_equal. lia.
    - unfold firstDay, lastDay, msPerDay, msPerHour, msPerMinute, msPerSecond in *. lia. }
  split; [done|]. rewrite toISODateUTC_time. f_equal. unfold isoDay.
  apply isoDateOfTime_Day. rewrite Day_midnight.
  unfold Day, msPerDay, msPerHour, msPerMinute. dlia.
Qed.
End Generated.

(** ** Which documents the range query matches *)

Lemma matchesQuery_raw tenantId accountId lower upper externalId receivedAt :
  matchesQuery tenantId accountId lower upper
    (rawInvitationDoc (RawInvitation.mk tenantId accountId externalId receivedAt))
  = strLe lower receivedAt && strLt receivedAt upper.
Proof.
  unfold matchesQuery, rawInvitationDoc.
  cbn [RawInvitation.tenantId RawInvitation.accountId RawInvitation.externalId
       RawInvitation.receivedAt].
  rewrite lookup_insert_eq.
  rewrite lookup_insert_ne, lookup_insert_eq by done.
  rewrite !lookup_insert_ne, lookup_insert_eq by done.
  by rewrite !bool_decide_eq_true_2.
Qed.

Section RangeQuery.
Variable hostDateParse : string -> date.
Variable localeCompare : string -> string -> Z.

(** Below the last day of the year 9999 the query of the range from day [a]
    to day [b] matches a four-digit-year timestamp exactly when its day is
    one of [a] to [b]: the midnight of [b] is in, the midnight of [b + 1]
    is out. *)
Lemma range_query_exact tenantId accountId externalId a b k h mi s ms :
  firstDay <= a <= lastDay -> firstDay <= b < lastDay -> firstDay <= k <= lastDay ->
  0 <= h <= 99 -> 0 <= mi <= 99 -> 0 <= s <= 99 -> 0 <= ms <= 999 ->
  exists lower upper,
    toISOString (startOfDayUTC (fromISODateUTC hostDateParse (isoDay a))) = Ok lower
    /\ toISOString (startOfDayUTC (addDaysUTC (fromISODateUTC hostDateParse (isoDay b)) 1))
       = Ok upper
    /\ matchesQuery tenantId accountId lower upper
         (rawInvitationDoc
            (RawInvitation.mk tenantId accountId externalId
                              (isoDay k +:+ "T" +:+ clockString h mi s ms)))
       = (a <=? k) && (k <=? b).
Proof.
  intros Ha Hb Hk Hh Hmi Hs Hms.
  rewrite lowerBound_isoDay, upperBound_isoDay by lia. eexists _, _.
  split; [done|]. split; [done|].
  by rewrite matchesQuery_raw, strLe_lower_stamp, strLt_stamp_upper by lia.
Qed.

Lemma midnight_matched tenantId accountId externalId a b k :
  firstDay <= a <= lastDay -> firstDay <= b < lastDay -> firstDay <= k <= lastDay ->
  matchesQuery tenantId accountId
    (isoDay a +:+ "T00:00:00.000Z") (isoDay (b + 1) +:+ "T00:00:00.000Z")
    (rawInvitationDoc
       (RawInvitation.mk tenantId accountId externalId (isoDay k +:+ "T00:00:00.000Z")))
  = (a <=? k) && (k <=? b).
Proof.
  intros Ha Hb Hk.
  pose proof (strLe_lower_stamp a k 0 0 0 0) as H1.
  pose proof (strLt_stamp_upper b k 0 0 0 0) as H2.
  change ("T" +:+ clockString 0 0 0 0) with "T00:00:00.000Z" in H1, H2.
  rewrite matchesQuery_raw, H1, H2 by lia. done.
Qed.

Lemma range_query_boundaries tenantId accountId externalId a b :
  firstDay <= a -> a <= b -> b < lastDay ->
  exists lower upper,
    toISOString (startOfDayUTC (fromISODateUTC hostDateParse (isoDay a))) = Ok lower
    /\ toISOString (startOfDayUTC (addDaysUTC (fromISODateUTC hostDateParse (isoDay b)) 1))
       = Ok upper
    /\ lower = isoInstant (a * msPerDay)
    /\ upper = isoInstant ((b + 1) * msPerDay)
    /\ matchesQuery tenantId accountId lower upper
         (rawInvitationDoc
            (RawInvitation.mk tenantId accountId externalId (isoInstant (a * msPerDay))))
       = true
    /\ matchesQuery tenantId accountId lower upper
         (rawInvitationDoc
            (RawInvitation.mk tenantId accountId externalId (isoInstant (b * msPerDay))))
       = true
    /\ matchesQuery tenantId accountId lower upper
         (rawInvitationDoc
            (RawInvitation.mk tenantId accountId externalId
                              (isoInstant ((b + 1) * msPerDay))))
       = false.
Proof.
  intros Ha Hab Hb.
  rewrite lowerBound_isoDay, upperBound_isoDay by lia. eexists _, _.
  split; [done|]. split; [done|]. rewrite !isoInstant_midnight.
  split; [done|]. split; [done|].
  rewrite !midnight_matched by lia.
  repeat split;
    repeat match goal with |- context [?x <=? ?y] => destruct (Z.leb_spec x y) end;
    cbn [andb]; try done; lia.
Qed.

(** For the range that ends on 9999-12-31 the query matches no
    four-digit-year timestamp at all. *)
Lemma range_query_year9999 tenantId accountId externalId a k rest :
  firstDay <= a <= lastDay -> firstDay <= k <= lastDay ->
  exists lower upper,
    toISOString (startOfDayUTC (fromISODateUTC hostDateParse (isoDay a))) = Ok lower
    /\ toISOString (startOfDayUTC
                      (addDaysUTC (fromISODateUTC hostDateParse (isoDay lastDay)) 1))
       = Ok upper
    /\ matchesQuery tenantId accountId lower upper
         (rawInvitationDoc
            (RawInvitation.mk tenantId accountId externalId (isoDay k +:+ rest)))
       = false.
Proof.
  intros Ha Hk.
  rewrite lowerBound_isoDay, upperBound_isoDay by (unfold firstDay, lastDay in *; lia).
  eexists _, _. split; [done|]. split; [done|].
  by rewrite matchesQuery_raw, strLt_stamp_year10000, andb_false_r.
Qed.

(** Below the last day of the year 9999, the query of a valid range matches
    every invitation generated for that range. *)
Lemma generated_matched tenantId accountId a b invitations invitation :
  firstDay <= a -> a <= b -> b < lastDay ->
  generated hostDateParse localeCompare tenantId accountId (isoDay a) (isoDay b)
    = Ok invitations ->
  invitation ∈ invitations ->
  exists lower upper,
    toISOString (startOfDayUTC (fromISODateUTC hostDateParse (isoDay a))) = Ok lower
    /\ toISOString (startOfDayUTC (addDaysUTC (fromISODateUTC hostDateParse (isoDay b)) 1))
       = Ok upper
    /\ matchesQuery tenantId accountId lower upper
         (rawInvitationDoc
            (RawInvitation.mk tenantId accountId (MockInvitation.externalId invitation)
                              (MockInvitation.receivedAt invitation)))
       = true.
Proof.
  intros Ha Hab Hb Hgen Hin.
  destruct (generated_within_day hostDateParse localeCompare _ _ a b _ _
              Ha Hab ltac:(lia) Hgen Hin) as (k & h & mi & Hk & Hh & Hmi & -> & _).
  destruct (range_query_exact tenantId accountId (MockInvitation.externalId invitation)
              a b k h mi 0 0) as (lower & upper & Hl & Hu & Hm); try lia.
  exists lower, upper. split; [done|]. split; [done|]. rewrite Hm.
  destruct (Z.leb_spec a k), (Z.leb_spec k b); cbn [andb]; try done; lia.
Qed.

(** C5. On the range that ends on 9999-12-31 the upper bound of the query
    is the string of the year 10000, and the event at the midnight of the
    end day is not in the result. *)
Theorem end_day_9999_excluded :
  let doc := rawInvitationDoc
               (RawInvitation.mk "t1" "a1" "e1" "9999-12-31T00:00:00.000Z") in
  isValidISODate hostDateParse "9999-12-31" = Ok true
  /\ toISOString (startOfDayUTC (fromISODateUTC hostDateParse "9999-12-31"))
     = Ok "9999-12-31T00:00:00.000Z"
  /\ toISOString (startOfDayUTC (addDaysUTC (fromISODateUTC hostDateParse "9999-12-31") 1))
     = Ok "+010000-01-01T00:00:00.000Z"
  /\ matchesQuery "t1" "a1" "9999-12-31T00:00:00.000Z" "+010000-01-01T00:00:00.000Z" doc
     = false
  /\ queryResult hostDateParse "t1" "a1" "9999-12-31" "9999-12-31" {["e1" := doc]} = Ok [].
Proof. by vm_compute. Qed.

(** C10. The invitation generated for tenant [b], account [a1] on
    9999-12-31 is stored by the handler, but the range query of that day
    does not match it: the response counts 0 for the day. *)
Theorem generated_9999_not_matched :
  let query := Query.mk (QString "b") (QString "a1")
                        (QString "9999-12-31") (QString "9999-12-31") in
  let invitation := MockInvitation.mk "inv_iwa6by_99991231_0" "sender_wo2xui"
                                       "9999-12-31T23:19:00.000Z" in
  let run := getDailyInvitationMetrics hostDateParse localeCompare query
               (mkWorld ∅ ∅ 0) in
  generated hostDateParse localeCompare "b" "a1" "9999-12-31" "9999-12-31"
    = Ok [invitation]
  /\ (invitations run.2 !! "inv_iwa6by_99991231_0") ≫= (.!! "receivedAt")
     = Some (FString "9999-12-31T23:19:00.000Z")
  /\ (matchesQuery "b" "a1" "9999-12-31T00:00:00.000Z" "+010000-01-01T00:00:00.000Z"
         <$> invitations run.2 !! "inv_iwa6by_99991231_0") = Some false
  /\ matchesQuery "b" "a1" "9999-12-31T00:00:00.000Z" "+010000-01-01T00:00:00.000Z"
       (rawInvitationDoc
          (RawInvitation.mk "b" "a1" "inv_iwa6by_99991231_0" "9999-12-31T23:19:00.000Z"))
     = false
  /\ run.1 = Response.mk 200
               (MetricData [MetricDataPoint.mk "9999-12-31" 0 "ok" (Some 0)]).
Proof. by vm_compute. Qed.
End RangeQuery.

(** ** The previous period *)




Section Comparison.
Variable hostDateParse : string -> date.
Variable localeCompare : string -> string -> Z.


End Comparison.

(** * Further properties of the sources *)

(** ** Dates *)

Lemma isoInstant_clock k h mi s ms :
  0 <= h < 24 -> 0 <= mi < 60 -> 0 <= s < 60 -> 0 <= ms < 1000 ->
  isoInstant (k * msPerDay + MakeTime h mi s ms)
  = isoDay k +:+ "T" +:+ clockString h mi s ms.
Proof.
  intros Hh Hmi Hs Hms. unfold isoInstant, isoDay. f_equal.
  - apply isoDateOfTime_Day. rewrite Day_midnight.
    unfold Day, MakeTime, msPerDay, msPerHour, msPerMinute, msPerSecond. dlia.
  - f_equal. unfold isoClockOfTime, clockString.
    replace (HourFromTime _) with h; [replace (MinFromTime _) with mi;
      [replace (SecFromTime _) with s; [replace (msFromTime _) with ms; [done|]|]|]|];
      unfold HourFromTime, MinFromTime, SecFromTime, msFromTime, MakeTime,
        msPerDay, msPerHour, msPerMinute, msPerSecond; dlia.
Qed.

(** X1. [addDaysUTC] moves a date by exactly [days] days of 86,400,000 ms:
    the day number changes by [days] and the time of day stays; the result
    is an invalid date when it leaves the range of time values, and an
    invalid date stays invalid. *)
Theorem addDaysUTC_shifts_days t n :
  addDaysUTC (Some t) n
  = (if Z.abs (t + n * msPerDay) <=? 8640000000000000
     then Some (t + n * msPerDay) else None)
  /\ Day (t + n * msPerDay) = Day t + n
  /\ TimeWithinDay (t + n * msPerDay) = TimeWithinDay t
  /\ addDaysUTC None n = None.
Proof.
  split; [|split; [|split]].
  - rewrite addDaysUTC_time. unfold TimeClip.
    destruct (Z.gtb_spec (Z.abs (t + n * msPerDay)) 8640000000000000);
      destruct (Z.leb_spec (Z.abs (t + n * msPerDay)) 8640000000000000); done || lia.
  - unfold Day, msPerDay. dlia.
  - unfold TimeWithinDay, msPerDay. dlia.
  - reflexivity.
Qed.

(** X2. Adding [m] days and then [n] days is adding [m + n] days, and adding
    [m] days and then [- m] days gives the date back, as long as the date
    in between is a valid one. *)
Theorem addDaysUTC_compose t m n :
  Z.abs t <= 8640000000000000 ->
  Z.abs (t + m * msPerDay) <= 8640000000000000 ->
  addDaysUTC (addDaysUTC (Some t) m) n = addDaysUTC (Some t) (m + n)
  /\ addDaysUTC (addDaysUTC (Some t) m) (- m) = Some t.
Proof.
  intros Ht Hm. rewrite (addDaysUTC_time t m), (TimeClip_small _ Hm), !addDaysUTC_time.
  split.
  - f_equal. lia.
  - replace (t + m * msPerDay + - m * msPerDay) with t by lia. by apply TimeClip_small.
Qed.

(** X3. [startOfDayUTC] of a valid date is the midnight that starts its UTC
    day: at most one day before the date, on the same calendar day, printed
    with the clock 00:00:00.000, and a fixed point of [startOfDayUTC]. *)
Theorem startOfDayUTC_floor t :
  Z.abs t <= 8640000000000000 ->
  exists s,
    startOfDayUTC (Some t) = Some s
    /\ s = Day t * msPerDay
    /\ s <= t < s + msPerDay
    /\ toISODateUTC (Some s) = toISODateUTC (Some t)
    /\ toISOString (Some s) = Ok (isoDateOfTime t +:+ "T00:00:00.000Z")
    /\ startOfDayUTC (Some s) = Some s.
Proof.
  intros Ht. exists (Day t * msPerDay).
  assert (Z.abs (Day t * msPerDay) <= 8640000000000000) as Hs
    by (unfold Day, msPerDay; dlia).
  split; [by rewrite startOfDayUTC_time, TimeClip_small|].
  split; [done|]. split; [unfold Day, msPerDay; dlia|].
  split; [|split].
  - rewrite !toISODateUTC_time. f_equal. apply isoDateOfTime_Day. by rewrite Day_midnight.
  - rewrite toISOString_time, isoInstant_midnight. unfold isoDay. f_equal. f_equal.
    apply isoDateOfTime_Day. by rewrite Day_midnight.
  - by rewrite startOfDayUTC_time, Day_midnight, TimeClip_small.
Qed.

(** X4. [endOfDayUTC] of a valid date below the last time value is the last
    millisecond of its UTC day, 23:59:59.999: not before the date, on the
    same day, one millisecond before the next day's start. The last time
    value itself starts a day whose end is out of range: its end of day is
    an invalid date. *)
Theorem endOfDayUTC_last_millisecond t :
  - 8640000000000000 <= t < 8640000000000000 ->
  (exists e,
    endOfDayUTC (Some t) = Some e
    /\ e = Day t * msPerDay + (msPerDay - 1)
    /\ t <= e
    /\ Day e = Day t
    /\ startOfDayUTC (Some e) = startOfDayUTC (Some t)
    /\ addDaysUTC (startOfDayUTC (Some t)) 1 = Some (e + 1)
    /\ toISOString (Some e) = Ok (isoDateOfTime t +:+ "T23:59:59.999Z"))
  /\ endOfDayUTC (Some 8640000000000000) = None.
Proof.
  intros Ht. split; [|reflexivity].
  exists (Day t * msPerDay + (msPerDay - 1)).
  assert (Day (Day t * msPerDay + (msPerDay - 1)) = Day t) as HD
    by (apply Day_within; unfold msPerDay; lia).
  assert (Z.abs (Day t * msPerDay) <= 8640000000000000) as Hs
    by (unfold Day, msPerDay; dlia).
  split.
  { unfold endOfDayUTC, setUTCHours, MakeDate.
    replace (MakeTime 23 59 59 999) with (msPerDay - 1) by reflexivity.
    apply TimeClip_small. unfold Day, msPerDay. dlia. }
  split; [done|]. split; [unfold Day, msPerDay; dlia|]. split; [done|].
  split; [by rewrite !startOfDayUTC_time, HD|]. split.
  - rewrite startOfDayUTC_time, TimeClip_small, addDaysUTC_time by done.
    replace (Day t * msPerDay + 1 * msPerDay) with (Day t * msPerDay + (msPerDay - 1) + 1) by lia.
    apply TimeClip_small. unfold Day, msPerDay. dlia.
  - rewrite toISOString_time.
    replace (msPerDay - 1) with (MakeTime 23 59 59 999) by reflexivity.
    rewrite isoInstant_clock by lia.
    change ("T" +:+ clockString 23 59 59 999) with "T23:59:59.999Z".
    unfold isoDay. f_equal. f_equal. apply isoDateOfTime_Day. by rewrite Day_midnight.
Qed.


Lemma ymdString_inj y m d y' m' d' :
  0 <= y <= 9999 -> 0 <= m <= 99 -> 0 <= d <= 99 ->
  0 <= y' <= 9999 -> 0 <= m' <= 99 -> 0 <= d' <= 99 ->
  ymdString y m d = ymdString y' m' d' -> y = y' /\ m = m' /\ d = d'.
Proof.
  intros Hy Hm Hd Hy' Hm' Hd' E.
  destruct (fields_dateTime y m d 0 0 0 0) as (E1 & E2 & E3 & _); [lia..|].
  destruct (fields_dateTime y' m' d' 0 0 0 0) as (E1' & E2' & E3' & _); [lia..|].
  rewrite E in E1, E2, E3. lia.
Qed.

Lemma eachDay_loop_extends fuel current end_ days result :
  eachDay_loop fuel current end_ days = Some (Ok result) ->
  exists more, result = days ++ more
    /\ (length more <= fuel)%nat
    /\ (more = [] <-> dateLe current end_ = false).
Proof.
  revert current days. induction fuel as [|fuel IH]; intros current days; cbn [eachDay_loop].
  - destruct (dateLe current end_); [discriminate|]. intros [= <-].
    exists []. by rewrite app_nil_r.
  - destruct (dateLe current end_) eqn:Hle.
    + destruct current as [c|]; [|discriminate]. rewrite toISODateUTC_time.
      intros (more & -> & Hlen & _)%IH. exists (isoDateOfTime c :: more).
      rewrite <- app_assoc. cbn [app length]. split; [done|]. split; [lia|]. by split.
    + intros [= <-]. exists []. rewrite app_nil_r. split; [done|]. split; [cbn; lia|done].
Qed.

Section DayTexts.
Variable hostDateParse : string -> date.

(** X5. For a date of the years 0000 to 9999, [toISODateUTC] gives a text of
    ten characters that [isValidISODate] accepts, [fromISODateUTC] reads it
    back as the start of the date's day, and printing that gives the same
    text. *)
Theorem iso_day_round_trip t :
  firstDay <= Day t <= lastDay ->
  exists day,
    toISODateUTC (Some t) = Ok day
    /\ String.length day = 10%nat
    /\ isValidISODate hostDateParse day = Ok true
    /\ fromISODateUTC hostDateParse day = startOfDayUTC (Some t)
    /\ toISODateUTC (fromISODateUTC hostDateParse day) = Ok day.
Proof.
  intros Ht. exists (isoDay (Day t)).
  assert (isoDateOfTime t = isoDay (Day t)) as E
    by (apply isoDateOfTime_Day; by rewrite Day_midnight).
  split; [by rewrite toISODateUTC_time, E|].
  split.
  { destruct (isoDay_ymd (Day t) Ht) as [-> _].
    apply (matchShape_length "dddd-dd-dd"), matchShape_ymd. }
  split; [by apply isValidISODate_isoDay|].
  rewrite fromISODateUTC_isoDay by done. split.
  - rewrite startOfDayUTC_time, TimeClip_small; [done|].
    unfold firstDay, lastDay, msPerDay in *. lia.
  - by rewrite toISODateUTC_time.
Qed.

(** X6. The three outcomes of [isValidISODate]: [false] on a text that is not
    of the shape dddd-dd-dd; on such a text, a RangeError when the month is
    outside 01-12 or the day outside 01-31; otherwise whether the day
    exists in that month of that year. *)
Theorem isValidISODate_outcome s :
  isValidISODate hostDateParse s =
  if matchShape "dddd-dd-dd" s then
    let y := field 0 4 s in
    let m := field 5 2 s in
    let d := field 8 2 s in
    if (1 <=? m) && (m <=? 12) && (1 <=? d) && (d <=? 31)
    then Ok (d <=? daysInMonth (m - 1) (leapOf y))
    else Throw "Invalid time value"
  else Ok false.
Proof.
  destruct (matchShape "dddd-dd-dd" s) eqn:Hs.
  2: { unfold isValidISODate. by rewrite Hs. }
  destruct (matchShape_ymd_inv s Hs) as (Hy & Hm & Hd & E). cbv zeta.
  set (y := field 0 4 s) in *. set (m := field 5 2 s) in *. set (d := field 8 2 s) in *.
  clearbody y m d. subst s. rewrite isValidISODate_ymd by done.
  destruct ((1 <=? m) && (m <=? 12) && (1 <=? d) && (d <=? 31)) eqn:Hc; [|done].
  apply andb_prop in Hc as [[[?%Z.leb_le ?%Z.leb_le]%andb_prop ?%Z.leb_le]%andb_prop ?%Z.leb_le].
  f_equal.
  destruct (Z.leb_spec d (daysInMonth (m - 1) (leapOf y))) as [Hle|Hgt].
  - assert (isValidISODate hostDateParse (ymdString y m d) = Ok true) as Hv.
    { apply isValidISODate_calendar. exists y, m, d. repeat split; lia || done. }
    rewrite isValidISODate_ymd in Hv by done.
    destruct ((1 <=? m) && (m <=? 12) && (1 <=? d) && (d <=? 31)); by inversion Hv.
  - destruct (String.eqb _ _) eqn:Heq; [exfalso|done].
    assert (isValidISODate hostDateParse (ymdString y m d) = Ok true) as Hv.
    { rewrite isValidISODate_ymd by done.
      destruct (Z.leb_spec 1 m), (Z.leb_spec m 12), (Z.leb_spec 1 d), (Z.leb_spec d 31);
        try lia. cbn [andb]. by rewrite Heq. }
    apply isValidISODate_calendar in Hv as (y' & m' & d' & Hy' & Hm' & Hd' & E).
    assert (0 <= leapOf y' <= 1) by (unfold leapOf; destruct (_ =? _); lia).
    pose proof (daysInMonth_le (m' - 1) (leapOf y') ltac:(done)).
    apply ymdString_inj in E as (-> & -> & ->); lia.
Qed.

(** X7. On two valid days [eachDayInclusive] returns the consecutive days
    from the first to the second: as many as the day numbers say, starting
    with [from] and ending with [to], each a valid day; none when [to] is
    before [from]. *)
Theorem eachDayInclusive_enumerates from to :
  isValidISODate hostDateParse from = Ok true ->
  isValidISODate hostDateParse to = Ok true ->
  let a := dayNumber hostDateParse from in
  let b := dayNumber hostDateParse to in
  exists days,
    eachDayInclusive hostDateParse from to = Ok days
    /\ days = isoDay <$> seqZ a (b - a + 1)
    /\ length days = Z.to_nat (b - a + 1)
    /\ (b < a <-> days = [])
    /\ (a <= b -> head days = Some from /\ last days = Some to)
    /\ Forall (fun day => isValidISODate hostDateParse day = Ok true) days.
Proof.
  intros (a & Ha & ->)%isValidISODate_inv (b & Hb & ->)%isValidISODate_inv.
  rewrite !dayNumber_isoDay by done. cbv zeta.
  eexists. split; [by apply eachDayInclusive_days|]. split; [done|].
  split; [by rewrite length_fmap, length_seqZ|]. split; [|split].
  - split.
    + intros Hlt. by rewrite seqZ_nil by lia.
    + intros Hnil. apply (f_equal length) in Hnil.
      rewrite length_fmap, length_seqZ in Hnil. cbn in Hnil. lia.
  - intros Hab. split.
    + rewrite (seqZ_cons a) by lia. done.
    + rewrite (seqZ_app a (b - a) 1) by lia.
      change (seqZ (a + (b - a)) 1) with [a + (b - a)].
      rewrite fmap_app. cbn [fmap list_fmap]. rewrite last_snoc. do 2 f_equal. lia.
  - apply Forall_fmap, Forall_forall. intros k Hk%elem_of_seqZ. cbn.
    apply isValidISODate_isoDay. lia.
Qed.

(** X8. On any two strings the loop of [eachDayInclusive] ends within one
    iteration per day between the two dates and does not throw; the result
    is empty exactly when the start is not at or before the end, which
    includes a start or an end that does not parse. *)
Theorem eachDayInclusive_never_throws fromDate toDate :
  let start := fromISODateUTC hostDateParse fromDate in
  let end_ := fromISODateUTC hostDateParse toDate in
  exists days,
    eachDay_loop (eachDay_fuel start end_) start end_ [] = Some (Ok days)
    /\ eachDayInclusive hostDateParse fromDate toDate = Ok days
    /\ (days = [] <-> dateLe start end_ = false)
    /\ (start = None \/ end_ = None -> days = []).
Proof.
  intros start end_.
  destruct (eachDayInclusive_returns hostDateParse fromDate toDate) as [days Hdays].
  destruct (eachDay_loop_total start end_) as [r Hr].
  assert (r = Ok days) as ->.
  { unfold eachDayInclusive in Hdays. fold start end_ in Hdays. by rewrite Hr in Hdays. }
  exists days. split; [done|]. split; [done|].
  apply eachDay_loop_extends in Hr as (more & -> & _ & Hnil). cbn [app].
  split; [done|]. intros [E|E]; apply Hnil; rewrite E; [done|]. by destruct start.
Qed.

(** X9. For dates of the years 0000 to 9999, the texts [toISODateUTC]
    gives compare by code units as their days do in time. *)
Theorem iso_day_order_chronological t1 t2 day1 day2 :
  firstDay <= Day t1 <= lastDay -> firstDay <= Day t2 <= lastDay ->
  toISODateUTC (Some t1) = Ok day1 -> toISODateUTC (Some t2) = Ok day2 ->
  strCompare day1 day2 = (Day t1 ?= Day t2)
  /\ strLt day1 day2 = (Day t1 <? Day t2)
  /\ strLe day1 day2 = (Day t1 <=? Day t2).
Proof.
  intros H1 H2. rewrite !toISODateUTC_time. intros [= <-] [= <-].
  assert (forall t, isoDateOfTime t = isoDay (Day t)) as E
    by (intros t; apply isoDateOfTime_Day; by rewrite Day_midnight).
  rewrite (E t1), (E t2).
  assert (strCompare (isoDay (Day t1)) (isoDay (Day t2)) = (Day t1 ?= Day t2)) as Hc.
  { destruct (Z.compare_spec (Day t1) (Day t2)) as [Heq|Hlt|Hgt].
    - rewrite Heq. apply strCompare_refl.
    - rewrite <- (append_nil_r (isoDay (Day t1))), <- (append_nil_r (isoDay (Day t2))).
      apply isoDay_lt; lia.
    - rewrite strCompare_antisym.
      rewrite <- (append_nil_r (isoDay (Day t1))), <- (append_nil_r (isoDay (Day t2))).
      rewrite isoDay_lt by lia. done. }
  unfold strLt, strLe, Z.ltb, Z.leb. rewrite Hc. by destruct (Day t1 ?= Day t2).
Qed.

End DayTexts.

(** ** The hash of the generator *)

Lemma toInt32_idem x : toInt32 (toInt32 x) = toInt32 x.
Proof. unfold toInt32. dlia. Qed.

Lemma band_diag x : band x x = toInt32 x.
Proof. unfold band. by rewrite Z.land_diag, toInt32_idem. Qed.

Lemma hash_step h c :
  band (shl (toInt32 h) 5 - toInt32 h + c) (shl (toInt32 h) 5 - toInt32 h + c)
  = toInt32 (31 * h + c).
Proof.
  rewrite band_diag. unfold shl. change (5 mod 32) with 5.
  rewrite Z.shiftl_mul_pow2 by lia. change (2 ^ 5) with 32.
  rewrite toInt32_idem. unfold toInt32. dlia.
Qed.

Lemma simpleHash_loop_poly str h :
  simpleHash_loop str (toInt32 h) = toInt32 (polyHash str h).
Proof.
  revert h. induction str as [|c str IH]; intros h; cbn [simpleHash_loop polyHash]; [done|].
  by rewrite hash_step, IH.
Qed.

(** X10. [simpleHash] is the absolute value of the 31-multiplier polynomial
    of the code units wrapped once to 32 signed bits: wrapping after every
    character loses nothing. It lies between 0 and 2^31, and is congruent
    to the polynomial or to its opposite modulo 2^32. *)
Theorem simpleHash_polynomial str :
  simpleHash str = Z.abs (toInt32 (polyHash str 0))
  /\ 0 <= simpleHash str <= 2147483648
  /\ ((simpleHash str - polyHash str 0) mod 4294967296 = 0
      \/ (simpleHash str + polyHash str 0) mod 4294967296 = 0).
Proof.
  assert (simpleHash str = Z.abs (toInt32 (polyHash str 0))) as E.
  { unfold simpleHash. change 0 with (toInt32 0) at 1. by rewrite simpleHash_loop_poly. }
  split; [done|]. split; [apply simpleHash_range|].
  rewrite E. unfold toInt32. dlia.
Qed.

(** ** The text of generated identifiers *)

Lemma digitChar_plain d :
  0 <= d < 36 ->
  Ascii.eqb (digitChar d) "_" = false /\ Ascii.eqb (digitChar d) "-" = false.
Proof.
  intros Hd.
  assert (Forall (fun d => Ascii.eqb (digitChar d) "_" = false
                           /\ Ascii.eqb (digitChar d) "-" = false) (seqZ 0 36)) as H.
  { apply (Forall_impl (fun d => negb (Ascii.eqb (digitChar d) "_")
                                 && negb (Ascii.eqb (digitChar d) "-") = true)).
    - apply Forall_forall. intros x Hx. apply Is_true_true.
      revert x Hx. apply Forall_forall, forallb_True. by vm_compute.
    - intros x [H1%negb_true_iff H2%negb_true_iff]%andb_prop. done. }
  rewrite Forall_forall in H. apply H, elem_of_seqZ. lia.
Qed.

Lemma lacksChar_toDigits c fuel radix n acc :
  (forall d, 0 <= d < 36 -> Ascii.eqb (digitChar d) c = false) ->
  2 <= radix <= 36 -> lacksChar c acc = true ->
  lacksChar c (toDigits fuel radix n acc) = true.
Proof.
  intros Hc Hr. revert n acc. induction fuel as [|fuel IH]; intros n acc Hacc.
  - cbn. rewrite Hc by (pose proof (Z.mod_pos_bound n radix); lia). by rewrite Hacc.
  - cbn [toDigits].
    assert (lacksChar c (String (digitChar (n mod radix)) acc) = true) as H.
    { cbn. rewrite Hc by (pose proof (Z.mod_pos_bound n radix); lia). by rewrite Hacc. }
    destruct (n / radix =? 0); [done|]. by apply IH.
Qed.

Lemma lacksChar_numberToString c radix n :
  (forall d, 0 <= d < 36 -> Ascii.eqb (digitChar d) c = false) ->
  2 <= radix <= 36 -> 0 <= n -> lacksChar c (numberToString radix n) = true.
Proof.
  intros Hc Hr Hn. unfold numberToString. destruct (Z.ltb_spec n 0); [lia|].
  by apply lacksChar_toDigits.
Qed.

Lemma lacksChar_underscore_fixedDigits w n : lacksChar "_" (fixedDigits w n) = true.
Proof.
  induction w as [|w IH]; cbn; [done|].
  destruct (digitChar_plain ((n / 10 ^ Z.of_nat w) mod 10)) as [-> _];
    [pose proof (digit_mod (n / 10 ^ Z.of_nat w)); lia|]. by rewrite IH.
Qed.

Lemma splitOn_lacks c p : lacksChar c p = true -> splitOn c p = [p].
Proof.
  induction p as [|a p IH]; cbn; [done|].
  destruct (Ascii.eqb a c); [done|]. cbn. intros H. by rewrite IH.
Qed.

Lemma splitOn_app c p r :
  lacksChar c p = true -> splitOn c (p +:+ String c r) = p :: splitOn c r.
Proof.
  induction p as [|a p IH]; rewrite ?append_nil_l, ?append_cons; cbn [lacksChar splitOn].
  - by rewrite Ascii.eqb_refl.
  - destruct (Ascii.eqb a c); [done|]. cbn [negb andb]. intros H. by rewrite IH.
Qed.

Lemma removeChar_lacks c s : lacksChar c s = true -> removeChar c s = s.
Proof.
  induction s as [|a s IH]; cbn; [done|].
  destruct (Ascii.eqb a c); [done|]. cbn. intros H. by rewrite IH.
Qed.

Lemma removeChar_app c p q : removeChar c (p +:+ q) = removeChar c p +:+ removeChar c q.
Proof.
  induction p as [|a p IH]; rewrite ?append_nil_l, ?append_cons; cbn [removeChar]; [done|].
  destruct (Ascii.eqb a c); [done|]. by rewrite append_cons, IH.
Qed.

Lemma lacksChar_dash_fixedDigits w n : lacksChar "-" (fixedDigits w n) = true.
Proof.
  induction w as [|w IH]; cbn; [done|].
  destruct (digitChar_plain ((n / 10 ^ Z.of_nat w) mod 10)) as [_ ->];
    [pose proof (digit_mod (n / 10 ^ Z.of_nat w)); lia|]. by rewrite IH.
Qed.

Lemma removeChar_ymd y m d :
  removeChar "-" (ymdString y m d) = fixedDigits 4 y +:+ fixedDigits 2 m +:+ fixedDigits 2 d.
Proof.
  unfold ymdString. rewrite !removeChar_app.
  rewrite !(removeChar_lacks "-" (fixedDigits _ _)) by apply lacksChar_dash_fixedDigits.
  reflexivity.
Qed.

Lemma digitsValue_app p q acc : digitsValue (p +:+ q) acc = digitsValue q (digitsValue p acc).
Proof.
  revert acc. induction p as [|a p IH]; intros acc;
    rewrite ?append_nil_l, ?append_cons; cbn [digitsValue]; [done|]. by rewrite IH.
Qed.

Lemma compactDay_inj a b :
  firstDay <= a <= lastDay -> firstDay <= b <= lastDay ->
  removeChar "-" (isoDay a) = removeChar "-" (isoDay b) -> a = b.
Proof.
  intros Ha Hb E.
  destruct (isoDay_ymd a Ha) as [Ea Hya]. destruct (isoDay_ymd b Hb) as [Eb Hyb].
  cbv zeta in *.
  set (ta := a * msPerDay) in *. set (tb := b * msPerDay) in *.
  pose proof (MonthFromTime_range ta). pose proof (MonthFromTime_range tb).
  pose proof (DateFromTime_range ta) as Hda. pose proof (DateFromTime_range tb) as Hdb.
  pose proof (daysInMonth_le (MonthFromTime ta) _ (InLeapYear_range ta)).
  pose proof (daysInMonth_le (MonthFromTime tb) _ (InLeapYear_range tb)).
  rewrite Ea, Eb, !removeChar_ymd in E.
  apply (f_equal (fun s => digitsValue s 0)) in E.
  rewrite !digitsValue_app, !digitsValue_fixedDigits in E by lia.
  change (10 ^ Z.of_nat 4) with 10000 in E. change (10 ^ Z.of_nat 2) with 100 in E.
  rewrite !Z.mod_small in E by lia.
  apply (isoDay_inj hostNone a b Ha Hb). rewrite Ea, Eb.
  f_equal; lia.
Qed.

Lemma externalId_pieces tenantId accountId date i :
  0 <= i ->
  lacksChar "_" (removeChar "-" date) = true ->
  exists hash,
    0 <= hash <= 2147483648
    /\ MockInvitation.externalId (generateInvitation tenantId accountId date i)
       = "inv_" +:+ numberToString 36 hash +:+ "_" +:+ removeChar "-" date +:+ "_"
           +:+ numberToString 10 i
    /\ splitOn "_" (MockInvitation.externalId (generateInvitation tenantId accountId date i))
       = ["inv"; numberToString 36 hash; removeChar "-" date; numberToString 10 i].
Proof.
  intros Hi Hdate. unfold generateInvitation. cbn [MockInvitation.externalId].
  set (seed := tenantId +:+ "-" +:+ accountId +:+ "-" +:+ date +:+ "-" +:+ numberToString 10 i).
  exists (simpleHash seed). split; [apply simpleHash_range|]. split; [done|].
  set (H := numberToString 36 (simpleHash seed)). set (D := removeChar "-" date).
  set (I := numberToString 10 i).
  change (splitOn "_" ("inv" +:+ String "_" (H +:+ String "_" (D +:+ String "_" I)))
          = ["inv"; H; D; I]).
  rewrite splitOn_app by done.
  rewrite splitOn_app
    by (apply lacksChar_numberToString; [apply digitChar_plain|lia|apply simpleHash_range]).
  rewrite splitOn_app by done.
  rewrite splitOn_lacks by (apply lacksChar_numberToString; [apply digitChar_plain|lia..]).
  done.
Qed.

Lemma lacksChar_underscore_compactDay k :
  firstDay <= k <= lastDay -> lacksChar "_" (removeChar "-" (isoDay k)) = true.
Proof.
  intros Hk. destruct (isoDay_ymd k Hk) as [-> _]. rewrite removeChar_ymd.
  by rewrite !lacksChar_app, !lacksChar_underscore_fixedDigits.
Qed.

Lemma externalIdKey_generated tenantId accountId k i :
  firstDay <= k <= lastDay -> 0 <= i ->
  externalIdKey (MockInvitation.externalId (generateInvitation tenantId accountId (isoDay k) i))
  = Some (removeChar "-" (isoDay k), i).
Proof.
  intros Hk Hi.
  destruct (externalId_pieces tenantId accountId (isoDay k) i Hi) as (hash & _ & _ & E);
    [by apply lacksChar_underscore_compactDay|].
  unfold externalIdKey. rewrite E. by rewrite numberToString_value by lia.
Qed.

Lemma externalId_inj tenantId accountId k i tenantId' accountId' k' i' :
  firstDay <= k <= lastDay -> 0 <= i -> firstDay <= k' <= lastDay -> 0 <= i' ->
  MockInvitation.externalId (generateInvitation tenantId' accountId' (isoDay k') i')
  = MockInvitation.externalId (generateInvitation tenantId accountId (isoDay k) i) ->
  k' = k /\ i' = i.
Proof.
  intros Hk Hi Hk' Hi' E. apply (f_equal externalIdKey) in E.
  rewrite !externalIdKey_generated in E by done.
  injection E as E1 E2. split; [|done]. by apply compactDay_inj.
Qed.

(** X11. The [externalId] generated for a valid day and an index splits
    at its underscores into the day without dashes and the index, so that
    two generated ids are equal only for the same day and the same index,
    whatever the tenants and accounts. *)
Theorem externalId_identifies_invitation tenantId accountId k i :
  firstDay <= k <= lastDay -> 0 <= i ->
  let externalId :=
    MockInvitation.externalId (generateInvitation tenantId accountId (isoDay k) i) in
  externalIdKey externalId = Some (removeChar "-" (isoDay k), i)
  /\ forall tenantId' accountId' k' i',
       firstDay <= k' <= lastDay -> 0 <= i' ->
       MockInvitation.externalId (generateInvitation tenantId' accountId' (isoDay k') i')
         = externalId ->
       k' = k /\ i' = i.
Proof.
  intros Hk Hi externalId. split; [by apply externalIdKey_generated|].
  intros t' a' k' i' Hk' Hi' E. by apply (externalId_inj tenantId accountId k i t' a').
Qed.

(** ** What a fetch generates *)

Lemma generatedFor_cons tenantId accountId date days :
  generatedFor tenantId accountId (date :: days)
  = generateInvitationsForDay tenantId accountId date
      (getDailyInvitationCount tenantId accountId date)
    ++ generatedFor tenantId accountId days.
Proof. reflexivity. Qed.

Lemma elem_of_generateInvitationsForDay tenantId accountId date count invitation :
  invitation ∈ generateInvitationsForDay tenantId accountId date count
  <-> exists i, 0 <= i < count /\ invitation = generateInvitation tenantId accountId date i.
Proof.
  unfold generateInvitationsForDay. rewrite list_elem_of_fmap.
  split; intros (i & H1 & H2); exists i.
  - apply elem_of_seqZ in H2. split; [lia|done].
  - split; [done|]. apply elem_of_seqZ. lia.
Qed.

Lemma elem_of_generatedFor tenantId accountId days invitation :
  invitation ∈ generatedFor tenantId accountId days
  <-> exists date i, date ∈ days
        /\ 0 <= i < getDailyInvitationCount tenantId accountId date
        /\ invitation = generateInvitation tenantId accountId date i.
Proof.
  induction days as [|date days IH].
  - split; [by intros ?%elem_of_nil|]. by intros (? & ? & ?%elem_of_nil & _).
  - rewrite generatedFor_cons, elem_of_app, IH, elem_of_generateInvitationsForDay. split.
    + intros [(i & Hi & ->)|(d & i & Hd & Hi & ->)].
      * exists date, i. split; [left|done].
      * exists d, i. split; [by right|done].
    + intros (d & i & [->|Hd]%elem_of_cons & Hi & ->); [left; eauto|right; eauto].
Qed.

Lemma generated_valid_range hostDateParse localeCompare tenantId accountId a b :
  firstDay <= a <= lastDay -> firstDay <= b <= lastDay ->
  generated hostDateParse localeCompare tenantId accountId (isoDay a) (isoDay b)
  = Ok (sortBy (fun x y => localeCompare (MockInvitation.receivedAt x)
                                         (MockInvitation.receivedAt y))
               (generatedFor tenantId accountId (isoDay <$> seqZ a (b - a + 1)))).
Proof. intros Ha Hb. unfold generated. by rewrite eachDayInclusive_days. Qed.

Lemma generatedFor_NoDup tenantId accountId ks :
  NoDup ks -> Forall (fun k => firstDay <= k <= lastDay) ks ->
  NoDup (MockInvitation.externalId <$> generatedFor tenantId accountId (isoDay <$> ks)).
Proof.
  induction 1 as [|k ks Hk Hnd IH]; intros Hall; [constructor|].
  apply Forall_cons in Hall as [Hrange Hall].
  rewrite fmap_cons, generatedFor_cons, fmap_app. apply NoDup_app. split; [|split].
  - unfold generateInvitationsForDay. rewrite <- list_fmap_compose.
    apply NoDup_fmap_2_strong; [|apply NoDup_seqZ].
    intros i j Hi%elem_of_seqZ Hj%elem_of_seqZ E. cbn in E.
    apply (externalId_inj tenantId accountId k j tenantId accountId k i) in E; lia.
  - intros x (inv & -> & (i & Hi & ->)%elem_of_generateInvitationsForDay)%list_elem_of_fmap.
    intros (inv' & E & (d & j & Hd & Hj & ->)%elem_of_generatedFor)%list_elem_of_fmap.
    apply list_elem_of_fmap in Hd as (k' & -> & Hk').
    rewrite Forall_forall in Hall.
    apply (externalId_inj tenantId accountId k' j tenantId accountId k i) in E as [-> _];
      [done|by apply Hall|lia|done|lia].
  - by apply IH.
Qed.

Lemma receivedAt_day tenantId accountId k i :
  splitHead "T" (MockInvitation.receivedAt (generateInvitation tenantId accountId (isoDay k) i))
  = isoDay k.
Proof.
  destruct (generateInvitation_receivedAt tenantId accountId (isoDay k) i)
    as (h & mi & _ & _ & ->).
  change ("T" +:+ clockString h mi 0 0) with (String "T" (clockString h mi 0 0)).
  apply splitHead_app, lacksChar_isoDateOfTime.
Qed.

Lemma filter_all {A} (P : A -> Prop) `{!forall x, Decision (P x)} (l : list A) :
  (forall x, x ∈ l -> P x) -> filter P l = l.
Proof.
  induction l as [|x l IH]; intros HP; [done|].
  rewrite filter_cons_True by (apply HP; left). f_equal. apply IH. intros y Hy. apply HP. by right.
Qed.

Lemma filter_none {A} (P : A -> Prop) `{!forall x, Decision (P x)} (l : list A) :
  (forall x, x ∈ l -> ~ P x) -> filter P l = [].
Proof.
  induction l as [|x l IH]; intros HP; [done|].
  rewrite filter_cons_False by (apply HP; left). apply IH. intros y Hy. apply HP. by right.
Qed.

Lemma getDailyInvitationCount_range tenantId accountId date :
  0 <= getDailyInvitationCount tenantId accountId date <= 5.
Proof.
  pose proof (rem_nonneg_range
                (simpleHash (tenantId +:+ "-" +:+ accountId +:+ "-" +:+ date)) 6
                ltac:(apply simpleHash_range) ltac:(lia)) as H.
  unfold getDailyInvitationCount. lia.
Qed.

Lemma generatedFor_day_count tenantId accountId ks k :
  NoDup ks -> Forall (fun k => firstDay <= k <= lastDay) ks -> firstDay <= k <= lastDay ->
  Z.of_nat (length (filter (fun invitation =>
                              splitHead "T" (MockInvitation.receivedAt invitation) = isoDay k)
                           (generatedFor tenantId accountId (isoDay <$> ks))))
  = if decide (k ∈ ks) then getDailyInvitationCount tenantId accountId (isoDay k) else 0.
Proof.
  intros Hnd Hall Hk. induction Hnd as [|j ks Hj Hnd IH].
  { by rewrite decide_False by apply not_elem_of_nil. }
  apply Forall_cons in Hall as [Hrange Hall].
  rewrite fmap_cons, generatedFor_cons, filter_app, length_app, Nat2Z.inj_add, IH by done.
  pose proof (getDailyInvitationCount_range tenantId accountId (isoDay j)) as Hcount.
  destruct (decide (j = k)) as [->|Hne].
  - rewrite (decide_True (P := k ∈ k :: ks)) by left.
    rewrite (decide_False (P := k ∈ ks)) by done.
    rewrite filter_all.
    + unfold generateInvitationsForDay. rewrite length_fmap, length_seqZ. lia.
    + intros x (i & _ & ->)%elem_of_generateInvitationsForDay. apply receivedAt_day.
  - rewrite filter_none.
    + cbn [length]. destruct (decide (k ∈ ks)) as [Hin|Hin].
      * rewrite decide_True by (by right). lia.
      * rewrite decide_False; [lia|]. intros [->|?]%elem_of_cons; done.
    + intros x (i & _ & ->)%elem_of_generateInvitationsForDay. rewrite receivedAt_day.
      intros E. by apply (isoDay_inj hostNone) in E.
Qed.

Lemma generatedFor_length tenantId accountId days :
  Z.of_nat (length (generatedFor tenantId accountId days))
  = foldr Z.add 0 (getDailyInvitationCount tenantId accountId <$> days).
Proof.
  induction days as [|date days IH]; [done|].
  rewrite generatedFor_cons, length_app, Nat2Z.inj_add, IH. cbn [fmap list_fmap foldr].
  unfold generateInvitationsForDay. rewrite length_fmap, length_seqZ.
  pose proof (getDailyInvitationCount_range tenantId accountId date). lia.
Qed.

(** ** Sorting *)

Section SortProperties.
Context {A : Type} (cmp : A -> A -> Z).
Hypothesis cmp_total : forall x y, cmp x y <= 0 \/ cmp y x <= 0.
Hypothesis cmp_trans : forall x y z, cmp x y <= 0 -> cmp y z <= 0 -> cmp x z <= 0.

Lemma sortInsert_sorted x l :
  StronglySorted (fun a b => cmp a b <= 0) l ->
  StronglySorted (fun a b => cmp a b <= 0) (sortInsert cmp x l).
Proof.
  induction 1 as [|y l Hl IH Hy]; cbn [sortInsert].
  - repeat constructor.
  - destruct (Z.leb_spec (cmp x y) 0) as [Hxy|Hxy].
    + constructor; [by constructor|]. constructor; [done|].
      eapply Forall_impl; [exact Hy|]. intros z Hz. by apply (cmp_trans x y z).
    + constructor; [done|]. rewrite sortInsert_Permutation. constructor; [|done].
      destruct (cmp_total x y); [lia|done].
Qed.

Lemma sortBy_sorted l : StronglySorted (fun a b => cmp a b <= 0) (sortBy cmp l).
Proof.
  induction l as [|x l IH]; cbn; [constructor|]. by apply sortInsert_sorted.
Qed.
End SortProperties.

Lemma strCompare_trans_Lt a b c :
  strCompare a b <> Gt -> strCompare b c <> Gt -> strCompare a c <> Gt.
Proof.
  revert b c. induction a as [|x a IH]; intros [|y b] [|z c]; cbn; try done.
  destruct (Z.compare_spec (charCode x) (charCode y)) as [E1|L1|G1]; [| |done];
    destruct (Z.compare_spec (charCode y) (charCode z)) as [E2|L2|G2]; try done;
    destruct (Z.compare_spec (charCode x) (charCode z)) as [E3|L3|G3]; try done; try lia.
  apply IH.
Qed.

Lemma codeUnitCompare_le a b : codeUnitCompare a b <= 0 <-> strCompare a b <> Gt.
Proof. unfold codeUnitCompare. destruct (strCompare a b); split; (done || lia). Qed.

Lemma codeUnitCompare_total a b : codeUnitCompare a b <= 0 \/ codeUnitCompare b a <= 0.
Proof.
  rewrite !codeUnitCompare_le, (strCompare_antisym b a).
  destruct (strCompare a b); cbn; [left|left|right]; done.
Qed.

Lemma codeUnitCompare_trans a b c :
  codeUnitCompare a b <= 0 -> codeUnitCompare b c <= 0 -> codeUnitCompare a c <= 0.
Proof. rewrite !codeUnitCompare_le. apply strCompare_trans_Lt. Qed.

Section Fetch.
Variable hostDateParse : string -> date.
Variable localeCompare : string -> string -> Z.

Lemma generated_ids_NoDup tenantId accountId a b fetched :
  firstDay <= a <= lastDay -> firstDay <= b <= lastDay ->
  generated hostDateParse localeCompare tenantId accountId (isoDay a) (isoDay b) = Ok fetched ->
  NoDup (MockInvitation.externalId <$> fetched).
Proof.
  intros Ha Hb. rewrite generated_valid_range by done. intros [= <-].
  rewrite sortBy_Permutation. apply generatedFor_NoDup; [apply NoDup_seqZ|].
  apply Forall_forall. intros k Hk%elem_of_seqZ. lia.
Qed.

(** X12. The invitations of one fetch over valid days have pairwise
    different [externalId]s. *)
Theorem generated_externalIds_distinct tenantId accountId from to :
  isValidISODate hostDateParse from = Ok true ->
  isValidISODate hostDateParse to = Ok true ->
  exists fetched,
    generated hostDateParse localeCompare tenantId accountId from to = Ok fetched
    /\ NoDup (MockInvitation.externalId <$> fetched)
    /\ NoDup fetched.
Proof.
  intros (a & Ha & ->)%isValidISODate_inv (b & Hb & ->)%isValidISODate_inv.
  eexists. split; [by apply generated_valid_range|].
  assert (NoDup (MockInvitation.externalId <$>
                   sortBy (fun x y => localeCompare (MockInvitation.receivedAt x)
                                                    (MockInvitation.receivedAt y))
                          (generatedFor tenantId accountId (isoDay <$> seqZ a (b - a + 1)))))
    as Hnd.
  { eapply generated_ids_NoDup; [exact Ha|exact Hb|]. by apply generated_valid_range. }
  split; [done|]. by apply NoDup_fmap_1 in Hnd.
Qed.

(** X13. A fetch over valid days returns, for each day of the range,
    exactly [getExpectedDailyCount] invitations dated that day, and nothing
    dated outside the range. *)
Theorem generated_count_per_day tenantId accountId from to :
  isValidISODate hostDateParse from = Ok true ->
  isValidISODate hostDateParse to = Ok true ->
  let a := dayNumber hostDateParse from in
  let b := dayNumber hostDateParse to in
  exists fetched,
    generated hostDateParse localeCompare tenantId accountId from to = Ok fetched
    /\ (forall k, a <= k <= b ->
          Z.of_nat (length (filter (fun invitation =>
                                      splitHead "T" (MockInvitation.receivedAt invitation)
                                      = isoDay k) fetched))
          = getExpectedDailyCount tenantId accountId (isoDay k))
    /\ (forall invitation, invitation ∈ fetched ->
          exists k, a <= k <= b
            /\ splitHead "T" (MockInvitation.receivedAt invitation) = isoDay k)
    /\ Z.of_nat (length fetched)
       = foldr Z.add 0 ((fun k => getExpectedDailyCount tenantId accountId (isoDay k))
                          <$> seqZ a (b - a + 1)).
Proof.
  intros (a & Ha & ->)%isValidISODate_inv (b & Hb & ->)%isValidISODate_inv.
  rewrite !dayNumber_isoDay by done. cbv zeta.
  eexists. split; [by apply generated_valid_range|].
  assert (Forall (fun k => firstDay <= k <= lastDay) (seqZ a (b - a + 1))) as Hall.
  { apply Forall_forall. intros k Hk%elem_of_seqZ. lia. }
  split; [|split].
  - intros k Hk. rewrite sortBy_Permutation.
    rewrite generatedFor_day_count; [|apply NoDup_seqZ|done|lia].
    rewrite decide_True; [done|]. apply elem_of_seqZ. lia.
  - intros invitation. rewrite sortBy_Permutation.
    intros (d & i & (k & -> & Hk%elem_of_seqZ)%list_elem_of_fmap & _ & ->)%elem_of_generatedFor.
    exists k. split; [lia|]. apply receivedAt_day.
  - rewrite sortBy_Permutation, generatedFor_length. by rewrite <- list_fmap_compose.
Qed.

(** X14. When [localeCompare] is a total and transitive order,
    [mockFetchInvitations] returns the invitations generated day by day,
    none lost and none added, in ascending order of [receivedAt]; its only
    effect is the 100 ms it waits. *)
Theorem mockFetchInvitations_sorted tenantId accountId fromISO toISO w :
  (forall x y, localeCompare x y <= 0 \/ localeCompare y x <= 0) ->
  (forall x y z, localeCompare x y <= 0 -> localeCompare y z <= 0 -> localeCompare x z <= 0) ->
  exists days fetched,
    eachDayInclusive hostDateParse fromISO toISO = Ok days
    /\ mockFetchInvitations hostDateParse localeCompare tenantId accountId fromISO toISO w
       = (Ok fetched, mkWorld (invitations w) (metrics w) (clock w + 100))
    /\ fetched ≡ₚ generatedFor tenantId accountId days
    /\ StronglySorted (fun x y => localeCompare (MockInvitation.receivedAt x)
                                                (MockInvitation.receivedAt y) <= 0)
                      fetched.
Proof.
  intros Htotal Htrans.
  destruct (eachDayInclusive_returns hostDateParse fromISO toISO) as [days Hdays].
  exists days. eexists. split; [done|].
  rewrite mockFetchInvitations_run. unfold generated. rewrite Hdays. cbn [rbind].
  split; [reflexivity|]. split; [apply sortBy_Permutation|].
  apply (sortBy_sorted (fun x y => localeCompare (MockInvitation.receivedAt x)
                                                 (MockInvitation.receivedAt y))).
  - intros x y. apply Htotal.
  - intros x y z. apply Htrans.
Qed.

(** X15. The [receivedAt] of a generated invitation is a canonical ISO
    timestamp: [Date] reads it, [toISOString] prints it back unchanged, and
    the instant lies within the requested days, on a whole minute. *)
Theorem generated_receivedAt_canonical tenantId accountId from to fetched invitation :
  isValidISODate hostDateParse from = Ok true ->
  isValidISODate hostDateParse to = Ok true ->
  generated hostDateParse localeCompare tenantId accountId from to = Ok fetched ->
  invitation ∈ fetched ->
  exists time,
    newDate hostDateParse (MockInvitation.receivedAt invitation) = Some time
    /\ toISOString (Some time) = Ok (MockInvitation.receivedAt invitation)
    /\ dayNumber hostDateParse from * msPerDay <= time
         < (dayNumber hostDateParse to + 1) * msPerDay
    /\ time mod msPerMinute = 0.
Proof.
  intros (a & Ha & ->)%isValidISODate_inv (b & Hb & ->)%isValidISODate_inv Hgen Hin.
  rewrite !dayNumber_isoDay by done.
  assert (a <= b) as Hab.
  { destruct (Z.le_gt_cases a b) as [|Hgt]; [done|exfalso].
    rewrite generated_valid_range, seqZ_nil in Hgen by (done || lia).
    injection Hgen as <-. by apply elem_of_nil in Hin. }
  destruct (generated_within_day hostDateParse localeCompare tenantId accountId a b
              fetched invitation) as (k & h & mi & Hk & Hh & Hmi & E & Hparse & _);
    [lia|done|lia|done|done|].
  exists (k * msPerDay + h * msPerHour + mi * msPerMinute). split; [done|].
  split; [by rewrite toISOString_time, isoInstant_within, E|].
  unfold msPerDay, msPerHour, msPerMinute. split; [lia|dlia].
Qed.

(** X16. [generateSampleSenderIds] returns [count] ids (none for a [count]
    below 1); the id at index [i] is [sender_] followed by a numeral
    without underscore that reads back in base 36 as the hash of the seed
    of [i]; asking for fewer ids gives a prefix of the list. *)
Theorem generateSampleSenderIds_shape tenantId accountId count :
  length (generateSampleSenderIds tenantId accountId count) = Z.to_nat count
  /\ (forall i senderId,
        generateSampleSenderIds tenantId accountId count !! i = Some senderId ->
        exists numeral,
          senderId = "sender_" +:+ numeral
          /\ splitOn "_" senderId = ["sender"; numeral]
          /\ radixValue 36 numeral 0
             = simpleHash ("sender-" +:+ tenantId +:+ "-" +:+ accountId +:+ "-"
                             +:+ numberToString 10 (Z.of_nat i)))
  /\ (forall fewer, fewer <= count ->
        generateSampleSenderIds tenantId accountId fewer
        `prefix_of` generateSampleSenderIds tenantId accountId count).
Proof.
  unfold generateSampleSenderIds. split; [by rewrite length_fmap, length_seqZ|]. split.
  - intros i senderId. rewrite list_lookup_fmap.
    destruct (seqZ 0 count !! i) as [j|] eqn:Hj; [|done]. cbn. intros [= <-].
    apply lookup_seqZ in Hj as [-> _]. rewrite Z.add_0_l.
    unfold generateSampleSenderId.
    set (seed := "sender-" +:+ tenantId +:+ "-" +:+ accountId +:+ "-"
                   +:+ numberToString 10 (Z.of_nat i)).
    pose proof (simpleHash_range seed) as Hh.
    exists (numberToString 36 (simpleHash seed)). split; [done|]. split.
    + change ("sender_" +:+ ?x) with ("sender" +:+ String "_" x).
      change (splitOn "_" ("sender" +:+ String "_" (numberToString 36 (simpleHash seed)))
              = ["sender"; numberToString 36 (simpleHash seed)]).
      rewrite splitOn_app by done.
      by rewrite splitOn_lacks
        by (apply lacksChar_numberToString; [apply digitChar_plain|lia..]).
    + apply numberToString_value; lia.
  - intros fewer Hle. destruct (Z.le_gt_cases fewer 0) as [Hneg|Hpos].
    + rewrite (seqZ_nil 0 fewer) by done. apply prefix_nil.
    + replace count with (fewer + (count - fewer)) at 1 by lia.
      rewrite seqZ_app, fmap_app by lia. by apply prefix_app_r.
Qed.

End Fetch.

(** ** Documents after a batch of merging writes *)

Lemma union_same_fields (a b : Doc) :
  (forall field, is_Some (b !! field) -> is_Some (a !! field)) -> a ∪ b = a.
Proof.
  intros H. apply map_eq. intros field. rewrite lookup_union.
  destruct (a !! field) eqn:Ea; [by destruct (b !! field)|].
  destruct (b !! field) eqn:Eb; [|done].
  destruct (H field) as [? ?]; [by rewrite Eb|congruence].
Qed.

Lemma mergedFor_None {A} (key : A -> string) (doc : A -> Doc) (items : list A) k :
  mergedFor k ((fun x => (key x, doc x)) <$> items) = None <-> k ∉ key <$> items.
Proof.
  induction items as [|x items IH]; rewrite ?fmap_cons; cbn [mergedFor].
  - split; [intros _; apply not_elem_of_nil|done].
  - rewrite not_elem_of_cons. destruct (decide (key x = k)) as [->|Hne].
    + split; [done|]. by intros [? _].
    + rewrite IH. split; [intros; split; [congruence|done]|by intros [_ ?]].
Qed.

(** When every write of a batch sets the same fields, the document a key
    ends with is the one of the last write under that key. *)
Lemma mergedFor_last {A} (key : A -> string) (doc : A -> Doc) (before after : list A) item :
  (forall x y field, is_Some (doc x !! field) -> is_Some (doc y !! field)) ->
  key item ∉ key <$> after ->
  mergedFor (key item) ((fun x => (key x, doc x)) <$> (before ++ item :: after))
  = Some (doc item).
Proof.
  intros Hdom Hlast. induction before as [|x before IH].
  - cbn [app]. rewrite fmap_cons. cbn [mergedFor]. rewrite decide_True by done.
    by rewrite (proj2 (mergedFor_None key doc after (key item)) Hlast).
  - rewrite <- app_comm_cons, fmap_cons. cbn [mergedFor].
    rewrite IH. destruct (decide (key x = key item)); [|done].
    f_equal. apply union_same_fields. intros field. apply Hdom.
Qed.

Lemma mergedFor_fields {A} (key : A -> string) (doc : A -> Doc) (items : list A) k data field :
  (forall x, doc x !! field = None) ->
  mergedFor k ((fun x => (key x, doc x)) <$> items) = Some data ->
  data !! field = None.
Proof.
  intros Hnone. revert data. induction items as [|x items IH]; intros data; [done|].
  rewrite fmap_cons. cbn [mergedFor].
  destruct (decide (key x = k)); [|apply IH].
  destruct (mergedFor k _) as [later|] eqn:E; intros [= <-]; [|apply Hnone].
  rewrite lookup_union, (IH later), Hnone; done.
Qed.

Lemma rawInvitationDoc_fields invitation field :
  is_Some (rawInvitationDoc invitation !! field)
  <-> field ∈ ["tenantId"; "accountId"; "externalId"; "receivedAt"].
Proof.
  unfold rawInvitationDoc. rewrite !lookup_insert_is_Some', lookup_empty.
  rewrite !elem_of_cons, elem_of_nil. pose proof (@is_Some_None FieldValue).
  intuition congruence.
Qed.

Lemma rollupDoc_fields rollup updatedAt field :
  is_Some (rollupDoc rollup updatedAt !! field)
  <-> field ∈ ["date"; "invitationsCount"; "status"; "updatedAt"].
Proof.
  unfold rollupDoc. rewrite !lookup_insert_is_Some', lookup_empty.
  rewrite !elem_of_cons, elem_of_nil. pose proof (@is_Some_None FieldValue).
  intuition congruence.
Qed.

Lemma append_inj_r p a b : p +:+ a = p +:+ b -> a = b.
Proof.
  induction p as [|c p IH]; rewrite ?append_nil_l, ?append_cons; [done|].
  intros [= E]. by apply IH.
Qed.

Lemma rollupPath_inj tenantId accountId r1 r2 :
  rollupPath tenantId accountId r1 = rollupPath tenantId accountId r2 ->
  Rollup.date r1 = Rollup.date r2.
Proof. unfold rollupPath. intros E. by do 5 apply append_inj_r in E. Qed.

Ltac doc_field :=
  unfold rawInvitationDoc, rollupDoc;
  repeat (rewrite lookup_insert_ne by done); apply lookup_insert_eq.

(** X17. [writeRawInvitations] is idempotent on every store: writing the
    same invitations again changes nothing; it touches neither the rollups
    nor the clock. *)
Theorem writeRawInvitations_idempotent invs w :
  Forall (fun invitation => pathSegment (RawInvitation.externalId invitation)) invs ->
  let w1 := (writeRawInvitations invs w).2 in
  writeRawInvitations invs w = (Ok tt, w1)
  /\ writeRawInvitations invs w1 = (Ok tt, w1)
  /\ metrics w1 = metrics w
  /\ clock w1 = clock w.
Proof.
  intros _. cbv zeta. rewrite !writeRawInvitations_run.
  cbn [fst snd invitations metrics clock]. by rewrite applyBatch_idempotent.
Qed.

(** X18. After [writeRawInvitations], the document under an [externalId]
    carries the four fields of the last invitation of the list with that
    id, and keeps every other field the store held under that id. *)
Theorem writeRawInvitations_lookup before invitation after w :
  Forall (fun invitation => pathSegment (RawInvitation.externalId invitation))
         (before ++ invitation :: after) ->
  RawInvitation.externalId invitation ∉ RawInvitation.externalId <$> after ->
  let stored := invitations (writeRawInvitations (before ++ invitation :: after) w).2 in
  exists doc,
    stored !! RawInvitation.externalId invitation = Some doc
    /\ doc !! "tenantId" = Some (FString (RawInvitation.tenantId invitation))
    /\ doc !! "accountId" = Some (FString (RawInvitation.accountId invitation))
    /\ doc !! "externalId" = Some (FString (RawInvitation.externalId invitation))
    /\ doc !! "receivedAt" = Some (FString (RawInvitation.receivedAt invitation))
    /\ (forall field,
          field ∉ ["tenantId"; "accountId"; "externalId"; "receivedAt"] ->
          doc !! field
          = (invitations w !! RawInvitation.externalId invitation) ≫= (.!! field)).
Proof.
  intros _ Hlast. cbv zeta. rewrite writeRawInvitations_run. cbn [snd invitations].
  rewrite applyBatch_lookup. unfold rawBatch.
  rewrite (mergedFor_last RawInvitation.externalId rawInvitationDoc); [|
    intros x y field; rewrite !rawInvitationDoc_fields; done|done].
  eexists. split; [done|].
  do 4 (split; [apply lookup_union_Some_l; doc_field|]).
  intros field Hfield. rewrite lookup_union_r.
  - by destruct (invitations w !! RawInvitation.externalId invitation).
  - apply eq_None_not_Some. by rewrite rawInvitationDoc_fields.
Qed.

Lemma rollupDocs_lookup tenantId accountId updatedAt before rollup after col :
  Rollup.date rollup ∉ Rollup.date <$> after ->
  exists doc,
    applyBatch (rollupDocs tenantId accountId updatedAt (before ++ rollup :: after)) col
      !! rollupPath tenantId accountId rollup = Some doc
    /\ doc !! "date" = Some (FString (Rollup.date rollup))
    /\ doc !! "invitationsCount" = Some (FNumber (Rollup.invitationsCount rollup))
    /\ doc !! "status" = Some (FString (Rollup.status rollup))
    /\ doc !! "updatedAt" = Some (FString updatedAt).
Proof.
  intros Hlast. rewrite applyBatch_lookup. unfold rollupDocs.
  rewrite (mergedFor_last (rollupPath tenantId accountId)
             (fun rollup => rollupDoc rollup updatedAt)).
  - eexists. split; [done|].
    do 3 (split; [apply lookup_union_Some_l; doc_field|]).
    apply lookup_union_Some_l. doc_field.
  - intros x y field. by rewrite !rollupDoc_fields.
  - intros (r & E%rollupPath_inj & Hr)%list_elem_of_fmap. apply Hlast.
    rewrite E. by apply list_elem_of_fmap_2.
Qed.

(** X19. [writeDailyRollups] leaves, at the path
    [metrics/<tenant>/accounts/<account>/daily/<date>], a document with the
    date, count and status of the last rollup of the list for that date,
    stamped with the time of the clock; it touches neither the invitations
    nor the clock. *)
Theorem writeDailyRollups_lookup tenantId accountId before rollup after w :
  pathSegment tenantId -> pathSegment accountId ->
  Forall (fun rollup => pathSegment (Rollup.date rollup)) (before ++ rollup :: after) ->
  Rollup.date rollup ∉ Rollup.date <$> after ->
  let run := writeDailyRollups tenantId accountId (before ++ rollup :: after) w in
  run.1 = Ok tt
  /\ invitations run.2 = invitations w
  /\ clock run.2 = clock w
  /\ exists doc updatedAt,
       metrics run.2 !! ("metrics/" +:+ tenantId +:+ "/accounts/" +:+ accountId
                           +:+ "/daily/" +:+ Rollup.date rollup) = Some doc
       /\ toISOString (Some (clock w)) = Ok updatedAt
       /\ doc !! "date" = Some (FString (Rollup.date rollup))
       /\ doc !! "invitationsCount" = Some (FNumber (Rollup.invitationsCount rollup))
       /\ doc !! "status" = Some (FString (Rollup.status rollup))
       /\ doc !! "updatedAt" = Some (FString updatedAt).
Proof.
  intros _ _ _ Hlast. cbv zeta. rewrite writeDailyRollups_run.
  cbn [fst snd invitations metrics clock].
  do 3 (split; [done|]).
  destruct (rollupDocs_lookup tenantId accountId (isoInstant (clock w)) before rollup after
              (metrics w) Hlast) as (doc & Hdoc & H1 & H2 & H3 & H4).
  by exists doc, (isoInstant (clock w)).
Qed.

(** ** The tally of the range query *)

Lemma orZero_Some v : orZero (Some v) = v.
Proof. cbn. by destruct (Z.eqb_spec v 0). Qed.

Lemma mapGet_elem_of {V} (m : list (string * V)) k v :
  NoDup m.*1 -> mapGet k m = Some v <-> (k, v) ∈ m.
Proof.
  induction m as [|[k' v'] m IH]; cbn [mapGet fmap list_fmap fst].
  - intros _. split; [done|by intros ?%elem_of_nil].
  - intros [Hk' Hnd]%NoDup_cons. rewrite elem_of_cons.
    destruct (String.eqb_spec k' k) as [->|Hne].
    + split; [intros [= ->]; by left|].
      intros [[= ->]|Hin]; [done|]. exfalso. apply Hk'.
      apply list_elem_of_fmap. by exists (k, v).
    + rewrite (IH Hnd). split; [by right|]. intros [[= -> ->]|?]; done.
Qed.

Lemma mapSet_NoDup {V} k (v : V) m : NoDup m.*1 -> NoDup (mapSet k v m).*1.
Proof.
  intros Hnd. destruct (decide (k ∈ m.*1)) as [Hin|Hout].
  - by rewrite mapSet_keys.
  - rewrite mapSet_fresh, fmap_app by done. apply NoDup_app. split; [done|].
    split; [|apply NoDup_singleton]. cbn. intros x Hx ->%list_elem_of_singleton. done.
Qed.

Section Tally.
Variable hostDateParse : string -> date.

Lemma countByDate_groups docs m m' :
  countByDate hostDateParse docs m = Ok m' ->
  NoDup m.*1 -> (forall d v, mapGet d m = Some v -> 1 <= v) ->
  NoDup m'.*1
  /\ (forall d v, mapGet d m' = Some v -> 1 <= v)
  /\ (forall d, orZero (mapGet d m')
                = orZero (mapGet d m)
                  + Z.of_nat (length (filter (fun doc => dayOfDoc hostDateParse doc = Ok d) docs))).
Proof.
  revert m. induction docs as [|doc docs IH]; intros m.
  - cbn. intros [= ->] Hnd Hpos. split; [done|]. split; [done|]. intros d. lia.
  - cbn [countByDate]. fold (dayOfDoc hostDateParse doc).
    destruct (dayOfDoc hostDateParse doc) as [date|] eqn:Hday; [|discriminate].
    cbn [rbind]. intros Hrun Hnd Hpos.
    assert (0 <= orZero (mapGet date m)) as Hnonneg.
    { destruct (mapGet date m) as [v|] eqn:E; [|done].
      rewrite orZero_Some. specialize (Hpos date v E). lia. }
    apply IH in Hrun as (Hnd' & Hpos' & Hcount).
    + split; [done|]. split; [done|]. intros d. rewrite Hcount, mapGet_mapSet.
      destruct (String.eqb_spec date d) as [->|Hne].
      * rewrite filter_cons_True by done. rewrite orZero_Some. cbn [length]. lia.
      * rewrite filter_cons_False by congruence. done.
    + by apply mapSet_NoDup.
    + intros d v. rewrite mapGet_mapSet.
      destruct (String.eqb_spec date d) as [->|Hne]; [|apply Hpos]. intros [= <-]. lia.
Qed.

Lemma countByDate_outcome docs m :
  (Forall (fun doc => is_Some (newDate hostDateParse (receivedAtOf doc))) docs
   /\ exists m', countByDate hostDateParse docs m = Ok m')
  \/ (Exists (fun doc => newDate hostDateParse (receivedAtOf doc) = None) docs
      /\ countByDate hostDateParse docs m = Throw "Invalid time value").
Proof.
  revert m. induction docs as [|doc docs IH]; intros m.
  - left. split; [constructor|]. by eexists.
  - cbn [countByDate].
    destruct (newDate hostDateParse (receivedAtOf doc)) as [t|] eqn:E.
    + rewrite toISODateUTC_time. cbn [rbind].
      destruct (IH (mapSet (isoDateOfTime t)
                           (orZero (mapGet (isoDateOfTime t) m) + 1) m))
        as [[Hall Hok]|[Hex Hthrow]].
      * left. split; [|done]. constructor; [by rewrite E|done].
      * right. split; [by apply Exists_cons_tl|done].
    + right. split; [by apply Exists_cons_hd|done].
Qed.

Lemma elem_of_querySnapshot tenantId accountId lower upper col doc :
  doc ∈ querySnapshot tenantId accountId lower upper col
  <-> exists id, col !! id = Some doc /\ matchesQuery tenantId accountId lower upper doc = true.
Proof.
  unfold querySnapshot. rewrite list_elem_of_fmap. split.
  - intros ([id doc'] & -> & Hin). rewrite merge_sort_Permutation in Hin.
    apply list_elem_of_filter in Hin as [Hm Hin]. apply elem_of_map_to_list in Hin.
    by exists id.
  - intros (id & Hid & Hm). exists (id, doc). split; [done|].
    rewrite merge_sort_Permutation. apply list_elem_of_filter. split; [done|].
    by apply elem_of_map_to_list.
Qed.

(** X20. When [queryInvitationsByDateRange] returns, it has left the world
    as it was, its result has one entry per calendar day on which a matched
    document falls, each day once, with the number of matched documents of
    that day, at least 1; [getTotalInvitationsInPeriod] is the number of
    matched documents. *)
Theorem queryInvitationsByDateRange_groups_by_day tenantId accountId fromDate toDate w results :
  (queryInvitationsByDateRange hostDateParse tenantId accountId fromDate toDate w).1
    = Ok results ->
  exists lower upper,
    toISOString (startOfDayUTC (fromISODateUTC hostDateParse fromDate)) = Ok lower
    /\ toISOString (startOfDayUTC (addDaysUTC (fromISODateUTC hostDateParse toDate) 1))
       = Ok upper
    /\ let snapshot := querySnapshot tenantId accountId lower upper (invitations w) in
       (queryInvitationsByDateRange hostDateParse tenantId accountId fromDate toDate w).2 = w
       /\ NoDup (InvitationQueryResult.date <$> results)
       /\ (forall date count,
             InvitationQueryResult.mk date count ∈ results
             <-> 1 <= count
                 /\ count = Z.of_nat (length (filter (fun doc =>
                                                        dayOfDoc hostDateParse doc = Ok date)
                                                     snapshot)))
       /\ getTotalInvitationsInPeriod hostDateParse tenantId accountId fromDate toDate w
          = (Ok (Z.of_nat (length snapshot)), w).
Proof.
  rewrite getTotalInvitationsInPeriod_run, queryInvitationsByDateRange_run. cbn [fst snd].
  intros Hq.
  assert (exists total, totalResult hostDateParse tenantId accountId fromDate toDate
                          (invitations w) = Ok total) as [total Ht].
  { unfold totalResult. rewrite Hq. by eexists. }
  destruct (totalResult_count hostDateParse _ _ _ _ _ _ Ht) as (lower & upper & Hl & Hu & ->).
  exists lower, upper. split; [done|]. split; [done|]. cbv zeta. split; [done|].
  rewrite Ht. unfold queryResult in Hq. rewrite Hl, Hu in Hq. cbn [rbind] in Hq.
  destruct (countByDate hostDateParse _ []) as [m|] eqn:Hc; [|discriminate].
  cbn [rbind] in Hq. injection Hq as <-.
  apply countByDate_groups in Hc as (Hnd & Hpos & Hcount); [|constructor|done].
  assert (InvitationQueryResult.date <$>
            ((fun '(date, count) => InvitationQueryResult.mk date count) <$> m) = m.*1) as Ekeys.
  { rewrite <- list_fmap_compose. apply list_fmap_ext. by intros ? [] ?. }
  split; [by rewrite Ekeys|]. split; [|done].
  intros date count. specialize (Hcount date). cbn [mapGet] in Hcount.
  change (orZero None) with 0 in Hcount. rewrite Z.add_0_l in Hcount.
  rewrite list_elem_of_fmap. split.
  - intros ([d c] & [= -> ->] & Hin). apply mapGet_elem_of in Hin; [|done].
    rewrite Hin, orZero_Some in Hcount. split; [by apply (Hpos d)|done].
  - intros [Hge ->]. exists (date, Z.of_nat (length (filter (fun doc =>
                               dayOfDoc hostDateParse doc = Ok date)
                               (querySnapshot tenantId accountId lower upper (invitations w))))).
    split; [done|]. apply mapGet_elem_of; [done|].
    destruct (mapGet date m) as [v|] eqn:E.
    + rewrite orZero_Some in Hcount. by rewrite Hcount.
    + change (orZero None) with 0 in Hcount. lia.
Qed.

(** X21. With bounds that print, [queryInvitationsByDateRange] throws
    "Invalid time value" as soon as one matched document has a [receivedAt]
    that [Date] does not read, and returns when every matched document has
    one that it reads; it writes nothing either way. *)
Theorem queryInvitationsByDateRange_unreadable_timestamp
    tenantId accountId fromDate toDate w lower upper :
  toISOString (startOfDayUTC (fromISODateUTC hostDateParse fromDate)) = Ok lower ->
  toISOString (startOfDayUTC (addDaysUTC (fromISODateUTC hostDateParse toDate) 1)) = Ok upper ->
  let run := queryInvitationsByDateRange hostDateParse tenantId accountId fromDate toDate w in
  let unreadable doc :=
    matchesQuery tenantId accountId lower upper doc = true
    /\ newDate hostDateParse (receivedAtOf doc) = None in
  run.2 = w
  /\ ((exists id doc, invitations w !! id = Some doc /\ unreadable doc)
      -> run.1 = Throw "Invalid time value")
  /\ ((forall id doc, invitations w !! id = Some doc -> ~ unreadable doc)
      -> exists results, run.1 = Ok results).
Proof.
  intros Hl Hu. cbv zeta. rewrite queryInvitationsByDateRange_run. cbn [fst snd].
  split; [done|]. unfold queryResult. rewrite Hl, Hu. cbn [rbind].
  destruct (countByDate_outcome
              (querySnapshot tenantId accountId lower upper (invitations w)) [])
    as [[Hall [m ->]]|[Hex ->]]; cbn [rbind].
  - split; [|by eexists]. intros (id & doc & Hid & Hm & Hnone).
    rewrite Forall_forall in Hall.
    destruct (Hall doc) as [t Ht]; [apply elem_of_querySnapshot; eauto|congruence].
  - split; [done|]. intros Hgood. exfalso.
    apply Exists_exists in Hex as (doc & (id & Hid & Hm)%elem_of_querySnapshot & Hnone).
    by apply (Hgood id doc).
Qed.

End Tally.

(** ** What a request does to the store *)

Lemma applyBatch_keeps {A} (key : A -> string) (doc : A -> Doc) (items : list A)
    (fields : list string) col k old :
  (forall x field, field ∉ fields -> doc x !! field = None) ->
  col !! k = Some old ->
  exists new, applyBatch ((fun x => (key x, doc x)) <$> items) col !! k = Some new
    /\ forall field, field ∉ fields -> new !! field = old !! field.
Proof.
  intros Hdoc Hold. rewrite applyBatch_lookup, Hold. cbn [default from_option id].
  destruct (mergedFor k _) as [data|] eqn:E; [|by exists old].
  eexists. split; [done|]. intros field Hfield. apply lookup_union_r.
  eapply mergedFor_fields; [|exact E]. intros x. by apply Hdoc.
Qed.

Lemma rawInvitationDoc_other invitation field :
  field ∉ ["tenantId"; "accountId"; "externalId"; "receivedAt"] ->
  rawInvitationDoc invitation !! field = None.
Proof. intros H. apply eq_None_not_Some. by rewrite rawInvitationDoc_fields. Qed.

Lemma rollupDoc_other rollup updatedAt field :
  field ∉ ["date"; "invitationsCount"; "status"; "updatedAt"] ->
  rollupDoc rollup updatedAt !! field = None.
Proof. intros H. apply eq_None_not_Some. by rewrite rollupDoc_fields. Qed.

Lemma isoDay_nonempty n : firstDay <= n <= lastDay -> String.eqb (isoDay n) "" = false.
Proof. intros Hn. destruct (isoDay_ymd n Hn) as [-> _]. by rewrite ymdString_chars. Qed.

Section Handler.
Variable hostDateParse : string -> date.
Variable localeCompare : string -> string -> Z.

Lemma validateQueryParams_isoDays tenantId accountId a b :
  tenantId <> "" -> accountId <> "" -> firstDay <= a -> a <= b -> b <= lastDay ->
  validateQueryParams hostDateParse
    (Query.mk (QString tenantId) (QString accountId) (QString (isoDay a)) (QString (isoDay b)))
  = Ok (Valid (Params.mk tenantId accountId (isoDay a) (isoDay b))).
Proof.
  intros Ht Ha Hfa Hab Hb. unfold validateQueryParams.
  cbn [Query.tenantId Query.accountId Query.from Query.to requiredString].
  destruct (String.eqb_spec tenantId ""); [done|].
  destruct (String.eqb_spec accountId ""); [done|].
  rewrite !isoDay_nonempty, !isValidISODate_isoDay, !fromISODateUTC_isoDay by lia.
  cbn [rbind negb dateGt].
  destruct (Z.gtb_spec (a * msPerDay) (b * msPerDay)) as [Hgt|_]; [|done].
  unfold msPerDay in Hgt. lia.
Qed.

(** The world a request leaves: untouched when validation does not pass;
    otherwise the clock has advanced by the 100 ms of the fetch, the
    generated invitations are merged in, and the rollups are merged in if
    step 5 was reached. *)
Lemma handler_world query w :
  let w' := (getDailyInvitationMetrics hostDateParse localeCompare query w).2 in
  match validateQueryParams hostDateParse query with
  | Ok (Valid params) =>
      exists mock,
        generated hostDateParse localeCompare (Params.tenantId params)
          (Params.accountId params) (Params.from params) (Params.to params) = Ok mock
        /\ invitations w' = applyBatch (ingestBatch params mock) (invitations w)
        /\ clock w' = clock w + 100
        /\ metrics w'
           = match reportRollups hostDateParse params (invitations w') with
             | Some rollups =>
                 applyBatch (rollupDocs (Params.tenantId params) (Params.accountId params)
                                        (isoInstant (clock w + 100)) rollups) (metrics w)
             | None => metrics w
             end
  | _ => w' = w
  end.
Proof.
  cbv zeta. rewrite handler_run.
  destruct (validateQueryParams hostDateParse query) as [[params|error]|]; [|done..].
  cbv zeta. rewrite processRequest_run.
  destruct (generated hostDateParse localeCompare (Params.tenantId params)
              (Params.accountId params) (Params.from params) (Params.to params))
    as [mock|message] eqn:Hg.
  - exists mock. split; [done|]. rewrite reportFromStore_run.
    cbn [fst snd invitations withInvitations].
    set (col := applyBatch (ingestBatch params mock) (invitations w)).
    destruct (reportRollups hostDateParse params col) as [rollups|] eqn:E;
      cbn [invitations metrics clock withMetrics withInvitations tick]; by rewrite E.
  - exfalso. unfold generated in Hg.
    destruct (eachDayInclusive_returns hostDateParse (Params.from params) (Params.to params))
      as [days Hdays].
    by rewrite Hdays in Hg.
Qed.

(** X22. A request deletes nothing: every invitation and every rollup
    document of the store is still there afterwards, with all its fields
    other than the four the handler writes unchanged. *)
Theorem handler_keeps_documents query w :
  let w' := (getDailyInvitationMetrics hostDateParse localeCompare query w).2 in
  (forall id doc,
     invitations w !! id = Some doc ->
     exists doc', invitations w' !! id = Some doc'
       /\ forall field, field ∉ ["tenantId"; "accountId"; "externalId"; "receivedAt"] ->
                        doc' !! field = doc !! field)
  /\ (forall path doc,
        metrics w !! path = Some doc ->
        exists doc', metrics w' !! path = Some doc'
          /\ forall field, field ∉ ["date"; "invitationsCount"; "status"; "updatedAt"] ->
                           doc' !! field = doc !! field).
Proof.
  pose proof (handler_world query w) as H. cbv zeta in *.
  set (w' := (getDailyInvitationMetrics hostDateParse localeCompare query w).2) in *.
  clearbody w'.
  destruct (validateQueryParams hostDateParse query) as [[params|error]|];
    [|subst w'; split; eauto..].
  destruct H as (mock & _ & Hinv & _ & Hmetrics). split.
  - intros id doc Hid. rewrite Hinv. unfold ingestBatch, rawBatch.
    apply (applyBatch_keeps RawInvitation.externalId rawInvitationDoc); [|done].
    intros x field. apply rawInvitationDoc_other.
  - intros path doc Hpath. rewrite Hmetrics.
    destruct (reportRollups _ _ _) as [rollups|]; [|eauto].
    unfold rollupDocs.
    apply (applyBatch_keeps (rollupPath (Params.tenantId params) (Params.accountId params))
             (fun rollup => rollupDoc rollup (isoInstant (clock w + 100)))); [|done].
    intros x field. apply rollupDoc_other.
Qed.

(** X23. [validateQueryParams] accepts exactly the queries whose four
    parameters are strings, tenant and account not empty, [from] and [to]
    calendar days of the years 0000 to 9999 with [from] not after [to];
    the accepted parameters are the strings of the query. *)
Theorem validateQueryParams_accepts_iff query params :
  validateQueryParams hostDateParse query = Ok (Valid params)
  <-> query = Query.mk (QString (Params.tenantId params)) (QString (Params.accountId params))
                       (QString (Params.from params)) (QString (Params.to params))
      /\ Params.tenantId params <> ""
      /\ Params.accountId params <> ""
      /\ exists a b, firstDay <= a /\ a <= b /\ b <= lastDay
           /\ Params.from params = isoDay a /\ Params.to params = isoDay b.
Proof.
  split.
  - intros H.
    destruct (validateQueryParams_valid hostDateParse query params H)
      as (Hf & Ht & Hgt & E1 & E2 & E3 & E4).
    destruct query as [qt qa qf qto]. cbn in E1, E2, E3, E4. subst.
    split; [done|].
    unfold validateQueryParams in H.
    cbn [Query.tenantId Query.accountId Query.from Query.to requiredString] in H.
    destruct (String.eqb_spec (Params.tenantId params) ""); [discriminate|].
    destruct (String.eqb_spec (Params.accountId params) ""); [discriminate|].
    split; [done|]. split; [done|].
    destruct (valid_range_days hostDateParse _ _ Hf Ht Hgt) as (a & b & ? & ? & ? & ? & ?).
    by exists a, b.
  - intros (-> & Ht & Ha & a & b & Hfa & Hab & Hb & Ef & Et).
    destruct params as [t acc from to]. cbn in *. subst.
    by apply validateQueryParams_isoDays.
Qed.

(** X24. A request whose [from] and [to] are valid days with [from] after
    [to] is answered 400 with the message of the inverted range, and
    leaves the store and the clock as they were. *)
Theorem inverted_range_rejected tenantId accountId a b w :
  tenantId <> "" -> accountId <> "" -> firstDay <= b -> b < a -> a <= lastDay ->
  getDailyInvitationMetrics hostDateParse localeCompare
    (Query.mk (QString tenantId) (QString accountId) (QString (isoDay a)) (QString (isoDay b))) w
  = (Response.mk 400
       (ErrorResponse "Invalid query parameters"
                      "from date must be less than or equal to to date"), w).
Proof.
  intros Ht Hacc Hb Hab Ha. rewrite handler_run. unfold validateQueryParams.
  cbn [Query.tenantId Query.accountId Query.from Query.to requiredString].
  destruct (String.eqb_spec tenantId ""); [done|].
  destruct (String.eqb_spec accountId ""); [done|].
  rewrite !isoDay_nonempty, !isValidISODate_isoDay, !fromISODateUTC_isoDay by lia.
  cbn [rbind negb dateGt].
  destruct (Z.gtb_spec (a * msPerDay) (b * msPerDay)) as [_|Hle]; [done|].
  unfold msPerDay in Hle. lia.
Qed.

End Handler.

(** ** From the generator to the response *)

Lemma NoDup_fmap_inj_on {A B} (f : A -> B) (l : list A) x y :
  NoDup (f <$> l) -> x ∈ l -> y ∈ l -> f x = f y -> x = y.
Proof.
  induction l as [|z l IH]; [by intros _ ?%elem_of_nil|].
  rewrite fmap_cons. intros [Hz Hnd]%NoDup_cons [->|Hx]%elem_of_cons [->|Hy]%elem_of_cons E.
  - done.
  - exfalso. apply Hz. rewrite E. by apply list_elem_of_fmap_2.
  - exfalso. apply Hz. rewrite <- E. by apply list_elem_of_fmap_2.
  - by apply IH.
Qed.

Lemma filter_ext_in {A} (P Q : A -> Prop) `{!forall x, Decision (P x)}
    `{!forall x, Decision (Q x)} (l : list A) :
  (forall x, x ∈ l -> P x <-> Q x) -> filter P l = filter Q l.
Proof.
  induction l as [|x l IH]; intros HPQ; [done|].
  assert (filter P l = filter Q l) as E by (apply IH; intros y Hy; apply HPQ; by right).
  destruct (decide (P x)) as [HP|HP].
  - rewrite !filter_cons_True by (done || by apply HPQ; [left|]). by rewrite E.
  - rewrite !filter_cons_False; [done| |done]. intros HQ. apply HP, HPQ; [left|done].
Qed.

Lemma length_filter_fmap {A B} (f : A -> B) (P : B -> Prop) `{!forall x, Decision (P x)}
    (l : list A) :
  length (filter P (f <$> l)) = length (filter (fun x => P (f x)) l).
Proof.
  induction l as [|x l IH]; [done|]. rewrite fmap_cons.
  destruct (decide (P (f x))).
  - rewrite !filter_cons_True by done. cbn [length]. by rewrite IH.
  - by rewrite !filter_cons_False by done.
Qed.

Lemma countsOf_NoDup (m : list (string * Z)) :
  NoDup m.*1 ->
  countsOf ((fun '(date, count) => InvitationQueryResult.mk date count) <$> m) = m.
Proof.
  unfold countsOf.
  assert (forall acc, NoDup (acc.*1 ++ m.*1) ->
            fold_left (fun m r => mapSet (InvitationQueryResult.date r)
                                         (InvitationQueryResult.count r) m)
                      ((fun '(date, count) => InvitationQueryResult.mk date count) <$> m) acc
            = acc ++ m) as H.
  { induction m as [|[d c] m IH]; intros acc Hnd; [by rewrite app_nil_r|].
    rewrite fmap_cons. cbn [fold_left InvitationQueryResult.date InvitationQueryResult.count].
    rewrite mapSet_fresh.
    - rewrite IH; [by rewrite <- app_assoc|].
      rewrite fmap_app, <- app_assoc. exact Hnd.
    - apply NoDup_app in Hnd as (_ & Hnd & _). intros Hd. apply (Hnd d Hd). left. }
  intros Hnd. by apply (H []).
Qed.

Lemma matchesQuery_fields tenantId accountId lower upper doc :
  matchesQuery tenantId accountId lower upper doc = true ->
  doc !! "tenantId" = Some (FString tenantId) /\ doc !! "accountId" = Some (FString accountId).
Proof.
  unfold matchesQuery.
  intros [[H1%bool_decide_eq_true H2%bool_decide_eq_true]%andb_prop _]%andb_prop. done.
Qed.

Lemma rawInvitationDoc_union_field invitation old field :
  field ∈ ["tenantId"; "accountId"; "externalId"; "receivedAt"] ->
  (rawInvitationDoc invitation ∪ old) !! field = rawInvitationDoc invitation !! field.
Proof. intros H. apply lookup_union_l'. by apply rawInvitationDoc_fields. Qed.

Lemma matchesQuery_union tenantId accountId lower upper invitation old :
  matchesQuery tenantId accountId lower upper (rawInvitationDoc invitation ∪ old)
  = matchesQuery tenantId accountId lower upper (rawInvitationDoc invitation).
Proof.
  unfold matchesQuery.
  rewrite !rawInvitationDoc_union_field; [done|..]; rewrite !elem_of_cons; auto 6.
Qed.

Lemma receivedAtOf_union invitation old :
  receivedAtOf (rawInvitationDoc invitation ∪ old) = RawInvitation.receivedAt invitation.
Proof.
  unfold receivedAtOf.
  rewrite rawInvitationDoc_union_field by (rewrite !elem_of_cons; auto 6).
  unfold rawInvitationDoc. by rewrite !lookup_insert_ne, lookup_insert_eq by done.
Qed.

Lemma ingested_doc params mock invitation col :
  NoDup (MockInvitation.externalId <$> mock) -> invitation ∈ mock ->
  applyBatch (ingestBatch params mock) col !! MockInvitation.externalId invitation
  = Some (storedDoc params col invitation).
Proof.
  intros Hnd Hin. apply list_elem_of_split in Hin as (before & after & ->).
  rewrite fmap_app, fmap_cons in Hnd.
  apply NoDup_app in Hnd as (_ & _ & [Hlast _]%NoDup_cons).
  rewrite applyBatch_lookup. unfold ingestBatch, rawBatch.
  rewrite fmap_app, fmap_cons.
  set (toRaw := fun invitation =>
                  RawInvitation.mk (Params.tenantId params) (Params.accountId params)
                                   (MockInvitation.externalId invitation)
                                   (MockInvitation.receivedAt invitation)).
  change (MockInvitation.externalId invitation)
    with (RawInvitation.externalId (toRaw invitation)) at 1.
  rewrite (mergedFor_last RawInvitation.externalId rawInvitationDoc); [done| |].
  - intros x y field. by rewrite !rawInvitationDoc_fields.
  - by rewrite <- list_fmap_compose.
Qed.

Lemma ingested_other params mock id col :
  id ∉ MockInvitation.externalId <$> mock ->
  applyBatch (ingestBatch params mock) col !! id = col !! id.
Proof.
  intros Hid. rewrite applyBatch_lookup. unfold ingestBatch, rawBatch.
  rewrite (proj2 (mergedFor_None RawInvitation.externalId rawInvitationDoc _ id)); [done|].
  by rewrite <- list_fmap_compose.
Qed.

(** After the ingestion, on a store that held no document of the tenant
    and account, the range query sees the fetched invitations that fall
    between its bounds, each once. *)
Lemma snapshot_after_ingest params mock old lower upper :
  NoDup (MockInvitation.externalId <$> mock) ->
  (forall id doc, old !! id = Some doc ->
     ~ (doc !! "tenantId" = Some (FString (Params.tenantId params))
        /\ doc !! "accountId" = Some (FString (Params.accountId params)))) ->
  querySnapshot (Params.tenantId params) (Params.accountId params) lower upper
    (applyBatch (ingestBatch params mock) old)
  ≡ₚ storedDoc params old <$>
       filter (fun invitation =>
                 matchesQuery (Params.tenantId params) (Params.accountId params) lower upper
                   (storedDoc params old invitation) = true) mock.
Proof.
  intros Hnd Hforeign. unfold querySnapshot. rewrite merge_sort_Permutation.
  set (col := applyBatch (ingestBatch params mock) old).
  set (matched := fun invitation =>
                    matchesQuery (Params.tenantId params) (Params.accountId params) lower upper
                      (storedDoc params old invitation) = true).
  transitivity (((fun invitation => (MockInvitation.externalId invitation,
                                     storedDoc params old invitation))
                   <$> filter matched mock).*2); [|by rewrite <- list_fmap_compose].
  apply fmap_Permutation, NoDup_Permutation.
  - apply NoDup_filter, NoDup_map_to_list.
  - apply NoDup_fmap_2_strong.
    + intros x y [_ Hx]%list_elem_of_filter [_ Hy]%list_elem_of_filter E.
      apply (f_equal fst) in E. cbn [fst] in E.
      by apply (NoDup_fmap_inj_on MockInvitation.externalId mock).
    + apply NoDup_filter. by apply NoDup_fmap_1 in Hnd.
  - intros [id doc]. rewrite list_elem_of_filter, elem_of_map_to_list, list_elem_of_fmap.
    cbn [snd]. split.
    + intros [Hm Hdoc]. destruct (decide (id ∈ MockInvitation.externalId <$> mock)) as [Hid|Hid].
      * apply list_elem_of_fmap in Hid as (invitation & -> & Hin).
        unfold col in Hdoc. rewrite ingested_doc in Hdoc by done. injection Hdoc as <-.
        exists invitation. split; [done|]. by apply list_elem_of_filter.
      * unfold col in Hdoc. rewrite ingested_other in Hdoc by done.
        destruct (Hforeign id doc Hdoc). by apply matchesQuery_fields in Hm.
    + intros (invitation & E & [Hm Hin]%list_elem_of_filter).
      assert (id = MockInvitation.externalId invitation) as -> by (by apply (f_equal fst) in E).
      assert (doc = storedDoc params old invitation) as -> by (by apply (f_equal snd) in E).
      split; [done|]. by apply ingested_doc.
Qed.

Lemma createZeroFilledCounts_keys dateRange actualCounts :
  NoDup (createZeroFilledCounts dateRange actualCounts).*1.
Proof.
  unfold createZeroFilledCounts.
  assert (forall acc : list (string * Z), NoDup acc.*1 ->
            NoDup (fold_left (fun zeroFilled date =>
                                mapSet date (orZero (mapGet date actualCounts)) zeroFilled)
                             dateRange acc).*1) as H.
  { induction dateRange as [|d l IH]; intros acc Hacc; [done|].
    cbn [fold_left]. by apply IH, mapSet_NoDup. }
  apply H. constructor.
Qed.

Lemma elem_of_formatData zeroFilledCounts comparison point :
  point ∈ formatData zeroFilledCounts comparison ->
  (MetricDataPoint.date point, MetricDataPoint.value point) ∈ zeroFilledCounts
  /\ MetricDataPoint.status point = "ok".
Proof.
  rewrite formatData_shape. destruct zeroFilledCounts as [|[d v] rest]; [by intros ?%elem_of_nil|].
  intros [->|Hin]%elem_of_cons; [split; [left|done]|].
  apply list_elem_of_fmap in Hin as ([d' v'] & -> & Hin). split; [by right|done].
Qed.

Section EndToEnd.
Variable hostDateParse : string -> date.
Variable localeCompare : string -> string -> Z.

Lemma fetched_day params old tenantId accountId a b fetched invitation :
  firstDay <= a -> a <= b -> b <= lastDay ->
  generated hostDateParse localeCompare tenantId accountId (isoDay a) (isoDay b) = Ok fetched ->
  invitation ∈ fetched ->
  exists k h mi,
    a <= k <= b /\ 0 <= h < 24 /\ 0 <= mi < 60
    /\ MockInvitation.receivedAt invitation = isoDay k +:+ "T" +:+ clockString h mi 0 0
    /\ splitHead "T" (MockInvitation.receivedAt invitation) = isoDay k
    /\ dayOfDoc hostDateParse (storedDoc params old invitation) = Ok (isoDay k)
    /\ is_Some (newDate hostDateParse (receivedAtOf (storedDoc params old invitation))).
Proof.
  intros Ha Hab Hb Hgen Hin.
  destruct (generated_within_day hostDateParse localeCompare tenantId accountId a b
              fetched invitation Ha Hab Hb Hgen Hin)
    as (k & h & mi & Hk & Hh & Hmi & E & Hparse & Hday).
  exists k, h, mi. do 4 (split; [done|]). split.
  { rewrite E. change ("T" +:+ clockString h mi 0 0) with (String "T" (clockString h mi 0 0)).
    apply splitHead_app, lacksChar_isoDateOfTime. }
  unfold dayOfDoc, storedDoc. rewrite receivedAtOf_union. cbn [RawInvitation.receivedAt].
  split; [done|]. by rewrite Hparse.
Qed.

Lemma queryResult_after_ingest tenantId accountId a b old fetched :
  firstDay <= a -> a <= b -> b < lastDay ->
  (forall id doc, old !! id = Some doc ->
     ~ (doc !! "tenantId" = Some (FString tenantId)
        /\ doc !! "accountId" = Some (FString accountId))) ->
  generated hostDateParse localeCompare tenantId accountId (isoDay a) (isoDay b) = Ok fetched ->
  let params := Params.mk tenantId accountId (isoDay a) (isoDay b) in
  exists counts,
    queryResult hostDateParse tenantId accountId (isoDay a) (isoDay b)
      (applyBatch (ingestBatch params fetched) old)
    = Ok ((fun '(date, count) => InvitationQueryResult.mk date count) <$> counts)
    /\ NoDup counts.*1
    /\ forall k, a <= k <= b ->
         orZero (mapGet (isoDay k) counts) = getDailyInvitationCount tenantId accountId (isoDay k).
Proof.
  intros Ha Hab Hb Hforeign Hgen params.
  assert (NoDup (MockInvitation.externalId <$> fetched)) as Hnd
    by (by eapply (generated_ids_NoDup hostDateParse localeCompare _ _ a b); [lia..|]).
  unfold queryResult. rewrite lowerBound_isoDay, upperBound_isoDay by lia. cbn [rbind].
  pose proof (snapshot_after_ingest params fetched old
                (isoDay a +:+ "T00:00:00.000Z") (isoDay (b + 1) +:+ "T00:00:00.000Z")
                Hnd Hforeign) as Hperm.
  change (Params.tenantId params) with tenantId in Hperm.
  change (Params.accountId params) with accountId in Hperm.
  rewrite filter_all in Hperm.
  2: { intros invitation Hin. unfold storedDoc. rewrite matchesQuery_union.
       change (Params.tenantId params) with tenantId.
       change (Params.accountId params) with accountId.
       destruct (generated_matched hostDateParse localeCompare tenantId accountId a b
                   fetched invitation Ha Hab Hb Hgen Hin) as (lower & upper & Hl & Hu & Hm).
       rewrite lowerBound_isoDay in Hl by lia. rewrite upperBound_isoDay in Hu by lia.
       by injection Hl as <-; injection Hu as <-. }
  set (snapshot := querySnapshot tenantId accountId _ _ _) in *.
  destruct (countByDate_outcome hostDateParse snapshot []) as [[_ [m Hm]]|[Hex _]].
  - rewrite Hm. cbn [rbind]. exists m.
    apply countByDate_groups in Hm as (Hkeys & _ & Hcount); [|constructor|done].
    split; [done|]. split; [done|]. intros k Hk. rewrite Hcount.
    change (orZero (mapGet (isoDay k) [])) with 0. rewrite Z.add_0_l, Hperm, length_filter_fmap.
    rewrite (filter_ext_in _ (fun invitation =>
               splitHead "T" (MockInvitation.receivedAt invitation) = isoDay k)).
    + rewrite generated_valid_range in Hgen by lia. injection Hgen as <-.
      rewrite sortBy_Permutation, generatedFor_day_count;
        [|apply NoDup_seqZ|apply Forall_forall; intros j Hj%elem_of_seqZ; lia|lia].
      rewrite decide_True; [done|]. apply elem_of_seqZ. lia.
    + intros invitation Hin.
      destruct (fetched_day params old tenantId accountId a b fetched invitation)
        as (j & h & mi & _ & _ & _ & _ & -> & -> & _); [lia|done|lia|done|done|].
      split; [by intros [= ->]|by intros ->].
  - exfalso. apply Exists_exists in Hex as (doc & Hdoc & Hnone).
    rewrite Hperm in Hdoc. apply list_elem_of_fmap in Hdoc as (invitation & -> & Hin).
    destruct (fetched_day params old tenantId accountId a b fetched invitation)
      as (j & h & mi & _ & _ & _ & _ & _ & _ & [t Ht]); [lia|done|lia|done|done|].
    congruence.
Qed.

Lemma previous_total_after_ingest tenantId accountId a b old fetched :
  firstDay + 7 <= a -> a <= b -> b <= lastDay ->
  (forall id doc, old !! id = Some doc ->
     ~ (doc !! "tenantId" = Some (FString tenantId)
        /\ doc !! "accountId" = Some (FString accountId))) ->
  generated hostDateParse localeCompare tenantId accountId (isoDay a) (isoDay b) = Ok fetched ->
  let params := Params.mk tenantId accountId (isoDay a) (isoDay b) in
  totalResult hostDateParse tenantId accountId (isoDay (a - 7)) (isoDay (a - 1))
    (applyBatch (ingestBatch params fetched) old) = Ok 0.
Proof.
  intros Ha Hab Hb Hforeign Hgen params.
  assert (NoDup (MockInvitation.externalId <$> fetched)) as Hnd
    by (by eapply (generated_ids_NoDup hostDateParse localeCompare _ _ a b); [lia..|]).
  unfold totalResult, queryResult.
  rewrite lowerBound_isoDay, upperBound_isoDay by lia. cbn [rbind].
  pose proof (snapshot_after_ingest params fetched old
                (isoDay (a - 7) +:+ "T00:00:00.000Z") (isoDay (a - 1 + 1) +:+ "T00:00:00.000Z")
                Hnd Hforeign) as Hperm.
  change (Params.tenantId params) with tenantId in Hperm.
  change (Params.accountId params) with accountId in Hperm.
  rewrite filter_none in Hperm.
  2: { intros invitation Hin. unfold storedDoc. rewrite matchesQuery_union.
       change (Params.tenantId params) with tenantId.
       change (Params.accountId params) with accountId. rewrite matchesQuery_raw.
       destruct (fetched_day params old tenantId accountId a b fetched invitation)
         as (k & h & mi & Hk & Hh & Hmi & -> & _); [lia|done|lia|done|done|].
       rewrite strLt_stamp_upper by lia.
       destruct (Z.leb_spec k (a - 1)); [lia|]. by rewrite andb_false_r. }
  apply Permutation_nil_r in Hperm. rewrite Hperm. done.
Qed.

(** X25. On a store that holds no invitation of the tenant and account, a
    request for the days [a] to [b] (at least 7 days after 0000-01-01,
    before 9999-12-31) is answered 200 with one point per day in order,
    whose value is [getExpectedDailyCount] of that day, and with the
    comparison 0 on the first point. *)
Theorem fresh_request_reports_generated_counts tenantId accountId a b w :
  pathSegment tenantId -> pathSegment accountId ->
  firstDay + 7 <= a -> a <= b -> b < lastDay ->
  (forall id doc, invitations w !! id = Some doc ->
     ~ (doc !! "tenantId" = Some (FString tenantId)
        /\ doc !! "accountId" = Some (FString accountId))) ->
  (getDailyInvitationMetrics hostDateParse localeCompare
     (Query.mk (QString tenantId) (QString accountId)
               (QString (isoDay a)) (QString (isoDay b))) w).1
  = Response.mk 200
      (MetricData
         (formatData ((fun k => (isoDay k, getExpectedDailyCount tenantId accountId (isoDay k)))
                        <$> seqZ a (b - a + 1)) 0)).
Proof.
  intros [Ht _] [Hacc _] Ha Hab Hb Hforeign.
  rewrite handler_run, validateQueryParams_isoDays by (done || lia).
  cbv zeta. rewrite processRequest_run. cbn [Params.tenantId Params.accountId Params.from Params.to].
  destruct (generated hostDateParse localeCompare tenantId accountId (isoDay a) (isoDay b))
    as [fetched|] eqn:Hgen; [|by rewrite generated_valid_range in Hgen by lia].
  rewrite reportFromStore_run. cbn [fst snd invitations withInvitations].
  unfold reportResponse. cbn [Params.tenantId Params.accountId Params.from Params.to].
  destruct (queryResult_after_ingest tenantId accountId a b (invitations w) fetched)
    as (counts & -> & Hkeys & Hcounts); [lia|done|done|done|done|].
  rewrite (eachDayInclusive_days hostDateParse a b) by lia.
  rewrite (previousPeriod_isoDay hostDateParse a) by lia. cbn [rbind fst snd].
  rewrite (previous_total_after_ingest tenantId accountId a b (invitations w) fetched
             Ha Hab ltac:(lia) Hforeign Hgen).
  cbn [rbind responseOf]. do 3 f_equal.
  rewrite countsOf_NoDup by done.
  rewrite createZeroFilledCounts_NoDup by (apply (NoDup_isoDays hostDateParse); lia).
  rewrite <- list_fmap_compose. apply Forall_fmap_ext_1, Forall_forall.
  intros k Hk%elem_of_seqZ. cbn. unfold getExpectedDailyCount. f_equal. apply Hcounts. lia.
Qed.

(** X26. Once validation has passed, whatever the response, every fetched
    invitation is in the store under its [externalId] with the tenant and
    the account of the request and its own id and [receivedAt]. *)
Theorem accepted_request_stores_invitations query params w :
  validateQueryParams hostDateParse query = Ok (Valid params) ->
  let run := getDailyInvitationMetrics hostDateParse localeCompare query w in
  exists fetched,
    generated hostDateParse localeCompare (Params.tenantId params) (Params.accountId params)
      (Params.from params) (Params.to params) = Ok fetched
    /\ forall invitation, invitation ∈ fetched ->
         exists doc,
           invitations run.2 !! MockInvitation.externalId invitation = Some doc
           /\ doc !! "tenantId" = Some (FString (Params.tenantId params))
           /\ doc !! "accountId" = Some (FString (Params.accountId params))
           /\ doc !! "externalId" = Some (FString (MockInvitation.externalId invitation))
           /\ doc !! "receivedAt" = Some (FString (MockInvitation.receivedAt invitation)).
Proof.
  intros Hv. pose proof (handler_world hostDateParse localeCompare query w) as H.
  cbv zeta in *. rewrite Hv in H. destruct H as (fetched & Hgen & Hinv & _).
  exists fetched. split; [done|]. intros invitation Hin.
  destruct (validateQueryParams_valid hostDateParse query params Hv) as (Hf & Hto & Hgt & _).
  destruct (valid_range_days hostDateParse _ _ Hf Hto Hgt) as (a & b & ? & ? & ? & Ea & Eb).
  rewrite Ea, Eb in Hgen.
  rewrite Hinv, ingested_doc;
    [|by eapply (generated_ids_NoDup hostDateParse localeCompare _ _ a b); [lia..|]|done].
  eexists. split; [done|]. unfold storedDoc.
  by do 3 (split; [apply lookup_union_Some_l; doc_field|]);
    apply lookup_union_Some_l; doc_field.
Qed.

(** X27. After a response with status 200, the store holds for every point
    of the response the rollup document of its day, with the same date, the
    point's value as [invitationsCount], status "ok", and an [updatedAt]
    that is the ISO text of an instant. *)
Theorem rollups_match_response query w :
  let run := getDailyInvitationMetrics hostDateParse localeCompare query w in
  Response.statusCode run.1 = 200 ->
  exists params points,
    validateQueryParams hostDateParse query = Ok (Valid params)
    /\ Response.body run.1 = MetricData points
    /\ forall point, point ∈ points ->
         exists doc,
           metrics run.2 !! ("metrics/" +:+ Params.tenantId params +:+ "/accounts/"
                               +:+ Params.accountId params +:+ "/daily/"
                               +:+ MetricDataPoint.date point) = Some doc
           /\ doc !! "date" = Some (FString (MetricDataPoint.date point))
           /\ doc !! "invitationsCount" = Some (FNumber (MetricDataPoint.value point))
           /\ doc !! "status" = Some (FString "ok")
           /\ exists time, doc !! "updatedAt" = Some (FString (isoInstant time)).
Proof.
  cbv zeta. intros H200.
  destruct (handler_success hostDateParse localeCompare query w H200)
    as (params & mock & results & dateRange & previous & comparison
        & Hv & Hinv & Hq & Hdays & _ & _ & Hresponse).
  cbv zeta in *.
  pose proof (handler_world hostDateParse localeCompare query w) as Hw.
  cbv zeta in Hw. rewrite Hv in Hw. destruct Hw as (_ & _ & _ & _ & Hmetrics).
  rewrite Hinv in Hmetrics. unfold reportRollups in Hmetrics. rewrite Hq, Hdays in Hmetrics.
  exists params. eexists. split; [done|]. rewrite Hresponse. split; [reflexivity|].
  intros point [Hin Hstatus]%elem_of_formatData.
  set (zeroFilled := createZeroFilledCounts dateRange (countsOf results)) in *.
  pose proof (createZeroFilledCounts_keys dateRange (countsOf results)) as Hkeys.
  fold zeroFilled in Hkeys.
  apply list_elem_of_split in Hin as (before & after & Hsplit).
  rewrite Hsplit, fmap_app, fmap_cons in Hkeys.
  apply NoDup_app in Hkeys as (_ & _ & [Hlast _]%NoDup_cons). cbn [fst] in Hlast.
  rewrite Hmetrics, Hsplit. unfold rollupsOf. rewrite fmap_app, fmap_cons.
  destruct (rollupDocs_lookup (Params.tenantId params) (Params.accountId params)
              (isoInstant (clock w + 100))
              ((fun '(date, count) => Rollup.mk date count "ok") <$> before)
              (Rollup.mk (MetricDataPoint.date point) (MetricDataPoint.value point) "ok")
              ((fun '(date, count) => Rollup.mk date count "ok") <$> after)
              (metrics w)) as (doc & Hdoc & H1 & H2 & H3 & H4).
  { cbn [Rollup.date]. rewrite <- list_fmap_compose.
    replace (after.*1) with ((Rollup.date ∘ (fun '(date, count) => Rollup.mk date count "ok"))
                               <$> after) in Hlast; [done|].
    apply list_fmap_ext. by intros ? [] ?. }
  exists doc. do 4 (split; [done|]). by exists (clock w + 100).
Qed.

End EndToEnd.

(** * Instances *)

Lemma zero_fill_complete_witness :
  isValidISODate hostNone "2025-09-01" = Ok true
  /\ isValidISODate hostNone "2025-09-03" = Ok true
  /\ dateGt (fromISODateUTC hostNone "2025-09-01") (fromISODateUTC hostNone "2025-09-03")
     = false
  /\ exists dateRange,
       eachDayInclusive hostNone "2025-09-01" "2025-09-03" = Ok dateRange
       /\ createZeroFilledCounts dateRange [("2025-09-02", 5)]
          = [("2025-09-01", 0); ("2025-09-02", 5); ("2025-09-03", 0)]
       /\ Z.of_nat (length (createZeroFilledCounts dateRange [("2025-09-02", 5)]))
          = dayNumber hostNone "2025-09-03" - dayNumber hostNone "2025-09-01" + 1.
Proof.
  assert (isValidISODate hostNone "2025-09-01" = Ok true) as Hfrom by (by vm_compute).
  assert (isValidISODate hostNone "2025-09-03" = Ok true) as Hto by (by vm_compute).
  assert (dateGt (fromISODateUTC hostNone "2025-09-01") (fromISODateUTC hostNone "2025-09-03")
          = false) as Hle by (by vm_compute).
  split; [exact Hfrom|]. split; [exact Hto|]. split; [exact Hle|].
  destruct (zero_fill_complete hostNone "2025-09-01" "2025-09-03" [("2025-09-02", 5)]
              Hfrom Hto Hle) as (dateRange & Hdays & Hlen & _).
  exists dateRange. split; [exact Hdays|]. split; [|exact Hlen].
  assert (eachDayInclusive hostNone "2025-09-01" "2025-09-03"
          = Ok ["2025-09-01"; "2025-09-02"; "2025-09-03"]) as E by (by vm_compute).
  rewrite E in Hdays. injection Hdays as <-. by vm_compute.
Defined.

Lemma comparison_on_first_only_witness :
  let query := Query.mk (QString "t1") (QString "a1")
                        (QString "2025-09-01") (QString "2025-09-03") in
  let response :=
    (getDailyInvitationMetrics hostNone codeUnitCompare query (mkWorld ∅ ∅ 0)).1 in
  Response.statusCode response = 200
  /\ exists first rest comparison,
       Response.body response = MetricData (first :: rest)
       /\ MetricDataPoint.previousPeriodComparison first = Some comparison
       /\ Forall (fun point => MetricDataPoint.previousPeriodComparison point = None) rest
       /\ Forall (fun point => MetricDataPoint.status point = "ok") (first :: rest).
Proof.
  cbn zeta.
  assert (Response.statusCode
            (getDailyInvitationMetrics hostNone codeUnitCompare
               (Query.mk (QString "t1") (QString "a1")
                         (QString "2025-09-01") (QString "2025-09-03"))
               (mkWorld ∅ ∅ 0)).1 = 200) as H200 by (by vm_compute).
  split; [exact H200|].
  exact (comparison_on_first_only hostNone codeUnitCompare _ _ H200).
Defined.


Lemma addDaysUTC_compose_witness :
  Z.abs 1756684800000 <= 8640000000000000
  /\ addDaysUTC (addDaysUTC (Some 1756684800000) 7) (-3) = addDaysUTC (Some 1756684800000) 4
  /\ addDaysUTC (addDaysUTC (Some 1756684800000) 7) (-7) = Some 1756684800000.
Proof.
  split; [lia|].
  apply (addDaysUTC_compose 1756684800000 7 (-3)); unfold msPerDay; lia.
Defined.

Lemma startOfDayUTC_floor_witness :
  Z.abs 1756752120000 <= 8640000000000000
  /\ exists s,
       startOfDayUTC (Some 1756752120000) = Some s
       /\ s = Day 1756752120000 * msPerDay
       /\ s <= 1756752120000 < s + msPerDay
       /\ toISODateUTC (Some s) = toISODateUTC (Some 1756752120000)
       /\ toISOString (Some s) = Ok (isoDateOfTime 1756752120000 +:+ "T00:00:00.000Z")
       /\ startOfDayUTC (Some s) = Some s.
Proof. split; [lia|]. apply (startOfDayUTC_floor 1756752120000). lia. Defined.

Lemma endOfDayUTC_last_millisecond_witness :
  - 8640000000000000 <= 1756752120000 < 8640000000000000
  /\ endOfDayUTC (Some 1756752120000) = Some 1756771199999
  /\ toISOString (Some 1756771199999) = Ok "2025-09-01T23:59:59.999Z".
Proof.
  split; [lia|].
  destruct (endOfDayUTC_last_millisecond 1756752120000 ltac:(lia))
    as [(e & He & -> & _) _].
  split; [exact He|]. by vm_compute.
Defined.

Lemma iso_day_round_trip_witness :
  firstDay <= Day 1756752120000 <= lastDay
  /\ exists day,
       toISODateUTC (Some 1756752120000) = Ok day
       /\ String.length day = 10%nat
       /\ isValidISODate hostNone day = Ok true
       /\ fromISODateUTC hostNone day = startOfDayUTC (Some 1756752120000)
       /\ toISODateUTC (fromISODateUTC hostNone day) = Ok day.
Proof.
  assert (firstDay <= Day 1756752120000 <= lastDay) as H by (by vm_compute).
  split; [exact H|]. exact (iso_day_round_trip hostNone 1756752120000 H).
Defined.

Lemma eachDayInclusive_enumerates_witness :
  isValidISODate hostNone "2025-09-01" = Ok true
  /\ isValidISODate hostNone "2025-09-03" = Ok true
  /\ exists days,
       eachDayInclusive hostNone "2025-09-01" "2025-09-03" = Ok days
       /\ length days = 3%nat
       /\ head days = Some "2025-09-01"
       /\ last days = Some "2025-09-03".
Proof.
  assert (isValidISODate hostNone "2025-09-01" = Ok true) as Hfrom by (by vm_compute).
  assert (isValidISODate hostNone "2025-09-03" = Ok true) as Hto by (by vm_compute).
  split; [exact Hfrom|]. split; [exact Hto|].
  destruct (eachDayInclusive_enumerates hostNone "2025-09-01" "2025-09-03" Hfrom Hto)
    as (days & Hdays & _ & Hlen & _ & Hends & _).
  exists days. split; [exact Hdays|]. split; [exact Hlen|]. apply Hends.
  vm_compute. discriminate.
Defined.

Lemma iso_day_order_chronological_witness :
  firstDay <= Day 1756752120000 <= lastDay
  /\ firstDay <= Day 1767225600000 <= lastDay
  /\ toISODateUTC (Some 1756752120000) = Ok "2025-09-01"
  /\ toISODateUTC (Some 1767225600000) = Ok "2026-01-01"
  /\ strCompare "2025-09-01" "2026-01-01" = (Day 1756752120000 ?= Day 1767225600000)
  /\ strLt "2025-09-01" "2026-01-01" = (Day 1756752120000 <? Day 1767225600000)
  /\ strLe "2025-09-01" "2026-01-01" = (Day 1756752120000 <=? Day 1767225600000).
Proof.
  assert (firstDay <= Day 1756752120000 <= lastDay) as H1 by (by vm_compute).
  assert (firstDay <= Day 1767225600000 <= lastDay) as H2 by (by vm_compute).
  assert (toISODateUTC (Some 1756752120000) = Ok "2025-09-01") as E1 by (by vm_compute).
  assert (toISODateUTC (Some 1767225600000) = Ok "2026-01-01") as E2 by (by vm_compute).
  split; [exact H1|]. split; [exact H2|]. split; [exact E1|]. split; [exact E2|].
  exact (iso_day_order_chronological 1756752120000 1767225600000 _ _ H1 H2 E1 E2).
Defined.

Lemma externalId_identifies_invitation_witness :
  firstDay <= 20332 <= lastDay
  /\ 0 <= 2
  /\ MockInvitation.externalId (generateInvitation "t1" "a1" (isoDay 20332) 2)
     = "inv_grtib9_20250901_2"
  /\ externalIdKey (MockInvitation.externalId (generateInvitation "t1" "a1" (isoDay 20332) 2))
     = Some (removeChar "-" (isoDay 20332), 2).
Proof.
  assert (firstDay <= 20332 <= lastDay) as H by (by vm_compute).
  split; [exact H|]. split; [lia|]. split; [by vm_compute|].
  apply (externalId_identifies_invitation "t1" "a1" 20332 2 H). lia.
Defined.

Lemma generated_externalIds_distinct_witness :
  isValidISODate hostNone "2025-09-01" = Ok true
  /\ isValidISODate hostNone "2025-09-03" = Ok true
  /\ exists fetched,
       generated hostNone codeUnitCompare "t1" "a1" "2025-09-01" "2025-09-03" = Ok fetched
       /\ NoDup (MockInvitation.externalId <$> fetched)
       /\ NoDup fetched.
Proof.
  assert (isValidISODate hostNone "2025-09-01" = Ok true) as Hfrom by (by vm_compute).
  assert (isValidISODate hostNone "2025-09-03" = Ok true) as Hto by (by vm_compute).
  split; [exact Hfrom|]. split; [exact Hto|].
  exact (generated_externalIds_distinct hostNone codeUnitCompare "t1" "a1" _ _ Hfrom Hto).
Defined.

Lemma generated_count_per_day_witness :
  isValidISODate hostNone "2025-09-01" = Ok true
  /\ isValidISODate hostNone "2025-09-03" = Ok true
  /\ getExpectedDailyCount "t1" "a1" "2025-09-02" = 5
  /\ exists fetched,
       generated hostNone codeUnitCompare "t1" "a1" "2025-09-01" "2025-09-03" = Ok fetched
       /\ Z.of_nat (length (filter (fun invitation =>
                                      splitHead "T" (MockInvitation.receivedAt invitation)
                                      = isoDay 20333) fetched))
          = getExpectedDailyCount "t1" "a1" (isoDay 20333).
Proof.
  assert (isValidISODate hostNone "2025-09-01" = Ok true) as Hfrom by (by vm_compute).
  assert (isValidISODate hostNone "2025-09-03" = Ok true) as Hto by (by vm_compute).
  split; [exact Hfrom|]. split; [exact Hto|]. split; [by vm_compute|].
  destruct (generated_count_per_day hostNone codeUnitCompare "t1" "a1" _ _ Hfrom Hto)
    as (fetched & Hgen & Hcount & _).
  exists fetched. split; [exact Hgen|]. apply Hcount. vm_compute. split; discriminate.
Defined.

Lemma mockFetchInvitations_sorted_witness :
  (forall x y, codeUnitCompare x y <= 0 \/ codeUnitCompare y x <= 0)
  /\ (forall x y z, codeUnitCompare x y <= 0 -> codeUnitCompare y z <= 0 ->
                    codeUnitCompare x z <= 0)
  /\ exists days fetched,
    eachDayInclusive hostNone "2025-09-01" "2025-09-03" = Ok days
    /\ mockFetchInvitations hostNone codeUnitCompare "t1" "a1" "2025-09-01" "2025-09-03"
         (mkWorld ∅ ∅ 0)
       = (Ok fetched, mkWorld ∅ ∅ 100)
    /\ fetched ≡ₚ generatedFor "t1" "a1" days
    /\ StronglySorted (fun x y => codeUnitCompare (MockInvitation.receivedAt x)
                                                  (MockInvitation.receivedAt y) <= 0)
                      fetched.
Proof.
  split; [exact codeUnitCompare_total|]. split; [exact codeUnitCompare_trans|].
  exact (mockFetchInvitations_sorted hostNone codeUnitCompare "t1" "a1"
           "2025-09-01" "2025-09-03" (mkWorld ∅ ∅ 0)
           codeUnitCompare_total codeUnitCompare_trans).
Defined.

Lemma generated_receivedAt_canonical_witness :
  let invitation := MockInvitation.mk "inv_grthkm_20250902_0" "sender_j2zwiq"
                                       "2025-09-02T19:43:00.000Z" in
  isValidISODate hostNone "2025-09-02" = Ok true
  /\ generated hostNone codeUnitCompare "t1" "a1" "2025-09-02" "2025-09-02"
     = Ok [invitation;
           MockInvitation.mk "inv_grthkl_20250902_1" "sender_j2zwir" "2025-09-02T20:44:00.000Z";
           MockInvitation.mk "inv_grthkk_20250902_2" "sender_j2zwis" "2025-09-02T21:45:00.000Z";
           MockInvitation.mk "inv_grthkj_20250902_3" "sender_j2zwit" "2025-09-02T22:46:00.000Z";
           MockInvitation.mk "inv_grthki_20250902_4" "sender_j2zwiu" "2025-09-02T23:47:00.000Z"]
  /\ exists time,
       newDate hostNone (MockInvitation.receivedAt invitation) = Some time
       /\ toISOString (Some time) = Ok (MockInvitation.receivedAt invitation)
       /\ dayNumber hostNone "2025-09-02" * msPerDay <= time
            < (dayNumber hostNone "2025-09-02" + 1) * msPerDay
       /\ time mod msPerMinute = 0.
Proof.
  cbv zeta.
  assert (isValidISODate hostNone "2025-09-02" = Ok true) as Hday by (by vm_compute).
  split; [exact Hday|].
  assert (generated hostNone codeUnitCompare "t1" "a1" "2025-09-02" "2025-09-02" = Ok _)
    as Hgen by (vm_compute; reflexivity).
  split; [exact Hgen|].
  apply (generated_receivedAt_canonical hostNone codeUnitCompare "t1" "a1" _ _ _ _
           Hday Hday Hgen).
  apply list_elem_of_here.
Defined.

Lemma writeRawInvitations_idempotent_witness :
  let invs := [RawInvitation.mk "t1" "a1" "e1" "2025-09-01T10:00:00.000Z";
               RawInvitation.mk "t1" "a1" "e2" "2025-09-01T11:00:00.000Z"] in
  let w1 := (writeRawInvitations invs (mkWorld ∅ ∅ 0)).2 in
  Forall (fun invitation => pathSegment (RawInvitation.externalId invitation)) invs
  /\ writeRawInvitations invs w1 = (Ok tt, w1).
Proof.
  cbv zeta.
  assert (Forall (fun invitation => pathSegment (RawInvitation.externalId invitation))
                 [RawInvitation.mk "t1" "a1" "e1" "2025-09-01T10:00:00.000Z";
                  RawInvitation.mk "t1" "a1" "e2" "2025-09-01T11:00:00.000Z"]) as Hids
    by (do 2 (apply List.Forall_cons; [by split|]); apply List.Forall_nil).
  split; [exact Hids|].
  apply (writeRawInvitations_idempotent _ (mkWorld ∅ ∅ 0) Hids).
Defined.

Lemma writeRawInvitations_lookup_witness :
  pathSegment "e1"
  /\ ("e1" ∉ RawInvitation.externalId <$> [])
  /\ exists doc,
       invitations
         (writeRawInvitations
            [RawInvitation.mk "t1" "a1" "e1" "2025-09-01T10:00:00.000Z";
             RawInvitation.mk "t1" "a1" "e1" "2025-09-01T11:00:00.000Z"]
            (mkWorld ∅ ∅ 0)).2 !! "e1" = Some doc
       /\ doc !! "receivedAt" = Some (FString "2025-09-01T11:00:00.000Z").
Proof.
  assert (pathSegment "e1") as Hid by (split; [discriminate|reflexivity]).
  assert ("e1" ∉ RawInvitation.externalId <$> []) as Hlast by apply not_elem_of_nil.
  split; [exact Hid|]. split; [exact Hlast|].
  destruct (writeRawInvitations_lookup
              [RawInvitation.mk "t1" "a1" "e1" "2025-09-01T10:00:00.000Z"]
              (RawInvitation.mk "t1" "a1" "e1" "2025-09-01T11:00:00.000Z") []
              (mkWorld ∅ ∅ 0)
              ltac:(do 2 (apply List.Forall_cons; [exact Hid|]); apply List.Forall_nil)
              Hlast) as (doc & Hdoc & _ & _ & _ & Hreceived & _).
  exists doc. split; [exact Hdoc|exact Hreceived].
Defined.

Lemma queryInvitationsByDateRange_groups_by_day_witness :
  let w := mkWorld {["e1" := rawInvitationDoc
                               (RawInvitation.mk "t1" "a1" "e1" "2025-09-01T10:00:00.000Z")]}
                   ∅ 0 in
  (queryInvitationsByDateRange hostNone "t1" "a1" "2025-09-01" "2025-09-02" w).1
    = Ok [InvitationQueryResult.mk "2025-09-01" 1]
  /\ NoDup (InvitationQueryResult.date <$> [InvitationQueryResult.mk "2025-09-01" 1])
  /\ (queryInvitationsByDateRange hostNone "t1" "a1" "2025-09-01" "2025-09-02" w).2 = w.
Proof.
  cbv zeta.
  assert ((queryInvitationsByDateRange hostNone "t1" "a1" "2025-09-01" "2025-09-02"
             (mkWorld {["e1" := rawInvitationDoc
                                  (RawInvitation.mk "t1" "a1" "e1"
                                                    "2025-09-01T10:00:00.000Z")]} ∅ 0)).1
          = Ok [InvitationQueryResult.mk "2025-09-01" 1]) as Hq by (by vm_compute).
  split; [exact Hq|].
  destruct (queryInvitationsByDateRange_groups_by_day hostNone _ _ _ _ _ _ Hq)
    as (lower & upper & _ & _ & Hworld & Hdates & _).
  split; [exact Hdates|exact Hworld].
Defined.

Lemma queryInvitationsByDateRange_unreadable_timestamp_witness :
  let doc := rawInvitationDoc (RawInvitation.mk "t1" "a1" "x" "2025-09-01Tnoon") in
  toISOString (startOfDayUTC (fromISODateUTC hostNone "2025-09-01"))
    = Ok "2025-09-01T00:00:00.000Z"
  /\ toISOString (startOfDayUTC (addDaysUTC (fromISODateUTC hostNone "2025-09-02") 1))
     = Ok "2025-09-03T00:00:00.000Z"
  /\ (queryInvitationsByDateRange hostNone "t1" "a1" "2025-09-01" "2025-09-02"
        (mkWorld {["x" := doc]} ∅ 0)).1 = Throw "Invalid time value".
Proof.
  cbv zeta.
  assert (toISOString (startOfDayUTC (fromISODateUTC hostNone "2025-09-01"))
          = Ok "2025-09-01T00:00:00.000Z") as Hl by (by vm_compute).
  assert (toISOString (startOfDayUTC (addDaysUTC (fromISODateUTC hostNone "2025-09-02") 1))
          = Ok "2025-09-03T00:00:00.000Z") as Hu by (by vm_compute).
  split; [exact Hl|]. split; [exact Hu|].
  destruct (queryInvitationsByDateRange_unreadable_timestamp hostNone "t1" "a1"
              "2025-09-01" "2025-09-02"
              (mkWorld {["x" := rawInvitationDoc
                                  (RawInvitation.mk "t1" "a1" "x" "2025-09-01Tnoon")]} ∅ 0)
              _ _ Hl Hu) as (_ & Hthrow & _).
  apply Hthrow.
  exists "x", (rawInvitationDoc (RawInvitation.mk "t1" "a1" "x" "2025-09-01Tnoon")).
  split; [apply lookup_singleton_eq|]. split; by vm_compute.
Defined.

Lemma writeDailyRollups_lookup_witness :
  pathSegment "t1" /\ pathSegment "a1" /\ pathSegment "2025-09-01"
  /\ ("2025-09-01" ∉ Rollup.date <$> [])
  /\ exists doc updatedAt,
       metrics (writeDailyRollups "t1" "a1" [Rollup.mk "2025-09-01" 4 "ok"]
                  (mkWorld ∅ ∅ 0)).2
         !! "metrics/t1/accounts/a1/daily/2025-09-01" = Some doc
       /\ toISOString (Some 0) = Ok updatedAt
       /\ doc !! "invitationsCount" = Some (FNumber 4)
       /\ doc !! "updatedAt" = Some (FString updatedAt).
Proof.
  assert (pathSegment "t1") as Ht by (split; [discriminate|reflexivity]).
  assert (pathSegment "a1") as Ha by (split; [discriminate|reflexivity]).
  assert (pathSegment "2025-09-01") as Hd by (split; [discriminate|reflexivity]).
  assert ("2025-09-01" ∉ Rollup.date <$> []) as Hlast by apply not_elem_of_nil.
  split; [exact Ht|]. split; [exact Ha|]. split; [exact Hd|]. split; [exact Hlast|].
  destruct (writeDailyRollups_lookup "t1" "a1" [] (Rollup.mk "2025-09-01" 4 "ok") []
              (mkWorld ∅ ∅ 0) Ht Ha
              ltac:(apply List.Forall_cons; [exact Hd|apply List.Forall_nil]) Hlast)
    as (_ & _ & _ & doc & updatedAt & Hdoc & Hstamp & _ & Hcount & _ & Hupdated).
  exists doc, updatedAt. split; [exact Hdoc|]. split; [exact Hstamp|].
  split; [exact Hcount|exact Hupdated].
Defined.

Lemma fresh_request_reports_generated_counts_witness :
  pathSegment "t1" /\ pathSegment "a1"
  /\ firstDay + 7 <= 20332 /\ 20332 <= 20334 /\ 20334 < lastDay
  /\ isoDay 20332 = "2025-09-01" /\ isoDay 20334 = "2025-09-03"
  /\ (getDailyInvitationMetrics hostNone codeUnitCompare
        (Query.mk (QString "t1") (QString "a1")
                  (QString (isoDay 20332)) (QString (isoDay 20334)))
        (mkWorld ∅ ∅ 0)).1
     = Response.mk 200
         (MetricData
            (formatData ((fun k => (isoDay k, getExpectedDailyCount "t1" "a1" (isoDay k)))
                           <$> seqZ 20332 (20334 - 20332 + 1)) 0)).
Proof.
  assert (pathSegment "t1") as Ht by (split; [discriminate|reflexivity]).
  assert (pathSegment "a1") as Ha by (split; [discriminate|reflexivity]).
  assert (firstDay + 7 <= 20332) as Hfrom by (unfold firstDay; lia).
  assert (20334 < lastDay) as Hto by (unfold lastDay; lia).
  split; [exact Ht|]. split; [exact Ha|]. split; [exact Hfrom|]. split; [lia|].
  split; [exact Hto|]. split; [by vm_compute|]. split; [by vm_compute|].
  apply (fresh_request_reports_generated_counts hostNone codeUnitCompare "t1" "a1" 20332 20334
           (mkWorld ∅ ∅ 0) Ht Ha Hfrom ltac:(lia) Hto).
  intros id doc Hdoc. cbn [invitations] in Hdoc. by rewrite lookup_empty in Hdoc.
Defined.

Lemma rollups_match_response_witness :
  let run := getDailyInvitationMetrics hostNone codeUnitCompare
               (Query.mk (QString "t1") (QString "a1")
                         (QString "2025-09-01") (QString "2025-09-03"))
               (mkWorld ∅ ∅ 0) in
  Response.statusCode run.1 = 200
  /\ exists params points,
       validateQueryParams hostNone
         (Query.mk (QString "t1") (QString "a1") (QString "2025-09-01") (QString "2025-09-03"))
       = Ok (Valid params)
       /\ Response.body run.1 = MetricData points
       /\ forall point, point ∈ points ->
            exists doc,
              metrics run.2 !! ("metrics/" +:+ Params.tenantId params +:+ "/accounts/"
                                  +:+ Params.accountId params +:+ "/daily/"
                                  +:+ MetricDataPoint.date point) = Some doc
              /\ doc !! "date" = Some (FString (MetricDataPoint.date point))
              /\ doc !! "invitationsCount" = Some (FNumber (MetricDataPoint.value point))
              /\ doc !! "status" = Some (FString "ok")
              /\ exists time, doc !! "updatedAt" = Some (FString (isoInstant time)).
Proof.
  cbv zeta.
  assert (Response.statusCode
            (getDailyInvitationMetrics hostNone codeUnitCompare
               (Query.mk (QString "t1") (QString "a1")
                         (QString "2025-09-01") (QString "2025-09-03"))
               (mkWorld ∅ ∅ 0)).1 = 200) as H200 by (by vm_compute).
  split; [exact H200|].
  exact (rollups_match_response hostNone codeUnitCompare _ _ H200).
Defined.

Lemma accepted_request_stores_invitations_witness :
  let query := Query.mk (QString "t1") (QString "a1")
                        (QString "2025-09-01") (QString "2025-09-03") in
  let params := Params.mk "t1" "a1" "2025-09-01" "2025-09-03" in
  let run := getDailyInvitationMetrics hostNone codeUnitCompare query (mkWorld ∅ ∅ 0) in
  validateQueryParams hostNone query = Ok (Valid params)
  /\ exists fetched,
       generated hostNone codeUnitCompare "t1" "a1" "2025-09-01" "2025-09-03" = Ok fetched
       /\ forall invitation, invitation ∈ fetched ->
            exists doc,
              invitations run.2 !! MockInvitation.externalId invitation = Some doc
              /\ doc !! "tenantId" = Some (FString "t1")
              /\ doc !! "accountId" = Some (FString "a1")
              /\ doc !! "externalId" = Some (FString (MockInvitation.externalId invitation))
              /\ doc !! "receivedAt" = Some (FString (MockInvitation.receivedAt invitation)).
Proof.
  cbv zeta.
  assert (validateQueryParams hostNone
            (Query.mk (QString "t1") (QString "a1") (QString "2025-09-01")
                      (QString "2025-09-03"))
          = Ok (Valid (Params.mk "t1" "a1" "2025-09-01" "2025-09-03"))) as Hv
    by (by vm_compute).
  split; [exact Hv|].
  exact (accepted_request_stores_invitations hostNone codeUnitCompare _ _ (mkWorld ∅ ∅ 0) Hv).
Defined.

Lemma inverted_range_rejected_witness :
  "t1" <> "" /\ "a1" <> "" /\ firstDay <= 20332 /\ 20332 < 20341 /\ 20341 <= lastDay
  /\ isoDay 20341 = "2025-09-10" /\ isoDay 20332 = "2025-09-01"
  /\ getDailyInvitationMetrics hostNone codeUnitCompare
       (Query.mk (QString "t1") (QString "a1")
                 (QString (isoDay 20341)) (QString (isoDay 20332))) (mkWorld ∅ ∅ 0)
     = (Response.mk 400
          (ErrorResponse "Invalid query parameters"
                         "from date must be less than or equal to to date"), mkWorld ∅ ∅ 0).
Proof.
  assert (firstDay <= 20332) as Hb by (unfold firstDay; lia).
  assert (20341 <= lastDay) as Ha by (unfold lastDay; lia).
  split; [discriminate|]. split; [discriminate|]. split; [exact Hb|]. split; [lia|].
  split; [exact Ha|]. split; [by vm_compute|]. split; [by vm_compute|].
  apply (inverted_range_rejected hostNone codeUnitCompare "t1" "a1" 20341 20332
           (mkWorld ∅ ∅ 0)); [discriminate|discriminate|exact Hb|lia|exact Ha].
Defined.
